(** * fplstats: the GW1-picks scoring and automatic-substitution engine

    A shallow embedding of [fplstats/analyzers.py]: the player result
    aggregator ([get_player_gameweek_results],
    [get_combined_gameweek_result_for_player]) and the body of
    [get_gw1_picks_standings] (starting XI scan, captain / vice-captain
    points, goalkeeper auto-sub, outfield auto-sub loop).

    Python [int] is [Z]; a [dict] keyed by player id is a [gmap string];
    a raised exception is the [Raise] outcome. *)

From stdpp Require Import gmap strings list fin_maps relations.
From Stdlib Require Import ZArith Lia Sorted.

Local Open Scope Z_scope.

(** ** Exceptions and outcomes *)

Inductive exn : Type :=
  | KeyError (key : string)
  | IndexError
  | StopIteration
  | AssertionError.

(** The outcome of running a piece of the program.  [Timeout] is what the
    fuel-bounded model of [while gw_bench_picks:] answers when its fuel is
    spent; no other construct produces it. *)
Inductive outcome (A : Type) : Type :=
  | Ok (a : A)
  | Raise (e : exn)
  | Timeout.

Arguments Ok {A} a.
Arguments Raise {A} e.
Arguments Timeout {A}.

#[global] Instance outcome_ret : MRet outcome := fun A a => Ok a.
#[global] Instance outcome_bind : MBind outcome := fun A B f m =>
  match m with
  | Ok a => f a
  | Raise e => Raise e
  | Timeout => Timeout
  end.
#[global] Instance outcome_fmap : FMap outcome := fun A B f m =>
  match m with
  | Ok a => Ok (f a)
  | Raise e => Raise e
  | Timeout => Timeout
  end.

(** Python truthiness of an [int]: [if minutes:] *)
Definition truthy (z : Z) : bool := negb (z =? 0).

(** [len(l)] as a Python int *)
Definition len {A} (l : list A) : Z := Z.of_nat (length l).

(** ** enums.py *)

Inductive Position : Type :=
  | GOALKEEPER
  | DEFENDER
  | MIDFIELDER
  | ATTACKER
  | MANAGER.

#[global] Instance Position_eq_dec : EqDecision Position.
Proof. solve_decision. Defined.

(** ** models.py *)

(** One fixture of one player.  [kickoff_time] is never read by the engine
    and is left out; every field the aggregator sums is kept. *)
Module PlayerHistory.
Record t : Type := mk {
  round : Z;
  element : string;
  fixture : Z;
  opponent_team : Z;
  total_points : Z;
  was_home : bool;
  minutes : Z;
  goals_scored : Z;
  assists : Z;
  clean_sheets : Z;
  goals_conceded : Z;
  own_goals : Z;
  penalties_saved : Z;
  penalties_missed : Z;
  yellow_cards : Z;
  red_cards : Z;
  saves : Z;
  bonus : Z;
  bps : Z
}.
End PlayerHistory.

(** The season-aggregate columns of [Player] are not read by the engine;
    the identity, the position and the fixture history are. *)
Module Player.
Record t : Type := mk {
  id : string;
  element_type : Position;
  web_name : string;
  history : list PlayerHistory.t
}.
End Player.

Module Pick.
Record t : Type := mk {
  element : string;
  position : Z;
  multiplier : Z;
  is_captain : bool;
  is_vice_captain : bool
}.
End Pick.

(** [PlayerGameweekCombinedResult], every field defaulting to 0. *)
Module Combined.
Record t : Type := mk {
  total_points : Z;
  minutes : Z;
  goals_scored : Z;
  assists : Z;
  clean_sheets : Z;
  goals_conceded : Z;
  own_goals : Z;
  penalties_saved : Z;
  penalties_missed : Z;
  yellow_cards : Z;
  red_cards : Z;
  saves : Z;
  bonus : Z;
  bps : Z
}.

Definition zero : t := mk 0 0 0 0 0 0 0 0 0 0 0 0 0 0.

(** The inner [for key in combined_result.__fields__.keys()] loop:
    every field gets [current_value + new_value]. *)
Definition add (c : t) (h : PlayerHistory.t) : t :=
  mk (total_points c + PlayerHistory.total_points h)
     (minutes c + PlayerHistory.minutes h)
     (goals_scored c + PlayerHistory.goals_scored h)
     (assists c + PlayerHistory.assists h)
     (clean_sheets c + PlayerHistory.clean_sheets h)
     (goals_conceded c + PlayerHistory.goals_conceded h)
     (own_goals c + PlayerHistory.own_goals h)
     (penalties_saved c + PlayerHistory.penalties_saved h)
     (penalties_missed c + PlayerHistory.penalties_missed h)
     (yellow_cards c + PlayerHistory.yellow_cards h)
     (red_cards c + PlayerHistory.red_cards h)
     (saves c + PlayerHistory.saves h)
     (bonus c + PlayerHistory.bonus h)
     (bps c + PlayerHistory.bps h).
End Combined.

(** ** The player store and the aggregator *)

(** [self.players[key]] *)
Definition players_get (players : gmap string Player.t) (key : string)
  : outcome Player.t :=
  match players !! key with
  | Some p => Ok p
  | None => Raise (KeyError key)
  end.

(** [get_player_gameweek_results] *)
Definition get_player_gameweek_results
    (players : gmap string Player.t) (player_id : string) (gameweek_number : Z)
  : outcome (list PlayerHistory.t) :=
  player ← players_get players player_id;
  mret (List.filter (fun x => PlayerHistory.round x =? gameweek_number)
                    (Player.history player)).

(** [get_combined_gameweek_result_for_player] *)
Definition get_combined_gameweek_result_for_player
    (players : gmap string Player.t) (player_id : string) (gameweek_number : Z)
  : outcome Combined.t :=
  player_gw_results ← get_player_gameweek_results players player_id gameweek_number;
  mret (fold_left Combined.add player_gw_results Combined.zero).

(** ** The local variables of [get_gw1_picks_standings]

    The first five are the per-user season accumulators, the rest are the
    variables (re)assigned inside [for gw_number in gw_numbers]. *)

Record Vars : Type := mkVars {
  total_captain_points : Z;
  total_vice_captain_points : Z;
  total_points : Z;
  total_auto_sub_points : Z;
  points_per_player : gmap string Z;
  total_gw_points : Z;
  captain_mins : Z;
  captain_points : Z;
  vc_mins : Z;
  vc_points : Z;
  gk : option Player.t;
  defs : list Player.t;
  mids : list Player.t;
  fwds : list Player.t;
  gw_bench_picks : list Pick.t
}.

Definition set_total_captain_points (x : Z) (v : Vars) : Vars :=
  mkVars x (total_vice_captain_points v) (total_points v)
    (total_auto_sub_points v) (points_per_player v) (total_gw_points v)
    (captain_mins v) (captain_points v) (vc_mins v) (vc_points v)
    (gk v) (defs v) (mids v) (fwds v) (gw_bench_picks v).

Definition set_total_vice_captain_points (x : Z) (v : Vars) : Vars :=
  mkVars (total_captain_points v) x (total_points v)
    (total_auto_sub_points v) (points_per_player v) (total_gw_points v)
    (captain_mins v) (captain_points v) (vc_mins v) (vc_points v)
    (gk v) (defs v) (mids v) (fwds v) (gw_bench_picks v).

Definition set_total_points (x : Z) (v : Vars) : Vars :=
  mkVars (total_captain_points v) (total_vice_captain_points v) x
    (total_auto_sub_points v) (points_per_player v) (total_gw_points v)
    (captain_mins v) (captain_points v) (vc_mins v) (vc_points v)
    (gk v) (defs v) (mids v) (fwds v) (gw_bench_picks v).

Definition set_total_auto_sub_points (x : Z) (v : Vars) : Vars :=
  mkVars (total_captain_points v) (total_vice_captain_points v)
    (total_points v) x (points_per_player v) (total_gw_points v)
    (captain_mins v) (captain_points v) (vc_mins v) (vc_points v)
    (gk v) (defs v) (mids v) (fwds v) (gw_bench_picks v).

Definition set_points_per_player (x : gmap string Z) (v : Vars) : Vars :=
  mkVars (total_captain_points v) (total_vice_captain_points v)
    (total_points v) (total_auto_sub_points v) x (total_gw_points v)
    (captain_mins v) (captain_points v) (vc_mins v) (vc_points v)
    (gk v) (defs v) (mids v) (fwds v) (gw_bench_picks v).

Definition set_total_gw_points (x : Z) (v : Vars) : Vars :=
  mkVars (total_captain_points v) (total_vice_captain_points v)
    (total_points v) (total_auto_sub_points v) (points_per_player v) x
    (captain_mins v) (captain_points v) (vc_mins v) (vc_points v)
    (gk v) (defs v) (mids v) (fwds v) (gw_bench_picks v).

(** [captain_mins, captain_points = m, p] *)
Definition set_captain (m p : Z) (v : Vars) : Vars :=
  mkVars (total_captain_points v) (total_vice_captain_points v)
    (total_points v) (total_auto_sub_points v) (points_per_player v)
    (total_gw_points v) m p (vc_mins v) (vc_points v)
    (gk v) (defs v) (mids v) (fwds v) (gw_bench_picks v).

(** [vc_mins, vc_points = m, p] *)
Definition set_vc (m p : Z) (v : Vars) : Vars :=
  mkVars (total_captain_points v) (total_vice_captain_points v)
    (total_points v) (total_auto_sub_points v) (points_per_player v)
    (total_gw_points v) (captain_mins v) (captain_points v) m p
    (gk v) (defs v) (mids v) (fwds v) (gw_bench_picks v).

Definition set_gk (x : option Player.t) (v : Vars) : Vars :=
  mkVars (total_captain_points v) (total_vice_captain_points v)
    (total_points v) (total_auto_sub_points v) (points_per_player v)
    (total_gw_points v) (captain_mins v) (captain_points v) (vc_mins v)
    (vc_points v) x (defs v) (mids v) (fwds v) (gw_bench_picks v).

Definition set_defs (x : list Player.t) (v : Vars) : Vars :=
  mkVars (total_captain_points v) (total_vice_captain_points v)
    (total_points v) (total_auto_sub_points v) (points_per_player v)
    (total_gw_points v) (captain_mins v) (captain_points v) (vc_mins v)
    (vc_points v) (gk v) x (mids v) (fwds v) (gw_bench_picks v).

Definition set_mids (x : list Player.t) (v : Vars) : Vars :=
  mkVars (total_captain_points v) (total_vice_captain_points v)
    (total_points v) (total_auto_sub_points v) (points_per_player v)
    (total_gw_points v) (captain_mins v) (captain_points v) (vc_mins v)
    (vc_points v) (gk v) (defs v) x (fwds v) (gw_bench_picks v).

Definition set_fwds (x : list Player.t) (v : Vars) : Vars :=
  mkVars (total_captain_points v) (total_vice_captain_points v)
    (total_points v) (total_auto_sub_points v) (points_per_player v)
    (total_gw_points v) (captain_mins v) (captain_points v) (vc_mins v)
    (vc_points v) (gk v) (defs v) (mids v) x (gw_bench_picks v).

Definition set_gw_bench_picks (x : list Pick.t) (v : Vars) : Vars :=
  mkVars (total_captain_points v) (total_vice_captain_points v)
    (total_points v) (total_auto_sub_points v) (points_per_player v)
    (total_gw_points v) (captain_mins v) (captain_points v) (vc_mins v)
    (vc_points v) (gk v) (defs v) (mids v) (fwds v) x.

(** [points_per_player[key] += x]: a [KeyError] when the key was never
    initialised. *)
Definition points_per_player_add (key : string) (x : Z) (v : Vars)
  : outcome Vars :=
  match points_per_player v !! key with
  | Some old => Ok (set_points_per_player (<[key := old + x]> (points_per_player v)) v)
  | None => Raise (KeyError key)
  end.

(** [del l[i]]: an [IndexError] out of range. *)
Definition del_at {A} (i : nat) (l : list A) : outcome (list A) :=
  if decide (i < length l)%nat then Ok (delete i l) else Raise IndexError.

(** [for x in l: s = body(s, x)] for a body that neither breaks nor
    continues. *)
Fixpoint for_each {A S} (body : S -> A -> outcome S) (l : list A) (s : S)
  : outcome S :=
  match l with
  | [] => Ok s
  | x :: l' => s' ← body s x; for_each body l' s'
  end.

(** [next(x for x in l if f(x))] without a default. *)
Definition next_where {A} (f : A -> bool) (l : list A) : outcome A :=
  match List.filter f l with
  | x :: _ => Ok x
  | [] => Raise StopIteration
  end.

(** How one pass of [for (i, bench_pick) in enumerate(gw_bench_picks)]
    left through a [break]. *)
Inductive bench_exit : Type :=
  | Cleared (dropped : list Pick.t)
  | Removed (bench_pick : Pick.t)
  | SubbedIn (bench_pick : Pick.t).

(** The outfield pool: [outfield_players = defs + mids + fwds] *)
Definition outfield_players (v : Vars) : list Player.t :=
  defs v ++ mids v ++ fwds v.

(** The value of [should_be_force_subbed_in] after the
    [if len(outfield_players) == 10: ... elif ... <= 10:] block. *)
Definition should_be_force_subbed_in (v : Vars) : bool :=
  if len (outfield_players v) =? 10 then false
  else len (outfield_players v) + len (gw_bench_picks v) <=? 10.

(** The players counted for scoring at the end of a gameweek. *)
Definition scoring_set (v : Vars) : list Player.t :=
  option_list (gk v) ++ outfield_players v.

(** The captain / vice-captain points the gameweek adds on top of the
    players' own points. *)
Definition captain_vc_extra (v : Vars) : Z :=
  if truthy (captain_mins v) then captain_points v
  else if truthy (vc_mins v) then vc_points v
  else 0.

(** The [if starting_pick.is_captain: ... elif starting_pick.is_vice_captain:]
    block of the starting XI scan. *)
Definition note_armband (pick : Pick.t) (r : Combined.t) (v : Vars) : Vars :=
  if Pick.is_captain pick then
    set_captain (Combined.minutes r) (Combined.total_points r) v
  else if Pick.is_vice_captain pick then
    set_vc (Combined.minutes r) (Combined.total_points r) v
  else v.

(** The [if starting_player_pos == ...] chain that files a starter who
    played under [gk], [defs], [mids] or [fwds]. *)
Definition file_starter (p : Player.t) (v : Vars) : Vars :=
  if decide (Player.element_type p = GOALKEEPER) then set_gk (Some p) v
  else if decide (Player.element_type p = DEFENDER) then
    set_defs (defs v ++ [p]) v
  else if decide (Player.element_type p = MIDFIELDER) then
    set_mids (mids v ++ [p]) v
  else set_fwds (fwds v ++ [p]) v.

(** ** The body of [get_gw1_picks_standings] for one user *)

Section Engine.

(** [self.players] *)
Variable players : gmap string Player.t.

(** [fplstats.constants]: the formation minimums.  The engine only
    compares pool sizes against them. *)
Variables MIN_DEFS MIN_MIDS MIN_FWDS : Z.

(** The body of [for i, starting_pick in enumerate(gw1_starting_picks)] *)
Definition starting_pick_step (gw_number : Z) (v : Vars)
    (starting_pick : Pick.t) : outcome Vars :=
  starting_player ← players_get players (Pick.element starting_pick);
  starting_player_gw ←
    get_combined_gameweek_result_for_player
      players (Player.id starting_player) gw_number;
  let v := note_armband starting_pick starting_player_gw v in
  if truthy (Combined.minutes starting_player_gw) then
    let v := file_starter starting_player v in
    v ← points_per_player_add (Player.id starting_player)
          (Combined.total_points starting_player_gw) v;
    mret (set_total_gw_points
            (total_gw_points v + Combined.total_points starting_player_gw) v)
  else mret v.

(** [# Add captain/VC points] *)
Definition add_captain_vc_points (v : Vars) : Vars :=
  if truthy (captain_mins v) then
    set_total_captain_points (total_captain_points v + captain_points v)
      (set_total_gw_points (total_gw_points v + captain_points v) v)
  else if truthy (vc_mins v) then
    set_total_vice_captain_points (total_vice_captain_points v + vc_points v)
      (set_total_gw_points (total_gw_points v + vc_points v) v)
  else v.

(** [# Auto-sub keeper if applicable], from the copy of the bench to
    [del gw_bench_picks[0]] *)
Definition auto_sub_keeper (gw_number : Z) (gw1_bench_picks : list Pick.t)
    (v : Vars) : outcome Vars :=
  let v := set_gw_bench_picks gw1_bench_picks v in
  match gw_bench_picks v with
  | [] => Raise IndexError
  | gk_bench_pick :: _ =>
      v ← match gk v with
          | Some _ => mret v
          | None =>
              let gk_player_id := Pick.element gk_bench_pick in
              gk_bench_player_gw ←
                get_combined_gameweek_result_for_player
                  players gk_player_id gw_number;
              if truthy (Combined.minutes gk_bench_player_gw) then
                gk_player ← players_get players gk_player_id;
                let v := set_gk (Some gk_player) v in
                let v := set_total_auto_sub_points
                           (total_auto_sub_points v
                            + Combined.total_points gk_bench_player_gw) v in
                points_per_player_add gk_player_id
                  (Combined.total_points gk_bench_player_gw) v
              else mret v
          end;
      l ← del_at 0 (gw_bench_picks v);
      mret (set_gw_bench_picks l v)
  end.

(** The [if not bench_player_gw.minutes: ... else: ...] block of the
    bench scan: the variables after it, [should_be_subbed_in] and
    [should_be_removed].  The third position test repeats
    [Position.MIDFIELDER], as the source does. *)
Definition check_sub_in (v : Vars) (force : bool) (bench_player : Player.t)
    (bench_player_gw : Combined.t) : Vars * bool * bool :=
  let bench_player_pos := Player.element_type bench_player in
  if negb (truthy (Combined.minutes bench_player_gw)) then
    (v, false, true)
  else if decide (bench_player_pos = DEFENDER) then
    if (len (defs v) <? MIN_DEFS)
       || ((MIN_MIDS <=? len (mids v)) && (MIN_FWDS <=? len (fwds v)))
       || force
    then (set_defs (defs v ++ [bench_player]) v, true, false)
    else (v, false, false)
  else if decide (bench_player_pos = MIDFIELDER) then
    if (len (mids v) <? MIN_MIDS)
       || ((MIN_DEFS <=? len (defs v)) && (MIN_FWDS <=? len (fwds v)))
       || force
    then (set_mids (mids v ++ [bench_player]) v, true, false)
    else (v, false, false)
  else if decide (bench_player_pos = MIDFIELDER) then
    if (len (fwds v) <? MIN_FWDS)
       || ((MIN_DEFS <=? len (defs v)) && (MIN_MIDS <=? len (mids v)))
       || force
    then (set_fwds (fwds v ++ [bench_player]) v, true, false)
    else (v, false, false)
  else (v, false, false).

(** The [# Remove or sub in outfield bench player] block, after
    [is_last_pick] is taken into account. *)
Definition remove_or_sub_in (v : Vars) (i : nat) (bench_pick : Pick.t)
    (bench_player_gw : Combined.t)
    (should_be_subbed_in should_be_removed : bool)
  : outcome (Vars * option bench_exit) :=
  let is_last_pick := Z.of_nat i =? len (gw_bench_picks v) - 1 in
  let should_be_removed :=
    should_be_removed || (is_last_pick && negb should_be_subbed_in) in
  if should_be_removed then
    l ← del_at i (gw_bench_picks v);
    mret (set_gw_bench_picks l v, Some (Removed bench_pick))
  else if should_be_subbed_in then
    let v := set_total_gw_points
               (total_gw_points v + Combined.total_points bench_player_gw) v in
    let v := set_total_auto_sub_points
               (total_auto_sub_points v
                + Combined.total_points bench_player_gw) v in
    v ← points_per_player_add (Pick.element bench_pick)
          (Combined.total_points bench_player_gw) v;
    l ← del_at i (gw_bench_picks v);
    mret (set_gw_bench_picks l v, Some (SubbedIn bench_pick))
  else mret (v, None).

(** The body of [for (i, bench_pick) in enumerate(gw_bench_picks)].
    [Some e] is a [break], [None] falls through to the next [i]. *)
Definition bench_pick_step (gw_number : Z) (v : Vars) (i : nat)
    (bench_pick : Pick.t) : outcome (Vars * option bench_exit) :=
  if len (outfield_players v) =? 10 then
    mret (set_gw_bench_picks [] v, Some (Cleared (gw_bench_picks v)))
  else
    let force := should_be_force_subbed_in v in
    bench_player ← players_get players (Pick.element bench_pick);
    bench_player_gw ←
      get_combined_gameweek_result_for_player
        players (Player.id bench_player) gw_number;
    let c := check_sub_in v force bench_player bench_player_gw in
    remove_or_sub_in c.1.1 i bench_pick bench_player_gw c.1.2 c.2.

(** [for (i, bench_pick) in enumerate(gw_bench_picks)], from index [i]
    on; every mutation of the list is followed by [break], so the items
    still to visit are those of the list the pass started with. *)
Fixpoint bench_for (gw_number : Z) (v : Vars) (i : nat)
    (items : list Pick.t) : outcome (Vars * option bench_exit) :=
  match items with
  | [] => mret (v, None)
  | bench_pick :: rest =>
      r ← bench_pick_step gw_number v i bench_pick;
      match r.2 with
      | Some _ => mret r
      | None => bench_for gw_number r.1 (S i) rest
      end
  end.

(** One execution of the [for] statement inside the [while]. *)
Definition bench_pass (gw_number : Z) (v : Vars)
  : outcome (Vars * option bench_exit) :=
  bench_for gw_number v 0%nat (gw_bench_picks v).

(** [while gw_bench_picks:], with fuel for the number of passes. *)
Fixpoint auto_sub_outfield (gw_number : Z) (fuel : nat) (v : Vars)
  : outcome Vars :=
  match gw_bench_picks v with
  | [] => Ok v
  | _ :: _ =>
      match fuel with
      | O => Timeout
      | S fuel' =>
          r ← bench_pass gw_number v;
          auto_sub_outfield gw_number fuel' r.1
      end
  end.

(** The [break]s the [while] loop goes through, in order: which bench
    picks were subbed in, which were removed, which were dropped when the
    pool was full.  An observer of [bench_pass]; it is no part of the
    program. *)
Fixpoint outfield_breaks (gw_number : Z) (fuel : nat) (v : Vars)
  : list bench_exit :=
  match gw_bench_picks v, fuel with
  | _ :: _, S fuel' =>
      match bench_pass gw_number v with
      | Ok (v', Some e) => e :: outfield_breaks gw_number fuel' v'
      | Ok (v', None) => outfield_breaks gw_number fuel' v'
      | _ => []
      end
  | _, _ => []
  end.

(** The assignments at the top of [for gw_number in gw_numbers] *)
Definition start_gameweek (v : Vars) : Vars :=
  set_fwds [] (set_mids [] (set_defs [] (set_gk None
    (set_vc 0 0 (set_captain 0 0 (set_total_gw_points 0 v)))))).

(** The gameweek up to and including [assert len(gw_bench_picks) == 3]:
    starting XI, captain / vice-captain points, goalkeeper auto-sub. *)
Definition before_outfield (gw_number : Z)
    (gw1_starting_picks gw1_bench_picks : list Pick.t) (v : Vars)
  : outcome Vars :=
  let v := start_gameweek v in
  v ← for_each (starting_pick_step gw_number) gw1_starting_picks v;
  let v := add_captain_vc_points v in
  v ← auto_sub_keeper gw_number gw1_bench_picks v;
  if len (gw_bench_picks v) =? 3 then mret v else Raise AssertionError.

(** The whole body of [for gw_number in gw_numbers] *)
Definition gameweek (gw_number : Z)
    (gw1_starting_picks gw1_bench_picks : list Pick.t) (v : Vars)
  : outcome Vars :=
  v ← before_outfield gw_number gw1_starting_picks gw1_bench_picks v;
  v ← auto_sub_outfield gw_number (length (gw_bench_picks v)) v;
  mret (set_total_points (total_points v + total_gw_points v) v).

(** The bench picks subbed in, removed or dropped by the outfield stage
    of a gameweek. *)
Definition gameweek_outfield_breaks (gw_number : Z)
    (gw1_starting_picks gw1_bench_picks : list Pick.t) (v : Vars)
  : outcome (list bench_exit) :=
  v ← before_outfield gw_number gw1_starting_picks gw1_bench_picks v;
  mret (outfield_breaks gw_number (length (gw_bench_picks v)) v).


End Engine.

(** ** Python lists and dicts used by the league statistics *)

(** [l[i]] for a Python int [i]: a negative index counts from the end, an
    index outside [-len(l), len(l)) raises [IndexError]. *)
Definition py_index {A} (l : list A) (i : Z) : outcome A :=
  let j := if i <? 0 then i + len l else i in
  if (0 <=? j) && (j <? len l) then
    match l !! Z.to_nat j with
    | Some x => Ok x
    | None => Raise IndexError
    end
  else Raise IndexError.

(** One step of a stable sort: [x] goes in front of the first element it
    does not have to follow. *)
Fixpoint py_insert {A} (key : A -> Z) (reverse : bool) (x : A) (l : list A)
  : list A :=
  match l with
  | [] => [x]
  | y :: l' =>
      if (if reverse then key x <? key y else key y <? key x)
      then y :: py_insert key reverse x l'
      else x :: l
  end.

(** [sorted(l, key=key, reverse=reverse)]: the stable sort of Python, by
    ascending key, or by descending key when [reverse]; elements with equal
    keys keep the order they have in [l] in both directions. *)
Definition py_sorted {A} (key : A -> Z) (reverse : bool) (l : list A)
  : list A :=
  foldr (py_insert key reverse) [] l.

(** [d[key]] for a dict kept in insertion order. *)
Fixpoint dict_get {V} (d : list (string * V)) (key : string) : outcome V :=
  match d with
  | [] => Raise (KeyError key)
  | (k, x) :: d' => if decide (k = key) then Ok x else dict_get d' key
  end.

(** [for x in l: results.append(f(x))] *)
Definition for_append {A B} (f : A -> outcome B) (l : list A) (results : list B)
  : outcome (list B) :=
  for_each (fun results x => y ← f x; mret (results ++ [y])) l results.

(** [enumerate(l)], counting from [i]. *)
Fixpoint enumerate_from {A} (i : nat) (l : list A) : list (nat * A) :=
  match l with
  | [] => []
  | x :: l' => (i, x) :: enumerate_from (S i) l'
  end.

(** ** models.py: users and gameweeks *)

Module AutoSub.
Record t : Type := mk {
  event : Z;
  entry : string;
  element_in : string;
  element_out : string
}.
End AutoSub.

(** One gameweek of a user.  The statistics below read the numbers and
    the picks; [auto_subs], [chips] and [transfers] of a gameweek are read
    by none of them and are left out. *)
Module UserHistory.
Record t : Type := mk {
  event : Z;
  points : Z;
  total_points : Z;
  rank : Z;
  rank_sort : Z;
  overall_rank : Z;
  bank : Z;
  value : Z;
  event_transfers : Z;
  event_transfers_cost : Z;
  points_on_bench : Z;
  picks : list Pick.t
}.
End UserHistory.

(** A user; [chips] and [transfers] are read by none of the statistics
    below and are left out. *)
Module User.
Record t : Type := mk {
  id : string;
  name : string;
  history : list UserHistory.t;
  auto_subs : list AutoSub.t
}.
End User.

Module Gameweek.
Record t : Type := mk {
  id : Z;
  name : string;
  finished : bool
}.
End Gameweek.

(** ** analyzers.py: result rows *)

Module HistoricStandingListItem.
Record t : Type := mk {
  id : string;
  name : string;
  total_points : Z
}.
End HistoricStandingListItem.

Module GameweekPlayer.
Record t : Type := mk {
  player : Player.t;
  combined_result : Combined.t;
  results : list PlayerHistory.t
}.
End GameweekPlayer.

Module LongestLeaderResultRow.
Record t : Type := mk {
  id : string;
  name : string;
  first_place_count : Z
}.
End LongestLeaderResultRow.

Module LongestLoserResultRow.
Record t : Type := mk {
  id : string;
  name : string;
  last_place_count : Z
}.
End LongestLoserResultRow.

(** [BiggestLeaderResultRow], and [BiggestLoserResultRow] which adds
    nothing to it. *)
Module BiggestLeaderResultRow.
Record t : Type := mk {
  id : string;
  name : string;
  point_gap : Z;
  gameweek : Z
}.
End BiggestLeaderResultRow.

Module CaptainResultRow.
Record t : Type := mk {
  id : string;
  name : string;
  total_captain_points : Z;
  total_vc_points : Z;
  total_gameweeks_with_vc : Z;
  total_gameweeks_without_captain : Z
}.
End CaptainResultRow.

Module PointsWithoutCaptainResultRow.
Record t : Type := mk {
  id : string;
  name : string;
  points : Z
}.
End PointsWithoutCaptainResultRow.

Module TopScorerResultRow.
Record t : Type := mk {
  id : string;
  name : string;
  goals_scored : Z
}.
End TopScorerResultRow.

Module AssistKingResultRow.
Record t : Type := mk {
  id : string;
  name : string;
  assists : Z
}.
End AssistKingResultRow.

Module GoalInvolvementsResultRow.
Record t : Type := mk {
  id : string;
  name : string;
  goal_involvements : Z
}.
End GoalInvolvementsResultRow.

(** The dict rows of [get_most_auto_sub_points] *)
Module AutoSubPointsRow.
Record t : Type := mk {
  id : string;
  name : string;
  total_auto_sub_points : Z
}.
End AutoSubPointsRow.

(** [l.count(x)] *)
Definition py_count (x : string) (l : list string) : Z :=
  len (List.filter (fun y => bool_decide (y = x)) l).

(** ** The league statistics *)

Section League.

(** [self.gameweeks], [self.users] (a dict in insertion order) and
    [self.players] *)
Variable gameweeks : list Gameweek.t.
Variable users : list (string * User.t).
Variable players : gmap string Player.t.

(** The inner loops of [get_gameweek_players] that combine a player's
    results: [total_points] is multiplied by the pick's multiplier, the
    other fields are summed as they are. *)
Definition add_with_multiplier (multiplier : Z) (c : Combined.t)
    (h : PlayerHistory.t) : Combined.t :=
  Combined.mk
    (Combined.total_points c + multiplier * PlayerHistory.total_points h)
    (Combined.minutes c + PlayerHistory.minutes h)
    (Combined.goals_scored c + PlayerHistory.goals_scored h)
    (Combined.assists c + PlayerHistory.assists h)
    (Combined.clean_sheets c + PlayerHistory.clean_sheets h)
    (Combined.goals_conceded c + PlayerHistory.goals_conceded h)
    (Combined.own_goals c + PlayerHistory.own_goals h)
    (Combined.penalties_saved c + PlayerHistory.penalties_saved h)
    (Combined.penalties_missed c + PlayerHistory.penalties_missed h)
    (Combined.yellow_cards c + PlayerHistory.yellow_cards h)
    (Combined.red_cards c + PlayerHistory.red_cards h)
    (Combined.saves c + PlayerHistory.saves h)
    (Combined.bonus c + PlayerHistory.bonus h)
    (Combined.bps c + PlayerHistory.bps h).

(** The body of [for pick in user_gameweek.picks] in
    [get_gameweek_players] *)
Definition gameweek_player_step (gameweek_number : Z)
    (gameweek_players : list GameweekPlayer.t) (pick : Pick.t)
  : outcome (list GameweekPlayer.t) :=
  if 1 <=? Pick.multiplier pick then
    let player_id := Pick.element pick in
    player ← players_get players player_id;
    player_gw_results ←
      get_player_gameweek_results players player_id gameweek_number;
    let combined_result :=
      fold_left (add_with_multiplier (Pick.multiplier pick))
                player_gw_results Combined.zero in
    mret (gameweek_players
          ++ [GameweekPlayer.mk player combined_result player_gw_results])
  else mret gameweek_players.

(** [get_gameweek_players] *)
Definition get_gameweek_players (user_id : string) (gameweek_number : Z)
  : outcome (list GameweekPlayer.t) :=
  user ← dict_get users user_id;
  user_gameweek ← py_index (User.history user) (gameweek_number - 1);
  for_each (gameweek_player_step gameweek_number)
           (UserHistory.picks user_gameweek) [].

(** The standings of the [i]-th finished gameweek, before sorting: the
    inner [for user in self.users.values()] of [get_historic_standings]. *)
Definition gameweek_standings (i : nat) : outcome (list HistoricStandingListItem.t) :=
  for_append
    (fun user : User.t =>
       user_gameweek ← py_index (User.history user) (Z.of_nat i);
       mret (HistoricStandingListItem.mk (User.id user) (User.name user)
               (UserHistory.total_points user_gameweek)))
    users.*2 [].

(** [get_historic_standings] from [# Build historic standings] on. *)
Definition build_historic_standings
  : outcome (list (list HistoricStandingListItem.t)) :=
  let finished_gameweeks := List.filter Gameweek.finished gameweeks in
  for_append
    (fun '(i, gameweek) =>
       gameweek_standings ← gameweek_standings i;
       mret (py_sorted HistoricStandingListItem.total_points true
                       gameweek_standings))
    (enumerate_from 0 finished_gameweeks) [].

(** [get_historic_standings]: the value returned and the new value of
    [self._historic_standings].  A cache that is [None] or holds an empty
    list is falsy and is rebuilt. *)
Definition get_historic_standings
    (_historic_standings : option (list (list HistoricStandingListItem.t)))
  : outcome (list (list HistoricStandingListItem.t)
             * option (list (list HistoricStandingListItem.t))) :=
  match _historic_standings with
  | Some (s :: ss) => mret (s :: ss, _historic_standings)
  | _ =>
      historic_standings ← build_historic_standings;
      mret (historic_standings, Some historic_standings)
  end.

(** [get_longest_leader], without the printing *)
Definition get_longest_leader
    (_historic_standings : option (list (list HistoricStandingListItem.t)))
  : outcome (list LongestLeaderResultRow.t
             * option (list (list HistoricStandingListItem.t))) :=
  '(historic_standings, cache) ← get_historic_standings _historic_standings;
  first_place_user_ids ←
    for_append (fun x => y ← py_index x 0;
                         mret (HistoricStandingListItem.id y))
               historic_standings [];
  let results :=
    map (fun user : User.t =>
           LongestLeaderResultRow.mk (User.id user) (User.name user)
             (py_count (User.id user) first_place_user_ids))
        users.*2 in
  mret (py_sorted LongestLeaderResultRow.first_place_count true results,
        cache).

(** [get_longest_loser], without the printing *)
Definition get_longest_loser
    (_historic_standings : option (list (list HistoricStandingListItem.t)))
  : outcome (list LongestLoserResultRow.t
             * option (list (list HistoricStandingListItem.t))) :=
  '(historic_standings, cache) ← get_historic_standings _historic_standings;
  last_place_user_ids ←
    for_append (fun x => y ← py_index x (-1);
                         mret (HistoricStandingListItem.id y))
               historic_standings [];
  let results :=
    map (fun user : User.t =>
           LongestLoserResultRow.mk (User.id user) (User.name user)
             (py_count (User.id user) last_place_user_ids))
        users.*2 in
  mret (py_sorted LongestLoserResultRow.last_place_count true results,
        cache).

(** [get_biggest_leader], without the printing *)
Definition get_biggest_leader
    (_historic_standings : option (list (list HistoricStandingListItem.t)))
  : outcome (list BiggestLeaderResultRow.t
             * option (list (list HistoricStandingListItem.t))) :=
  '(historic_standings, cache) ← get_historic_standings _historic_standings;
  biggest_leaders ←
    for_append
      (fun '(i, standing) =>
         first_place ← py_index standing 0;
         second_place ← py_index standing 1;
         let point_gap :=
           HistoricStandingListItem.total_points first_place
           - HistoricStandingListItem.total_points second_place in
         mret (BiggestLeaderResultRow.mk
                 (HistoricStandingListItem.id first_place)
                 (HistoricStandingListItem.name first_place)
                 point_gap (Z.of_nat i + 1)))
      (enumerate_from 0 historic_standings) [];
  mret (py_sorted BiggestLeaderResultRow.point_gap true biggest_leaders,
        cache).

(** [get_biggest_loser], without the printing *)
Definition get_biggest_loser
    (_historic_standings : option (list (list HistoricStandingListItem.t)))
  : outcome (list BiggestLeaderResultRow.t
             * option (list (list HistoricStandingListItem.t))) :=
  '(historic_standings, cache) ← get_historic_standings _historic_standings;
  first_standing ← py_index historic_standings 0;
  let user_count := len first_standing in
  biggest_losers ←
    for_append
      (fun '(i, standing) =>
         last_place ← py_index standing (user_count - 1);
         second_last_place ← py_index standing (user_count - 2);
         let point_gap :=
           HistoricStandingListItem.total_points last_place
           - HistoricStandingListItem.total_points second_last_place in
         mret (BiggestLeaderResultRow.mk
                 (HistoricStandingListItem.id last_place)
                 (HistoricStandingListItem.name last_place)
                 point_gap (Z.of_nat i + 1)))
      (enumerate_from 0 historic_standings) [];
  mret (py_sorted BiggestLeaderResultRow.point_gap false biggest_losers,
        cache).

(** The body of [for user_gw in user.history] in [get_captain_foresight];
    the four counters are [total_captain_points], [total_vc_points],
    [total_gameweeks_with_vc] and [total_gameweeks_without_captain]. *)
Definition captain_foresight_step (user : User.t)
    (totals : Z * Z * Z * Z) (user_gw : UserHistory.t)
  : outcome (Z * Z * Z * Z) :=
  let '(total_captain_points, total_vc_points, total_gameweeks_with_vc,
        total_gameweeks_without_captain) := totals in
  match UserHistory.picks user_gw with
  | [] => mret totals
  | _ :: _ =>
      gw_players ←
        get_gameweek_players (User.id user) (UserHistory.event user_gw);
      captain_pick ← next_where Pick.is_captain (UserHistory.picks user_gw);
      vc_pick ← next_where Pick.is_vice_captain (UserHistory.picks user_gw);
      if truthy (Pick.multiplier captain_pick) then
        captain_gw ←
          next_where
            (fun x => bool_decide (Player.id (GameweekPlayer.player x)
                                   = Pick.element captain_pick))
            gw_players;
        mret (total_captain_points
              + (Pick.multiplier captain_pick - 1)
                * Combined.total_points
                    (GameweekPlayer.combined_result captain_gw),
              total_vc_points, total_gameweeks_with_vc,
              total_gameweeks_without_captain)
      else if truthy (Pick.multiplier vc_pick) then
        vc_gw ←
          next_where
            (fun x => bool_decide (Player.id (GameweekPlayer.player x)
                                   = Pick.element vc_pick))
            gw_players;
        let vc_gw_points :=
          (Pick.multiplier vc_pick - 1)
          * Combined.total_points (GameweekPlayer.combined_result vc_gw) in
        mret (total_captain_points + vc_gw_points,
              total_vc_points + vc_gw_points,
              total_gameweeks_with_vc + 1,
              total_gameweeks_without_captain)
      else
        mret (total_captain_points, total_vc_points,
              total_gameweeks_with_vc, total_gameweeks_without_captain + 1)
  end.

(** The row of one user in [get_captain_foresight] *)
Definition captain_foresight_row (user : User.t) : outcome CaptainResultRow.t :=
  totals ← for_each (captain_foresight_step user) (User.history user)
             (0, 0, 0, 0);
  let '(total_captain_points, total_vc_points, total_gameweeks_with_vc,
        total_gameweeks_without_captain) := totals in
  mret (CaptainResultRow.mk (User.id user) (User.name user)
          total_captain_points total_vc_points total_gameweeks_with_vc
          total_gameweeks_without_captain).

(** [get_captain_foresight], without the printing *)
Definition get_captain_foresight : outcome (list CaptainResultRow.t) :=
  results ← for_append captain_foresight_row users.*2 [];
  mret (py_sorted CaptainResultRow.total_captain_points true results).

(** [get_captain_hindsight], without the printing *)
Definition get_captain_hindsight
  : outcome (list PointsWithoutCaptainResultRow.t) :=
  captain_foresight_results ← get_captain_foresight;
  results ←
    for_append
      (fun row : CaptainResultRow.t =>
         let user_id := CaptainResultRow.id row in
         user ← dict_get users user_id;
         last_gw ← py_index (User.history user) (-1);
         let total_points := UserHistory.total_points last_gw in
         let total_points_minus_captain_points :=
           total_points - CaptainResultRow.total_captain_points row in
         mret (PointsWithoutCaptainResultRow.mk (CaptainResultRow.id row)
                 (CaptainResultRow.name row)
                 total_points_minus_captain_points))
      captain_foresight_results [];
  mret (py_sorted PointsWithoutCaptainResultRow.points true results).

(** The two nested loops shared by [get_top_scorers] and
    [get_assist_kings]: the sum of one statistic over every playing player
    of every gameweek of the user. *)
Definition sum_over_gameweek_players (stat : Combined.t -> Z) (user : User.t)
  : outcome Z :=
  for_each
    (fun total (gameweek : UserHistory.t) =>
       let gameweek_number := UserHistory.event gameweek in
       gw_players ← get_gameweek_players (User.id user) gameweek_number;
       mret (fold_left
               (fun total gw_player =>
                  total + stat (GameweekPlayer.combined_result gw_player))
               gw_players total))
    (User.history user) 0.

(** [get_top_scorers], without the printing *)
Definition get_top_scorers : outcome (list TopScorerResultRow.t) :=
  results ←
    for_append
      (fun user : User.t =>
         goals_scored ← sum_over_gameweek_players Combined.goals_scored user;
         mret (TopScorerResultRow.mk (User.id user) (User.name user)
                 goals_scored))
      users.*2 [];
  mret (py_sorted TopScorerResultRow.goals_scored true results).

(** [get_assist_kings], without the printing *)
Definition get_assist_kings : outcome (list AssistKingResultRow.t) :=
  results ←
    for_append
      (fun user : User.t =>
         assists ← sum_over_gameweek_players Combined.assists user;
         mret (AssistKingResultRow.mk (User.id user) (User.name user) assists))
      users.*2 [];
  mret (py_sorted AssistKingResultRow.assists true results).

(** [get_most_goal_involvements], without the printing *)
Definition get_most_goal_involvements
  : outcome (list GoalInvolvementsResultRow.t) :=
  top_scorers ← get_top_scorers;
  assist_kings ← get_assist_kings;
  results ←
    for_append
      (fun user : User.t =>
         goals ←
           next_where
             (fun x => bool_decide (TopScorerResultRow.id x = User.id user))
             top_scorers;
         assists ←
           next_where
             (fun x => bool_decide (AssistKingResultRow.id x = User.id user))
             assist_kings;
         mret (GoalInvolvementsResultRow.mk (User.id user) (User.name user)
                 (TopScorerResultRow.goals_scored goals
                  + AssistKingResultRow.assists assists)))
      users.*2 [];
  mret (py_sorted GoalInvolvementsResultRow.goal_involvements true results).

(** The body of [for auto_sub in user.auto_subs] in
    [get_most_auto_sub_points] *)
Definition auto_sub_points_step (total_auto_sub_points : Z)
    (auto_sub : AutoSub.t) : outcome Z :=
  let player_id := AutoSub.element_in auto_sub in
  player_gameweek_results ←
    get_player_gameweek_results players player_id (AutoSub.event auto_sub);
  mret (fold_left
          (fun total gw_result => total + PlayerHistory.total_points gw_result)
          player_gameweek_results total_auto_sub_points).

(** [get_most_auto_sub_points], without the printing *)
Definition get_most_auto_sub_points : outcome (list AutoSubPointsRow.t) :=
  results ←
    for_append
      (fun user : User.t =>
         total_auto_sub_points ←
           for_each auto_sub_points_step (User.auto_subs user) 0;
         mret (AutoSubPointsRow.mk (User.id user) (User.name user)
                 total_auto_sub_points))
      users.*2 [];
  mret (py_sorted AutoSubPointsRow.total_auto_sub_points true results).

End League.

(** ** Concrete squads and stores

    A 4-4-2 squad: player ["1"] keeps goal, ["2"]-["5"] defend, ["6"]-["9"]
    play in midfield, ["10"] and ["11"] up front; the bench is ["12"]
    (backup goalkeeper) and three outfield players.  Formation minimums
    are 3 defenders, 2 midfielders, 1 forward. *)

Module Scenario.

(** A fixture of gameweek [gw] with the given minutes and points. *)
Definition fixture (gw : Z) (pid : string) (mins pts : Z) : PlayerHistory.t :=
  PlayerHistory.mk gw pid 1 1 pts true mins 0 0 0 0 0 0 0 0 0 0 0 0.

(** A player with one fixture in gameweek 1. *)
Definition player (pid : string) (pos : Position) (mins pts : Z) : Player.t :=
  Player.mk pid pos pid [fixture 1 pid mins pts].

Definition store (l : list Player.t) : gmap string Player.t :=
  list_to_map (map (fun p => (Player.id p, p)) l).

Definition pick (pid : string) (slot : Z) (mult : Z) (c vc : bool) : Pick.t :=
  Pick.mk pid slot mult c vc.

(** Captain ["6"], vice-captain ["7"], both starters. *)
Definition starting_picks : list Pick.t :=
  [ pick "1" 1 1 false false; pick "2" 2 1 false false;
    pick "3" 3 1 false false; pick "4" 4 1 false false;
    pick "5" 5 1 false false; pick "6" 6 2 true false;
    pick "7" 7 1 false true; pick "8" 8 1 false false;
    pick "9" 9 1 false false; pick "10" 10 1 false false;
    pick "11" 11 1 false false ].

Definition bench_picks : list Pick.t :=
  [ pick "12" 12 0 false false; pick "13" 13 0 false false;
    pick "14" 14 0 false false; pick "15" 15 0 false false ].

(** The same squad with the triple-captain multiplier on ["6"]. *)
Definition starting_picks_3xc : list Pick.t :=
  [ pick "1" 1 1 false false; pick "2" 2 1 false false;
    pick "3" 3 1 false false; pick "4" 4 1 false false;
    pick "5" 5 1 false false; pick "6" 6 3 true false;
    pick "7" 7 1 false true; pick "8" 8 1 false false;
    pick "9" 9 1 false false; pick "10" 10 1 false false;
    pick "11" 11 1 false false ].

(** The same squad with the vice-captaincy on bench pick ["14"]. *)
Definition starting_picks_bench_vc : list Pick.t :=
  [ pick "1" 1 1 false false; pick "2" 2 1 false false;
    pick "3" 3 1 false false; pick "4" 4 1 false false;
    pick "5" 5 1 false false; pick "6" 6 2 true false;
    pick "7" 7 1 false false; pick "8" 8 1 false false;
    pick "9" 9 1 false false; pick "10" 10 1 false false;
    pick "11" 11 1 false false ].

Definition bench_picks_bench_vc : list Pick.t :=
  [ pick "12" 12 0 false false; pick "13" 13 0 false false;
    pick "14" 14 0 false true; pick "15" 15 0 false false ].

(** Everybody in the starting XI plays; the captain scores 6, the other
    starters 2 each. *)
Definition all_play : gmap string Player.t :=
  store [ player "1" GOALKEEPER 90 2; player "2" DEFENDER 90 2;
          player "3" DEFENDER 90 2; player "4" DEFENDER 90 2;
          player "5" DEFENDER 90 2; player "6" MIDFIELDER 90 6;
          player "7" MIDFIELDER 90 2; player "8" MIDFIELDER 90 2;
          player "9" MIDFIELDER 90 2; player "10" ATTACKER 90 2;
          player "11" ATTACKER 90 2; player "12" GOALKEEPER 0 0;
          player "13" DEFENDER 0 0; player "14" MIDFIELDER 0 0;
          player "15" ATTACKER 0 0 ].

(** The starting goalkeeper has no minutes, the backup plays 45 minutes
    for 5 points. *)
Definition keeper_out : gmap string Player.t :=
  store [ player "1" GOALKEEPER 0 0; player "2" DEFENDER 90 2;
          player "3" DEFENDER 90 2; player "4" DEFENDER 90 2;
          player "5" DEFENDER 90 2; player "6" MIDFIELDER 90 6;
          player "7" MIDFIELDER 90 2; player "8" MIDFIELDER 90 2;
          player "9" MIDFIELDER 90 2; player "10" ATTACKER 90 2;
          player "11" ATTACKER 90 2; player "12" GOALKEEPER 45 5;
          player "13" DEFENDER 0 0; player "14" MIDFIELDER 0 0;
          player "15" ATTACKER 0 0 ].

(** Both starting forwards have no minutes; the first outfield bench
    pick is a forward who played 90 minutes for 4 points. *)
Definition forwards_out : gmap string Player.t :=
  store [ player "1" GOALKEEPER 90 2; player "2" DEFENDER 90 2;
          player "3" DEFENDER 90 2; player "4" DEFENDER 90 2;
          player "5" DEFENDER 90 2; player "6" MIDFIELDER 90 6;
          player "7" MIDFIELDER 90 2; player "8" MIDFIELDER 90 2;
          player "9" MIDFIELDER 90 2; player "10" ATTACKER 0 0;
          player "11" ATTACKER 0 0; player "12" GOALKEEPER 0 0;
          player "13" ATTACKER 90 4; player "14" DEFENDER 0 0;
          player "15" MIDFIELDER 0 0 ].

(** Four outfield starters have no minutes (one defender, one
    midfielder, both forwards): six in the pool, three on the bench. *)
Definition four_out : gmap string Player.t :=
  store [ player "1" GOALKEEPER 90 2; player "2" DEFENDER 90 2;
          player "3" DEFENDER 90 2; player "4" DEFENDER 90 2;
          player "5" DEFENDER 0 0; player "6" MIDFIELDER 90 6;
          player "7" MIDFIELDER 90 2; player "8" MIDFIELDER 90 2;
          player "9" MIDFIELDER 0 0; player "10" ATTACKER 0 0;
          player "11" ATTACKER 0 0; player "12" GOALKEEPER 0 0;
          player "13" DEFENDER 90 1; player "14" MIDFIELDER 90 1;
          player "15" ATTACKER 90 1 ].

(** The captain ["6"] has no minutes; bench midfielder ["14"] plays 90
    minutes for 7 points. *)
Definition captain_out : gmap string Player.t :=
  store [ player "1" GOALKEEPER 90 2; player "2" DEFENDER 90 2;
          player "3" DEFENDER 90 2; player "4" DEFENDER 90 2;
          player "5" DEFENDER 90 2; player "6" MIDFIELDER 0 0;
          player "7" MIDFIELDER 90 2; player "8" MIDFIELDER 90 2;
          player "9" MIDFIELDER 90 2; player "10" ATTACKER 90 2;
          player "11" ATTACKER 90 2; player "12" GOALKEEPER 0 0;
          player "13" DEFENDER 0 0; player "14" MIDFIELDER 90 7;
          player "15" ATTACKER 0 0 ].

(** The variables before the first gameweek: every counter 0, every
    pick's entry of [points_per_player] 0. *)
Definition fresh : Vars :=
  mkVars 0 0 0 0
    (foldl (fun m gw1_pick => <[Pick.element gw1_pick := 0]> m) ∅
           (starting_picks ++ bench_picks))
    0 0 0 0 0 None [] [] [] [].

(** The state in which the outfield stage of the all-play gameweek
    starts. *)
Definition all_play_before_outfield : Vars :=
  match before_outfield all_play 1 starting_picks
          bench_picks fresh with
  | Ok v => v
  | _ => fresh
  end.

(** The state after the starting XI scan of the gameweek in which the
    captain has no minutes and the vice-captain starts. *)
Definition captain_out_after_scan : Vars :=
  match for_each (starting_pick_step captain_out 1) starting_picks
          (start_gameweek fresh) with
  | Ok v => v
  | _ => fresh
  end.

(** The state after the starting XI scan of the all-play gameweek with
    the triple-captain multiplier declared. *)
Definition all_play_3xc_after_scan : Vars :=
  match for_each (starting_pick_step all_play 1) starting_picks_3xc
          (start_gameweek fresh) with
  | Ok v => v
  | _ => fresh
  end.

(** [keeper_out] with a backup goalkeeper who has no minutes: the two
    stores differ in player ["12"] only. *)
Definition keeper_idle : gmap string Player.t :=
  <["12" := player "12" GOALKEEPER 0 0]> keeper_out.

(** The state in which the outfield stage starts when four outfield
    starters have no minutes. *)
Definition four_out_before_outfield : Vars :=
  match before_outfield four_out 1 starting_picks bench_picks fresh with
  | Ok v => v
  | _ => fresh
  end.

End Scenario.

(** ** Statement vocabulary *)

(** The sum of the combined total points of a list of players, [0] for
    a player whose lookup raises. *)
Definition points_of (players : gmap string Player.t) (gw_number : Z)
    (l : list Player.t) : Z :=
  foldr (fun p acc =>
           match get_combined_gameweek_result_for_player
                   players (Player.id p) gw_number with
           | Ok r => Combined.total_points r + acc
           | _ => acc
           end) 0 l.

(** A pick with its multiplier re-declared. *)
Definition with_multiplier (m : Z) (pk : Pick.t) : Pick.t :=
  Pick.mk (Pick.element pk) (Pick.position pk) m
          (Pick.is_captain pk) (Pick.is_vice_captain pk).

(** The player store is keyed by player id. *)
Definition keyed_by_id (players : gmap string Player.t) : Prop :=
  map_Forall (fun key p => Player.id p = key) players.

(** One turn of [while gw_bench_picks:]: the queue is not empty and the
    [for] statement runs to [v']. *)
Definition outfield_turn (players : gmap string Player.t)
    (MIN_DEFS MIN_MIDS MIN_FWDS gw_number : Z) (v v' : Vars) : Prop :=
  gw_bench_picks v <> [] /\
  exists e, bench_pass players MIN_DEFS MIN_MIDS MIN_FWDS gw_number v = Ok (v', e).

(** What [players[pick.element]] followed by
    [get_combined_gameweek_result_for_player(player.id, gw_number)] gives
    for a pick. *)
Definition pick_result (players : gmap string Player.t) (gw_number : Z)
    (pick : Pick.t) : outcome Combined.t :=
  p ← players_get players (Pick.element pick);
  get_combined_gameweek_result_for_player players (Player.id p) gw_number.

(** A pick the starting XI scan treats as the vice-captain: flagged
    vice-captain and not flagged captain. *)
Definition counts_as_vc (pick : Pick.t) : bool :=
  negb (Pick.is_captain pick) && Pick.is_vice_captain pick.

(** A starting pick whose player is in the store as a goalkeeper. *)
Definition starting_keeper (players : gmap string Player.t) (pick : Pick.t)
  : bool :=
  match players !! Pick.element pick with
  | Some p => bool_decide (Player.element_type p = GOALKEEPER)
  | None => false
  end.

(** The four ways one candidate of the bench scan can end, read off
    [bench_pick_step]: pool full, candidate removed, candidate subbed in
    (as a defender or as a midfielder), or on to the next index. *)
Inductive step_ends (players : gmap string Player.t) (gw_number : Z)
    (v : Vars) (i : nat) (bench_pick : Pick.t)
  : Vars -> option bench_exit -> Prop :=
  | ends_cleared :
      len (outfield_players v) = 10 ->
      step_ends players gw_number v i bench_pick
        (set_gw_bench_picks [] v) (Some (Cleared (gw_bench_picks v)))
  | ends_removed :
      len (outfield_players v) <> 10 ->
      (i < length (gw_bench_picks v))%nat ->
      step_ends players gw_number v i bench_pick
        (set_gw_bench_picks (delete i (gw_bench_picks v)) v)
        (Some (Removed bench_pick))
  | ends_subbed_in bench_player bench_player_gw w old :
      len (outfield_players v) <> 10 ->
      (i < length (gw_bench_picks v))%nat ->
      players !! Pick.element bench_pick = Some bench_player ->
      get_combined_gameweek_result_for_player
        players (Player.id bench_player) gw_number = Ok bench_player_gw ->
      truthy (Combined.minutes bench_player_gw) = true ->
      (Player.element_type bench_player = DEFENDER /\
       w = set_defs (defs v ++ [bench_player]) v) \/
      (Player.element_type bench_player = MIDFIELDER /\
       w = set_mids (mids v ++ [bench_player]) v) ->
      points_per_player v !! Pick.element bench_pick = Some old ->
      step_ends players gw_number v i bench_pick
        (set_gw_bench_picks (delete i (gw_bench_picks v))
           (set_points_per_player
              (<[Pick.element bench_pick :=
                   old + Combined.total_points bench_player_gw]>
                 (points_per_player v))
              (set_total_auto_sub_points
                 (total_auto_sub_points v
                  + Combined.total_points bench_player_gw)
                 (set_total_gw_points
                    (total_gw_points v
                     + Combined.total_points bench_player_gw) w))))
        (Some (SubbedIn bench_pick))
  | ends_next :
      Z.of_nat i <> len (gw_bench_picks v) - 1 ->
      step_ends players gw_number v i bench_pick v None.

(** Two outcomes that raise the same exception, or both time out, or
    return related values. *)
Definition outcome_rel {A B} (R : A -> B -> Prop)
    (o1 : outcome A) (o2 : outcome B) : Prop :=
  match o1, o2 with
  | Ok a, Ok b => R a b
  | Raise e1, Raise e2 => e1 = e2
  | Timeout, Timeout => True
  | _, _ => False
  end.

(** Two states of a gameweek with the same outfield pool, the same bench
    queue and the same keys of [points_per_player]: all that the outfield
    stage reads to decide what to do. *)
Definition same_outfield (v1 v2 : Vars) : Prop :=
  defs v1 = defs v2 /\ mids v1 = mids v2 /\ fwds v1 = fwds v2 /\
  gw_bench_picks v1 = gw_bench_picks v2 /\
  (forall key, is_Some (points_per_player v1 !! key)
               <-> is_Some (points_per_player v2 !! key)).

(** Two passes of the bench scan that left through the same [break] in
    states with the same outfield part. *)
Definition same_break (a b : Vars * option bench_exit) : Prop :=
  same_outfield a.1 b.1 /\ a.2 = b.2.

(** ** Vocabulary of the league statistics *)

(** The order [sorted] puts its result in: keys never go up when
    [reverse], never go down otherwise. *)
Definition key_order {A} (key : A -> Z) (reverse : bool) (x y : A) : Prop :=
  if reverse then key y <= key x else key x <= key y.

(** A combined result with its [total_points] replaced. *)
Definition set_combined_points (x : Z) (c : Combined.t) : Combined.t :=
  Combined.mk x (Combined.minutes c) (Combined.goals_scored c)
    (Combined.assists c) (Combined.clean_sheets c)
    (Combined.goals_conceded c) (Combined.own_goals c)
    (Combined.penalties_saved c) (Combined.penalties_missed c)
    (Combined.yellow_cards c) (Combined.red_cards c) (Combined.saves c)
    (Combined.bonus c) (Combined.bps c).

(** A combined result with its [total_points] multiplied. *)
Definition scale_points (multiplier : Z) (c : Combined.t) : Combined.t :=
  set_combined_points (multiplier * Combined.total_points c) c.

(** A pick that [get_gameweek_players] keeps. *)
Definition playing (pick : Pick.t) : bool := 1 <=? Pick.multiplier pick.

(** What [get_gameweek_players] returns for one playing pick: the player
    of the store, the aggregator's combined result with the points
    multiplied by the pick's multiplier, and the fixtures. *)
Definition gameweek_player_of (players : gmap string Player.t)
    (gameweek_number : Z) (pick : Pick.t) (gp : GameweekPlayer.t) : Prop :=
  exists c,
    players !! Pick.element pick = Some (GameweekPlayer.player gp) /\
    get_combined_gameweek_result_for_player
      players (Pick.element pick) gameweek_number = Ok c /\
    GameweekPlayer.combined_result gp = scale_points (Pick.multiplier pick) c /\
    get_player_gameweek_results players (Pick.element pick) gameweek_number
    = Ok (GameweekPlayer.results gp).

(** The row of a user in the standings of the [i]-th finished gameweek:
    the user's id and name with the running total of entry [i] of the
    user's history. *)
Definition standing_row (i : nat) (user : User.t)
    (row : HistoricStandingListItem.t) : Prop :=
  exists user_gameweek,
    User.history user !! i = Some user_gameweek /\
    row = HistoricStandingListItem.mk (User.id user) (User.name user)
            (UserHistory.total_points user_gameweek).

(** The number of finished gameweeks. *)
Definition finished_count (gameweeks : list Gameweek.t) : nat :=
  length (List.filter Gameweek.finished gameweeks).

(** The sum of a list of Python ints. *)
Definition py_sum (l : list Z) : Z := foldr Z.add 0 l.

(** A gameweek of a user's history in which the user has picks. *)
Definition has_picks (user_gw : UserHistory.t) : bool :=
  match UserHistory.picks user_gw with
  | [] => false
  | _ :: _ => true
  end.

(** The goals-plus-assists row of a user: the goals and the assists summed
    over every playing player of every gameweek of the user. *)
Definition involvement_row (users : list (string * User.t))
    (players : gmap string Player.t) (user : User.t)
    (row : GoalInvolvementsResultRow.t) : Prop :=
  GoalInvolvementsResultRow.id row = User.id user /\
  exists goals assists,
    sum_over_gameweek_players users players Combined.goals_scored user
    = Ok goals /\
    sum_over_gameweek_players users players Combined.assists user
    = Ok assists /\
    GoalInvolvementsResultRow.goal_involvements row = goals + assists.

(** The combined total points of a pick's player in a gameweek, [0] when
    the lookup raises. *)
Definition pick_points (players : gmap string Player.t) (gw_number : Z)
    (pick : Pick.t) : Z :=
  match pick_result players gw_number pick with
  | Ok r => Combined.total_points r
  | _ => 0
  end.

(** Whether a pick's player has minutes in a gameweek. *)
Definition pick_played (players : gmap string Player.t) (gw_number : Z)
    (pick : Pick.t) : bool :=
  match pick_result players gw_number pick with
  | Ok r => truthy (Combined.minutes r)
  | _ => false
  end.

(** The picks subbed in among the breaks of the outfield loop. *)
Definition subbed_in (breaks : list bench_exit) : list Pick.t :=
  flat_map (fun e => match e with SubbedIn p => [p] | _ => [] end) breaks.

(** Every pick the breaks of the outfield loop dispose of. *)
Definition handled (breaks : list bench_exit) : list Pick.t :=
  flat_map (fun e => match e with
                     | SubbedIn p | Removed p => [p]
                     | Cleared dropped => dropped
                     end) breaks.

(** The position the store has for a pick's player. *)
Definition pick_position (players : gmap string Player.t) (pick : Pick.t)
  : option Position :=
  Player.element_type <$> players !! Pick.element pick.

(** The variables of a gameweek that the goalkeeper and outfield stages
    leave alone: the armband variables, the two armband counters and the
    season total. *)
Definition same_armband (v v' : Vars) : Prop :=
  captain_mins v' = captain_mins v /\ captain_points v' = captain_points v /\
  vc_mins v' = vc_mins v /\ vc_points v' = vc_points v /\
  total_captain_points v' = total_captain_points v /\
  total_vice_captain_points v' = total_vice_captain_points v /\
  total_points v' = total_points v.

(** The fixtures of a player in a gameweek, as
    [get_player_gameweek_results] selects them. *)
Definition fixtures_of (p : Player.t) (gameweek_number : Z)
  : list PlayerHistory.t :=
  List.filter (fun x => PlayerHistory.round x =? gameweek_number)
              (Player.history p).

(** A pick whose player is in the store and has no minutes in the
    gameweek. *)
Definition idle_pick (players : gmap string Player.t) (gw_number : Z)
    (pick : Pick.t) : Prop :=
  exists r, pick_result players gw_number pick = Ok r /\ Combined.minutes r = 0.

(** Two states with the same gameweek total, the same scoring players,
    the same season counters and the same points per player. *)
Definition same_scores (v v' : Vars) : Prop :=
  total_gw_points v' = total_gw_points v /\
  gk v' = gk v /\ defs v' = defs v /\ mids v' = mids v /\ fwds v' = fwds v /\
  total_points v' = total_points v /\
  total_captain_points v' = total_captain_points v /\
  total_vice_captain_points v' = total_vice_captain_points v /\
  total_auto_sub_points v' = total_auto_sub_points v /\
  points_per_player v' = points_per_player v.

(** The user dictionary is keyed by user id. *)
Definition users_keyed_by_id (users : list (string * User.t)) : Prop :=
  Forall (fun kv => kv.1 = User.id kv.2) users.

(** The row [get_captain_hindsight] should hold for [user]: the running
    total of the last entry of the user's history minus the captain total
    of the user's row of [get_captain_foresight]. *)
Definition hindsight_row (users : list (string * User.t))
    (players : gmap string Player.t) (user : User.t)
    (row : PointsWithoutCaptainResultRow.t) : Prop :=
  exists captain_row last_gw,
    captain_foresight_row users players user = Ok captain_row /\
    last (User.history user) = Some last_gw /\
    row = PointsWithoutCaptainResultRow.mk (User.id user) (User.name user)
            (UserHistory.total_points last_gw
             - CaptainResultRow.total_captain_points captain_row).

(** ** A concrete league *)

Module LeagueScenario.

(** The 15 picks of [Scenario]: captain ["6"], vice-captain ["7"]. *)
Definition squad : list Pick.t :=
  Scenario.starting_picks ++ Scenario.bench_picks.

(** The same 15 picks with the triple captain chip on ["6"]. *)
Definition squad_3xc : list Pick.t :=
  Scenario.starting_picks_3xc ++ Scenario.bench_picks.

(** Gameweek [event] of a user with [points] in the gameweek and the
    running total [total]. *)
Definition week (event points total : Z) (picks : list Pick.t)
  : UserHistory.t :=
  UserHistory.mk event points total 0 0 0 0 0 0 0 0 picks.

Definition ada : User.t :=
  User.mk "101" "Ada" [week 1 30 30 squad; week 2 40 70 squad]
          [AutoSub.mk 1 "101" "13" "5"].

(** Bo joined with the triple captain chip and has no picks in
    gameweek 2. *)
Definition bo : User.t :=
  User.mk "102" "Bo" [week 1 36 36 squad_3xc; week 2 20 56 []] [].

Definition cy : User.t :=
  User.mk "103" "Cy" [week 1 20 20 squad; week 2 55 75 squad] [].

Definition users : list (string * User.t) :=
  [("101", ada); ("102", bo); ("103", cy)].

(** Two finished gameweeks and one to come. *)
Definition gameweeks : list Gameweek.t :=
  [Gameweek.mk 1 "Gameweek 1" true; Gameweek.mk 2 "Gameweek 2" true;
   Gameweek.mk 3 "Gameweek 3" false].

(** The season before its first gameweek has finished. *)
Definition preseason : list Gameweek.t :=
  [Gameweek.mk 1 "Gameweek 1" false; Gameweek.mk 2 "Gameweek 2" false].

(** The captain with two fixtures in gameweek 1 (a double gameweek): 90
    minutes, 1 goal and 4 points in the first, 60 minutes, 1 assist and 2
    points in the second. *)
Definition captain : Player.t :=
  Player.mk "6" MIDFIELDER "6"
    [PlayerHistory.mk 1 "6" 1 1 4 true 90 1 0 0 0 0 0 0 0 0 0 0 0;
     PlayerHistory.mk 1 "6" 2 2 2 false 60 0 1 0 0 0 0 0 0 0 0 0 0].

(** [Scenario.all_play] with that captain. *)
Definition players : gmap string Player.t :=
  Scenario.store
    [ Scenario.player "1" GOALKEEPER 90 2; Scenario.player "2" DEFENDER 90 2;
      Scenario.player "3" DEFENDER 90 2; Scenario.player "4" DEFENDER 90 2;
      Scenario.player "5" DEFENDER 90 2; captain;
      Scenario.player "7" MIDFIELDER 90 2; Scenario.player "8" MIDFIELDER 90 2;
      Scenario.player "9" MIDFIELDER 90 2; Scenario.player "10" ATTACKER 90 2;
      Scenario.player "11" ATTACKER 90 2; Scenario.player "12" GOALKEEPER 0 0;
      Scenario.player "13" DEFENDER 0 0; Scenario.player "14" MIDFIELDER 0 0;
      Scenario.player "15" ATTACKER 0 0 ].

(** The value an evaluation returns, [d] if it raises. *)
Definition returned {A} (d : A) (o : outcome A) : A :=
  match o with
  | Ok a => a
  | _ => d
  end.

(** The tables of the two finished gameweeks. *)
Definition standings : list (list HistoricStandingListItem.t) :=
  [ [ HistoricStandingListItem.mk "102" "Bo" 36;
      HistoricStandingListItem.mk "101" "Ada" 30;
      HistoricStandingListItem.mk "103" "Cy" 20 ];
    [ HistoricStandingListItem.mk "103" "Cy" 75;
      HistoricStandingListItem.mk "101" "Ada" 70;
      HistoricStandingListItem.mk "102" "Bo" 56 ] ].

(** Ada's players of gameweek 1. *)
Definition ada_gameweek_1 : list GameweekPlayer.t :=
  returned [] (get_gameweek_players users players "101" 1).

(** The state in which the outfield stage ends when four outfield
    starters have no minutes. *)
Definition four_out_after_outfield : Vars :=
  returned Scenario.fresh
    (auto_sub_outfield Scenario.four_out 3 2 1 1 3
       Scenario.four_out_before_outfield).

(** The state after that whole gameweek. *)
Definition four_out_after_gameweek : Vars :=
  returned Scenario.fresh
    (gameweek Scenario.four_out 3 2 1 1 Scenario.starting_picks
       Scenario.bench_picks Scenario.fresh).

End LeagueScenario.

(** * Properties *)

(** ** Outcome plumbing *)

Lemma bind_Ok {A B} (m : outcome A) (f : A -> outcome B) (b : B) :
  m ≫= f = Ok b -> exists a, m = Ok a /\ f a = Ok b.
Proof. destruct m; simpl; intros H; try discriminate. eauto. Qed.

Lemma truthy_true z : truthy z = true <-> z <> 0.
Proof. unfold truthy. destruct (Z.eqb_spec z 0); simpl; split; congruence. Qed.

Lemma truthy_pos z : 0 < z -> truthy z = true.
Proof. intros. apply truthy_true. lia. Qed.

Lemma truthy_zero : truthy 0 = false.
Proof. reflexivity. Qed.

Lemma del_at_Ok {A} (i : nat) (l l' : list A) :
  del_at i l = Ok l' -> (i < length l)%nat /\ l' = delete i l.
Proof. unfold del_at. case_decide; intros Hd; inversion Hd; auto. Qed.

Lemma length_delete_lt {A} (i : nat) (l : list A) :
  (i < length l)%nat -> length (delete i l) = pred (length l).
Proof.
  revert i. induction l as [|x l IH]; intros [|i] Hi; simpl in *; try lia.
  rewrite IH by lia. lia.
Qed.

(** ** The aggregator *)

Lemma combined_of_history players player_id gw p :
  players !! player_id = Some p ->
  get_combined_gameweek_result_for_player players player_id gw
  = Ok (fold_left Combined.add
          (List.filter (fun x => PlayerHistory.round x =? gw) (Player.history p))
          Combined.zero).
Proof.
  intros Hp. unfold get_combined_gameweek_result_for_player,
    get_player_gameweek_results, players_get. rewrite Hp. reflexivity.
Qed.

Lemma combined_unknown_player players player_id gw :
  players !! player_id = None ->
  get_combined_gameweek_result_for_player players player_id gw
  = Raise (KeyError player_id).
Proof.
  intros Hp. unfold get_combined_gameweek_result_for_player,
    get_player_gameweek_results, players_get. rewrite Hp. reflexivity.
Qed.

Lemma filter_round_nil gw (l : list PlayerHistory.t) :
  (forall h, h ∈ l -> PlayerHistory.round h <> gw) ->
  List.filter (fun x => PlayerHistory.round x =? gw) l = [].
Proof.
  induction l as [|h l IH]; intros Hl; simpl; [reflexivity|].
  destruct (Z.eqb_spec (PlayerHistory.round h) gw) as [E|_].
  - exfalso. apply (Hl h); [left | exact E].
  - apply IH. intros h' Hh'. apply Hl. right. exact Hh'.
Qed.

(** C5, as the code has it: the aggregator raises [KeyError] for a player
    id that is not in the store (here ["999"] in a store of players ["1"]
    to ["15"]), it does not answer the zero result. *)
Lemma unknown_player_raises_KeyError :
  Scenario.all_play !! "999" = None /\
  get_combined_gameweek_result_for_player Scenario.all_play "999" 1
  = Raise (KeyError "999").
Proof. split; vm_compute; reflexivity. Qed.

(** C5 (amended): for every player id that is in the store and every
    gameweek number the aggregator returns a combined result without
    raising, and when the player has no fixture record of that gameweek
    the result is the zero-valued one (all statistics 0, minutes 0). *)
Theorem combined_result_of_known_player players player_id gw p :
  players !! player_id = Some p ->
  exists r,
    get_combined_gameweek_result_for_player players player_id gw = Ok r /\
    ((forall h, h ∈ Player.history p -> PlayerHistory.round h <> gw) ->
     r = Combined.zero /\ Combined.minutes r = 0).
Proof.
  intros Hp. eexists. split; [apply (combined_of_history _ _ _ _ Hp)|].
  intros Hnone. rewrite filter_round_nil by exact Hnone. split; reflexivity.
Qed.

Lemma combined_result_of_known_player_witness :
  exists r,
    get_combined_gameweek_result_for_player Scenario.all_play "6" 2 = Ok r /\
    ((forall h, h ∈ Player.history (Scenario.player "6" MIDFIELDER 90 6) ->
                PlayerHistory.round h <> 2) ->
     r = Combined.zero /\ Combined.minutes r = 0).
Proof.
  apply (combined_result_of_known_player Scenario.all_play "6" 2
           (Scenario.player "6" MIDFIELDER 90 6)).
  vm_compute. reflexivity.
Defined.

(** ** One candidate of the outfield scan *)

Section OutfieldStep.

Variable players : gmap string Player.t.
Variables MIN_DEFS MIN_MIDS MIN_FWDS gw_number : Z.

(** What the eligibility block can answer. *)
Lemma check_sub_in_cases v force bench_player r :
  let c := check_sub_in MIN_DEFS MIN_MIDS MIN_FWDS v force bench_player r in
  (truthy (Combined.minutes r) = false /\ c = (v, false, true))
  \/ (truthy (Combined.minutes r) = true /\ c = (v, false, false))
  \/ (truthy (Combined.minutes r) = true /\
      Player.element_type bench_player = DEFENDER /\
      c = (set_defs (defs v ++ [bench_player]) v, true, false))
  \/ (truthy (Combined.minutes r) = true /\
      Player.element_type bench_player = MIDFIELDER /\
      c = (set_mids (mids v ++ [bench_player]) v, true, false)).
Proof.
  unfold check_sub_in. simpl.
  destruct (truthy (Combined.minutes r)); simpl; [|tauto].
  repeat case_decide; repeat case_match; try congruence; tauto.
Qed.

Lemma step_ends_sound v i bench_pick v' e :
  bench_pick_step players MIN_DEFS MIN_MIDS MIN_FWDS gw_number v i bench_pick
  = Ok (v', e) ->
  step_ends players gw_number v i bench_pick v' e.
Proof.
  unfold bench_pick_step.
  destruct (Z.eqb_spec (len (outfield_players v)) 10) as [Hfull|Hroom].
  { intros H. inversion H. subst. by constructor. }
  intros H. apply bind_Ok in H as (bp & Hbp & H).
  apply bind_Ok in H as (r & Hr & H).
  unfold players_get in Hbp.
  destruct (players !! Pick.element bench_pick) as [bp'|] eqn:Hlook;
    [|discriminate].
  inversion Hbp; subst bp'; clear Hbp.
  pose proof (check_sub_in_cases v (should_be_force_subbed_in v) bp r) as Hc.
  simpl in Hc.
  destruct Hc as [(Hm & Hc)|[(Hm & Hc)|[(Hm & Hpos & Hc)|(Hm & Hpos & Hc)]]];
    rewrite Hc in H; clear Hc; unfold remove_or_sub_in in H; simpl in H.
  - apply bind_Ok in H as (l & Hl & H). apply del_at_Ok in Hl as [Hi ->].
    inversion H; subst. by constructor.
  - rewrite andb_true_r in H.
    destruct (Z.eqb_spec (Z.of_nat i) (len (gw_bench_picks v) - 1)) as [E|E].
    + apply bind_Ok in H as (l & Hl & H). apply del_at_Ok in Hl as [Hi ->].
      inversion H; subst. by constructor.
    + inversion H; subst. by constructor.
  - rewrite andb_false_r in H. simpl in H.
    apply bind_Ok in H as (w & Hw & H).
    apply bind_Ok in H as (l & Hl & H). apply del_at_Ok in Hl as [Hi ->].
    unfold points_per_player_add in Hw. simpl in Hw.
    destruct (points_per_player v !! Pick.element bench_pick) as [old|] eqn:Hold;
      [|discriminate].
    inversion Hw; subst w; clear Hw. inversion H; subst; clear H. simpl.
    eapply (ends_subbed_in _ _ _ _ _ bp r _ old); eauto.
  - rewrite andb_false_r in H. simpl in H.
    apply bind_Ok in H as (w & Hw & H).
    apply bind_Ok in H as (l & Hl & H). apply del_at_Ok in Hl as [Hi ->].
    unfold points_per_player_add in Hw. simpl in Hw.
    destruct (points_per_player v !! Pick.element bench_pick) as [old|] eqn:Hold;
      [|discriminate].
    inversion Hw; subst w; clear Hw. inversion H; subst; clear H. simpl.
    eapply (ends_subbed_in _ _ _ _ _ bp r _ old); eauto.
Qed.

(** Only the fuel of the [while] loop can run out. *)
Lemma players_get_no_timeout key : players_get players key <> Timeout.
Proof. unfold players_get. by destruct (players !! key). Qed.

Lemma combined_no_timeout player_id :
  get_combined_gameweek_result_for_player players player_id gw_number
  <> Timeout.
Proof.
  unfold get_combined_gameweek_result_for_player,
    get_player_gameweek_results, players_get.
  by destruct (players !! player_id).
Qed.

Lemma points_per_player_add_no_timeout key x v :
  points_per_player_add key x v <> Timeout.
Proof. unfold points_per_player_add. by destruct (_ !! _). Qed.

Lemma del_at_no_timeout {A} i (l : list A) : del_at i l <> Timeout.
Proof. unfold del_at. by case_decide. Qed.

Lemma bind_no_timeout {A B} (m : outcome A) (f : A -> outcome B) :
  m <> Timeout -> (forall a, m = Ok a -> f a <> Timeout) -> m ≫= f <> Timeout.
Proof. destruct m; simpl; intros Hm Hf; auto; by apply Hf. Qed.

Lemma remove_or_sub_in_no_timeout v i bench_pick r s d :
  remove_or_sub_in v i bench_pick r s d <> Timeout.
Proof.
  unfold remove_or_sub_in.
  repeat case_match; try done;
    repeat (apply bind_no_timeout;
            [first [apply del_at_no_timeout
                   |apply points_per_player_add_no_timeout]
            |intros ? _]); done.
Qed.

Lemma step_no_timeout v i bench_pick :
  bench_pick_step players MIN_DEFS MIN_MIDS MIN_FWDS gw_number v i bench_pick
  <> Timeout.
Proof.
  unfold bench_pick_step. case_match; [done|].
  apply bind_no_timeout; [apply players_get_no_timeout|intros bp _].
  apply bind_no_timeout; [apply combined_no_timeout|intros r _].
  apply remove_or_sub_in_no_timeout.
Qed.

Lemma bench_for_no_timeout items v i :
  bench_for players MIN_DEFS MIN_MIDS MIN_FWDS gw_number v i items <> Timeout.
Proof.
  revert v i. induction items as [|pk rest IH]; intros v i; simpl; [done|].
  apply bind_no_timeout; [apply step_no_timeout|intros [v1 e1] _]. simpl.
  destruct e1; [done|apply IH].
Qed.

(** A pass over a non-empty queue always leaves through a [break], at
    some index [j] of the queue. *)
Lemma bench_for_ends items v i v' e :
  drop i (gw_bench_picks v) = items -> items <> [] ->
  bench_for players MIN_DEFS MIN_MIDS MIN_FWDS gw_number v i items
  = Ok (v', e) ->
  exists j bench_pick x,
    gw_bench_picks v !! j = Some bench_pick /\ e = Some x /\
    step_ends players gw_number v j bench_pick v' (Some x).
Proof.
  revert i. induction items as [|pk rest IH]; intros i Hdrop Hne H; [done|].
  simpl in H. apply bind_Ok in H as ([v1 e1] & Hstep & H). simpl in H.
  assert (Hpk : gw_bench_picks v !! i = Some pk).
  { rewrite <- (Nat.add_0_r i), <- lookup_drop, Hdrop. reflexivity. }
  apply step_ends_sound in Hstep.
  destruct e1 as [x|].
  - inversion H; subst. exists i, pk, x. auto.
  - assert (v1 = v /\ Z.of_nat i <> len (gw_bench_picks v) - 1) as [-> Hlast]
      by (inversion Hstep; auto).
    assert (Hlen : length (gw_bench_picks v) = (i + S (length rest))%nat).
    { apply (f_equal length) in Hdrop. rewrite length_drop in Hdrop.
      simpl in Hdrop. apply lookup_lt_Some in Hpk. lia. }
    apply (IH (S i)); [|intros ->; simpl in Hlen; unfold len in Hlast; lia|exact H].
    rewrite <- Nat.add_1_r, <- drop_drop, Hdrop. reflexivity.
Qed.

Lemma bench_pass_ends v v' e :
  gw_bench_picks v <> [] ->
  bench_pass players MIN_DEFS MIN_MIDS MIN_FWDS gw_number v = Ok (v', e) ->
  exists j bench_pick x,
    gw_bench_picks v !! j = Some bench_pick /\ e = Some x /\
    step_ends players gw_number v j bench_pick v' (Some x).
Proof. intros Hne. apply bench_for_ends; [apply drop_0|exact Hne]. Qed.

(** Whatever the [break], the queue got shorter. *)
Lemma step_ends_shorter v j bench_pick v' x :
  gw_bench_picks v <> [] ->
  step_ends players gw_number v j bench_pick v' (Some x) ->
  (length (gw_bench_picks v') < length (gw_bench_picks v))%nat.
Proof.
  intros Hne H. destruct (gw_bench_picks v) as [|q qs] eqn:Hq; [done|].
  inversion H; subst; simpl; rewrite ?Hq in *; simpl; try lia;
    rewrite length_delete_lt by assumption; simpl in *; lia.
Qed.

Lemma bench_pass_shorter v v' e :
  gw_bench_picks v <> [] ->
  bench_pass players MIN_DEFS MIN_MIDS MIN_FWDS gw_number v = Ok (v', e) ->
  (length (gw_bench_picks v') < length (gw_bench_picks v))%nat.
Proof.
  intros Hne H. apply bench_pass_ends in H as (j & pk & x & _ & _ & H); [|done].
  by eapply step_ends_shorter.
Qed.

(** With as much fuel as the queue is long the loop never times out,
    and more fuel changes nothing. *)
Lemma auto_sub_outfield_fuel n v extra :
  (length (gw_bench_picks v) <= n)%nat ->
  auto_sub_outfield players MIN_DEFS MIN_MIDS MIN_FWDS gw_number (n + extra) v
  = auto_sub_outfield players MIN_DEFS MIN_MIDS MIN_FWDS gw_number n v
  /\ auto_sub_outfield players MIN_DEFS MIN_MIDS MIN_FWDS gw_number n v
     <> Timeout.
Proof.
  revert v. induction n as [|n IH]; intros v Hlen.
  - destruct (gw_bench_picks v) eqn:Hq; [|simpl in Hlen; lia].
    destruct extra; simpl; rewrite Hq; done.
  - simpl. destruct (gw_bench_picks v) as [|q qs] eqn:Hq; [done|].
    pose proof (bench_for_no_timeout (gw_bench_picks v) v 0) as Hnt.
    fold (bench_pass players MIN_DEFS MIN_MIDS MIN_FWDS gw_number v) in Hnt.
    destruct (bench_pass players MIN_DEFS MIN_MIDS MIN_FWDS gw_number v)
      as [[v' e]| |] eqn:Hpass; simpl; [|done|done].
    apply bench_pass_shorter in Hpass; [|by rewrite Hq].
    apply IH. rewrite Hq in Hpass. simpl in Hpass, Hlen. lia.
Qed.

(** A full pool clears the queue at the first candidate, before any
    lookup. *)
Lemma bench_pass_full_pool v :
  len (outfield_players v) = 10 -> gw_bench_picks v <> [] ->
  bench_pass players MIN_DEFS MIN_MIDS MIN_FWDS gw_number v
  = Ok (set_gw_bench_picks [] v, Some (Cleared (gw_bench_picks v))).
Proof.
  intros Hfull Hne. unfold bench_pass.
  destruct (gw_bench_picks v) as [|q qs] eqn:Hq; [done|].
  simpl. unfold bench_pick_step. rewrite Hfull. simpl. by rewrite Hq.
Qed.

Lemma len_app {A} (l1 l2 : list A) : len (l1 ++ l2) = len l1 + len l2.
Proof. unfold len. rewrite length_app. lia. Qed.

(** A [break] adds at most one player to the pool, and none when the
    pool already holds 10. *)
Lemma step_ends_pool v j bench_pick v' x :
  step_ends players gw_number v j bench_pick v' (Some x) ->
  (len (outfield_players v) = 10 /\ outfield_players v' = outfield_players v)
  \/ (len (outfield_players v) <> 10 /\
      len (outfield_players v) <= len (outfield_players v')
                               <= len (outfield_players v) + 1).
Proof.
  intros H. inversion H; subst.
  - left. split; [assumption|reflexivity].
  - right. split; [assumption|]. unfold outfield_players; simpl. lia.
  - right. split; [assumption|].
    match goal with Hw : _ \/ _ |- _ => destruct Hw as [[_ ->]|[_ ->]] end;
      unfold outfield_players; simpl; rewrite !len_app; unfold len; simpl; lia.
Qed.

Lemma outfield_turn_pool v v' :
  outfield_turn players MIN_DEFS MIN_MIDS MIN_FWDS gw_number v v' ->
  len (outfield_players v) <= 10 -> len (outfield_players v') <= 10.
Proof.
  intros [Hne [e Hpass]] Hle.
  apply bench_pass_ends in Hpass as (j & pk & x & _ & _ & H); [|done].
  apply step_ends_pool in H as [[_ ->]|[Hroom Hb]]; lia.
Qed.

Lemma outfield_pool_bound_preserved v v' :
  len (outfield_players v) <= 10 ->
  rtc (outfield_turn players MIN_DEFS MIN_MIDS MIN_FWDS gw_number) v v' ->
  len (outfield_players v') <= 10.
Proof.
  intros Hle Hrtc. induction Hrtc as [|v1 v2 v3 Hturn _ IH]; [done|].
  apply IH. by eapply outfield_turn_pool.
Qed.

(** C10: the outfield substitution loop terminates.  A pass over a
    non-empty queue never falls off the end of the [for]: it either
    clears the queue (pool full) or deletes exactly one candidate (the
    one subbed in or removed), so the queue is strictly shorter after
    every pass; and the [while] loop, given as many turns as the queue is
    long, returns or raises but never runs out of turns, with the same
    answer for any larger number of turns. *)
Theorem outfield_loop_terminates v :
  match gw_bench_picks v with
  | [] => True
  | _ :: _ =>
      match bench_pass players MIN_DEFS MIN_MIDS MIN_FWDS gw_number v with
      | Ok (v', e) =>
          (length (gw_bench_picks v') < length (gw_bench_picks v))%nat /\
          match e with
          | Some (Cleared dropped) =>
              dropped = gw_bench_picks v /\ gw_bench_picks v' = [] /\
              len (outfield_players v) = 10
          | Some (Removed bench_pick) | Some (SubbedIn bench_pick) =>
              exists j, gw_bench_picks v !! j = Some bench_pick /\
                        gw_bench_picks v' = delete j (gw_bench_picks v)
          | None => False
          end
      | Raise _ => True
      | Timeout => False
      end
  end /\
  auto_sub_outfield players MIN_DEFS MIN_MIDS MIN_FWDS gw_number
    (length (gw_bench_picks v)) v <> Timeout /\
  forall extra : nat,
    auto_sub_outfield players MIN_DEFS MIN_MIDS MIN_FWDS gw_number
      (length (gw_bench_picks v) + extra) v
    = auto_sub_outfield players MIN_DEFS MIN_MIDS MIN_FWDS gw_number
        (length (gw_bench_picks v)) v.
Proof.
  split; [|split].
  - destruct (gw_bench_picks v) as [|q qs] eqn:Hq; [done|].
    pose proof (bench_for_no_timeout (gw_bench_picks v) v 0) as Hnt.
    fold (bench_pass players MIN_DEFS MIN_MIDS MIN_FWDS gw_number v) in Hnt.
    destruct (bench_pass players MIN_DEFS MIN_MIDS MIN_FWDS gw_number v)
      as [[v' e]| |] eqn:Hpass; [|done|done].
    assert (Hne : gw_bench_picks v <> []) by (by rewrite Hq).
    split; [rewrite <- Hq; by eapply bench_pass_shorter|].
    apply bench_pass_ends in Hpass as (j & pk & x & Hj & -> & H); [|done].
    rewrite <- Hq. inversion H; subst; simpl; eauto.
  - apply (auto_sub_outfield_fuel _ v 0). lia.
  - intros extra. apply auto_sub_outfield_fuel. lia.
Qed.

(** An [ATTACKER] on the bench is never subbed in: the only position
    tests that can succeed are the defender's and the midfielder's. *)
Lemma attacker_never_subbed_in v i bench_pick bench_player v' p :
  players !! Pick.element bench_pick = Some bench_player ->
  Player.element_type bench_player = ATTACKER ->
  bench_pick_step players MIN_DEFS MIN_MIDS MIN_FWDS gw_number v i bench_pick
  <> Ok (v', Some (SubbedIn p)).
Proof.
  intros Hbp Hpos H. apply step_ends_sound in H. inversion H; subst.
  match goal with
  | Hl : players !! Pick.element p = Some ?q, Hw : _ \/ _ |- _ =>
      rewrite Hbp in Hl; inversion Hl; subst q;
      destruct Hw as [[Hd _]|[Hd _]]; congruence
  end.
Qed.

(** For a defender who played, [should_be_subbed_in] is the defender's
    eligibility rule. *)
Lemma defender_eligibility v force bench_player r :
  truthy (Combined.minutes r) = true ->
  Player.element_type bench_player = DEFENDER ->
  (check_sub_in MIN_DEFS MIN_MIDS MIN_FWDS v force bench_player r).1.2
  = (len (defs v) <? MIN_DEFS)
    || ((MIN_MIDS <=? len (mids v)) && (MIN_FWDS <=? len (fwds v)))
    || force.
Proof.
  intros Hm Hpos. unfold check_sub_in. rewrite Hm, Hpos. simpl.
  by case_match.
Qed.

(** For a midfielder who played, it is the midfielder's rule. *)
Lemma midfielder_eligibility v force bench_player r :
  truthy (Combined.minutes r) = true ->
  Player.element_type bench_player = MIDFIELDER ->
  (check_sub_in MIN_DEFS MIN_MIDS MIN_FWDS v force bench_player r).1.2
  = (len (mids v) <? MIN_MIDS)
    || ((MIN_DEFS <=? len (defs v)) && (MIN_FWDS <=? len (fwds v)))
    || force.
Proof.
  intros Hm Hpos. unfold check_sub_in. rewrite Hm, Hpos. simpl.
  by case_match.
Qed.

(** For a forward it is [False], whatever the counts and the forced
    flag. *)
Lemma attacker_eligibility v force bench_player r :
  Player.element_type bench_player = ATTACKER ->
  (check_sub_in MIN_DEFS MIN_MIDS MIN_FWDS v force bench_player r).1.2
  = false.
Proof.
  intros Hpos. unfold check_sub_in. rewrite Hpos. simpl. by case_match.
Qed.

(** An outfield bench player who is subbed in has their points added to
    the gameweek total and to the auto-sub counter. *)
Lemma subbed_in_points_counted v i bench_pick v' p :
  bench_pick_step players MIN_DEFS MIN_MIDS MIN_FWDS gw_number v i bench_pick
  = Ok (v', Some (SubbedIn p)) ->
  exists r,
    pick_result players gw_number bench_pick = Ok r /\
    total_gw_points v' = total_gw_points v + Combined.total_points r /\
    total_auto_sub_points v'
    = total_auto_sub_points v + Combined.total_points r.
Proof.
  intros H. apply step_ends_sound in H. inversion H; subst.
  match goal with
  | Hl : players !! _ = Some _, Hr : _ = Ok ?r, Hw : _ \/ _ |- _ =>
      exists r; unfold pick_result, players_get; rewrite Hl; simpl;
      split; [exact Hr|];
      destruct Hw as [[_ ->]|[_ ->]]; simpl; auto
  end.
Qed.

(** The goalkeeper stage never touches the gameweek total. *)
Lemma auto_sub_keeper_total_gw_points bench v v' :
  auto_sub_keeper players gw_number bench v = Ok v' ->
  total_gw_points v' = total_gw_points v.
Proof.
  unfold auto_sub_keeper. simpl. destruct bench as [|b bs]; [done|].
  intros H. apply bind_Ok in H as (w & Hw & H).
  apply bind_Ok in H as (l & _ & H). inversion H; subst; clear H. simpl.
  destruct (gk v); simpl in Hw.
  { by inversion Hw. }
  apply bind_Ok in Hw as (r & _ & Hw).
  destruct (truthy (Combined.minutes r)); [|by inversion Hw].
  apply bind_Ok in Hw as (p & _ & Hw).
  unfold points_per_player_add in Hw. simpl in Hw.
  destruct (_ !! _); [|done]. by inversion Hw.
Qed.

End OutfieldStep.

(** ** The starting XI scan and the armband *)

Section StartingScan.

Variable players : gmap string Player.t.
Variable gw_number : Z.

Lemma for_each_app {A S} (body : S -> A -> outcome S) (l1 l2 : list A) s :
  for_each body (l1 ++ l2) s = for_each body l1 s ≫= for_each body l2.
Proof.
  revert s. induction l1 as [|x l1 IH]; intros s; simpl; [reflexivity|].
  destruct (body s x); simpl; auto.
Qed.

(** What one starting pick does to the variables. *)
Lemma starting_pick_step_inv v pick v' :
  starting_pick_step players gw_number v pick = Ok v' ->
  exists p r,
    players !! Pick.element pick = Some p /\
    pick_result players gw_number pick = Ok r /\
    ((truthy (Combined.minutes r) = false /\ v' = note_armband pick r v)
     \/ (truthy (Combined.minutes r) = true /\
         exists old,
           v' = set_total_gw_points
                  (total_gw_points v + Combined.total_points r)
                  (set_points_per_player
                     (<[Player.id p := old + Combined.total_points r]>
                        (points_per_player v))
                     (file_starter p (note_armband pick r v))))).
Proof.
  unfold starting_pick_step, pick_result. intros H.
  apply bind_Ok in H as (p & Hp & H). rewrite Hp. simpl.
  apply bind_Ok in H as (r & Hr & H).
  unfold players_get in Hp.
  destruct (players !! Pick.element pick) as [p'|]; [|done].
  inversion Hp; subst p'; clear Hp.
  exists p, r. split; [done|]. split; [done|].
  destruct (truthy (Combined.minutes r)).
  - right. split; [done|].
    apply bind_Ok in H as (w & Hw & H).
    unfold points_per_player_add in Hw.
    destruct (points_per_player _ !! Player.id p) as [old|] eqn:Hold; [|done].
    inversion Hw; subst w; clear Hw. inversion H; subst; clear H.
    exists old. simpl.
    assert (Hppp : forall u, points_per_player (file_starter p u)
                             = points_per_player u
                             /\ total_gw_points (file_starter p u)
                                = total_gw_points u).
    { intros u. unfold file_starter. repeat case_decide; done. }
    assert (Hnote : points_per_player (note_armband pick r v)
                    = points_per_player v
                    /\ total_gw_points (note_armband pick r v)
                       = total_gw_points v).
    { unfold note_armband. repeat case_match; done. }
    destruct (Hppp (note_armband pick r v)) as [-> ->].
    destruct Hnote as [-> ->]. reflexivity.
  - left. split; [done|]. by inversion H.
Qed.

Ltac frame_blocks :=
  unfold note_armband, file_starter; repeat case_match; simpl;
  repeat split; auto.

(** The scan writes the armband variables only through [note_armband],
    and never writes the season counters. *)
Lemma starting_pick_step_frame v pick v' r :
  starting_pick_step players gw_number v pick = Ok v' ->
  pick_result players gw_number pick = Ok r ->
  captain_mins v' = captain_mins (note_armband pick r v) /\
  captain_points v' = captain_points (note_armband pick r v) /\
  vc_mins v' = vc_mins (note_armband pick r v) /\
  vc_points v' = vc_points (note_armband pick r v) /\
  total_captain_points v' = total_captain_points v /\
  total_vice_captain_points v' = total_vice_captain_points v /\
  total_auto_sub_points v' = total_auto_sub_points v /\
  total_points v' = total_points v.
Proof.
  intros H Hr. apply starting_pick_step_inv in H as (p & r' & _ & Hr' & H).
  rewrite Hr in Hr'. inversion Hr'; subst r'; clear Hr'.
  destruct H as [[_ ->]|[_ [old ->]]]; simpl; frame_blocks.
Qed.

Lemma starting_pick_step_result v pick v' :
  starting_pick_step players gw_number v pick = Ok v' ->
  exists r, pick_result players gw_number pick = Ok r.
Proof.
  intros H. apply starting_pick_step_inv in H as (p & r & _ & Hr & _). eauto.
Qed.

Lemma scan_counters l v v' :
  for_each (starting_pick_step players gw_number) l v = Ok v' ->
  total_captain_points v' = total_captain_points v /\
  total_vice_captain_points v' = total_vice_captain_points v /\
  total_auto_sub_points v' = total_auto_sub_points v /\
  total_points v' = total_points v.
Proof.
  revert v. induction l as [|pk l IH]; intros v H; simpl in H.
  - by inversion H.
  - apply bind_Ok in H as (w & Hw & H).
    destruct (starting_pick_step_result _ _ _ Hw) as [r Hr].
    destruct (starting_pick_step_frame _ _ _ _ Hw Hr)
      as (_ & _ & _ & _ & <- & <- & <- & <-).
    by apply IH.
Qed.

Lemma scan_keeps_captain l v v' :
  Forall (fun pk => Pick.is_captain pk = false) l ->
  for_each (starting_pick_step players gw_number) l v = Ok v' ->
  captain_mins v' = captain_mins v /\ captain_points v' = captain_points v.
Proof.
  intros Hl. revert v. induction Hl as [|pk l Hpk _ IH]; intros v H;
    simpl in H.
  - by inversion H.
  - apply bind_Ok in H as (w & Hw & H).
    destruct (starting_pick_step_result _ _ _ Hw) as [r Hr].
    destruct (starting_pick_step_frame _ _ _ _ Hw Hr) as (E1 & E2 & _).
    destruct (IH _ H) as [-> ->]. rewrite E1, E2.
    unfold note_armband. rewrite Hpk. by case_match.
Qed.

Lemma scan_keeps_vc l v v' :
  Forall (fun pk => counts_as_vc pk = false) l ->
  for_each (starting_pick_step players gw_number) l v = Ok v' ->
  vc_mins v' = vc_mins v /\ vc_points v' = vc_points v.
Proof.
  intros Hl. revert v. induction Hl as [|pk l Hpk _ IH]; intros v H;
    simpl in H.
  - by inversion H.
  - apply bind_Ok in H as (w & Hw & H).
    destruct (starting_pick_step_result _ _ _ Hw) as [r Hr].
    destruct (starting_pick_step_frame _ _ _ _ Hw Hr) as (_ & _ & E1 & E2 & _).
    destruct (IH _ H) as [-> ->]. rewrite E1, E2.
    unfold note_armband. unfold counts_as_vc in Hpk.
    destruct (Pick.is_captain pk), (Pick.is_vice_captain pk); done.
Qed.

(** After the scan, the captain variables hold the combined result of
    the last starting pick flagged captain. *)
Lemma scan_sets_captain l1 c l2 v v' rc :
  for_each (starting_pick_step players gw_number) (l1 ++ c :: l2) v = Ok v' ->
  Pick.is_captain c = true ->
  Forall (fun pk => Pick.is_captain pk = false) l2 ->
  pick_result players gw_number c = Ok rc ->
  captain_mins v' = Combined.minutes rc /\
  captain_points v' = Combined.total_points rc.
Proof.
  intros H Hc Hl2 Hrc. rewrite for_each_app in H.
  apply bind_Ok in H as (w1 & _ & H). simpl in H.
  apply bind_Ok in H as (w2 & Hw2 & H).
  destruct (starting_pick_step_frame _ _ _ _ Hw2 Hrc) as (E1 & E2 & _).
  destruct (scan_keeps_captain _ _ _ Hl2 H) as [-> ->]. rewrite E1, E2.
  unfold note_armband. by rewrite Hc.
Qed.

(** The vice-captain variables hold the combined result of the last
    starting pick that is flagged vice-captain and not captain. *)
Lemma scan_sets_vc l1 vc l2 v v' rvc :
  for_each (starting_pick_step players gw_number) (l1 ++ vc :: l2) v = Ok v' ->
  counts_as_vc vc = true ->
  Forall (fun pk => counts_as_vc pk = false) l2 ->
  pick_result players gw_number vc = Ok rvc ->
  vc_mins v' = Combined.minutes rvc /\
  vc_points v' = Combined.total_points rvc.
Proof.
  intros H Hc Hl2 Hrc. rewrite for_each_app in H.
  apply bind_Ok in H as (w1 & _ & H). simpl in H.
  apply bind_Ok in H as (w2 & Hw2 & H).
  destruct (starting_pick_step_frame _ _ _ _ Hw2 Hrc) as (_ & _ & E1 & E2 & _).
  destruct (scan_keeps_vc _ _ _ Hl2 H) as [-> ->]. rewrite E1, E2.
  unfold note_armband. unfold counts_as_vc in Hc.
  destruct (Pick.is_captain vc), (Pick.is_vice_captain vc); done.
Qed.

(** A starter adds at most one player to the outfield pool, and none
    when the store has them as a goalkeeper. *)
Lemma starting_pick_step_pool v pick v' :
  starting_pick_step players gw_number v pick = Ok v' ->
  len (outfield_players v')
  <= len (outfield_players v)
     + (if starting_keeper players pick then 0 else 1).
Proof.
  intros H. apply starting_pick_step_inv in H as (p & r & Hp & _ & H).
  unfold starting_keeper. rewrite Hp.
  assert (Hn : defs (note_armband pick r v) = defs v /\
               mids (note_armband pick r v) = mids v /\
               fwds (note_armband pick r v) = fwds v)
    by frame_blocks.
  destruct Hn as (Hd & Hm & Hf).
  destruct H as [[_ ->]|[_ [old ->]]].
  - unfold outfield_players. rewrite Hd, Hm, Hf. case_match; lia.
  - unfold outfield_players. simpl. unfold file_starter.
    case_bool_decide as Hk.
    + rewrite decide_True by done. simpl. rewrite Hd, Hm, Hf. lia.
    + rewrite decide_False by done.
      repeat case_decide; simpl; rewrite ?len_app, Hd, Hm, Hf;
        rewrite ?len_app; unfold len; simpl; lia.
Qed.

Lemma scan_pool l v v' :
  for_each (starting_pick_step players gw_number) l v = Ok v' ->
  len (outfield_players v')
  <= len (outfield_players v)
     + len (List.filter (fun pk => negb (starting_keeper players pk)) l).
Proof.
  revert v. induction l as [|pk l IH]; intros v H; simpl in H.
  - inversion H; subst. unfold len; simpl; lia.
  - apply bind_Ok in H as (w & Hw & H).
    apply starting_pick_step_pool in Hw. apply IH in H. simpl.
    destruct (starting_keeper players pk); simpl; unfold len in *;
      simpl; lia.
Qed.

Lemma filter_length_lt {A} (f : A -> bool) (l : list A) x :
  x ∈ l -> f x = false ->
  (length (List.filter f l) < length l)%nat.
Proof.
  intros Hx Hf. induction Hx as [x l|x y l Hx IH]; simpl.
  - rewrite Hf. pose proof (List.filter_length_le f l). lia.
  - specialize (IH Hf). destruct (f y); simpl; lia.
Qed.

End StartingScan.

(** ** Frames of the captain and goalkeeper blocks *)

Lemma add_captain_vc_points_extra v :
  total_gw_points (add_captain_vc_points v)
  = total_gw_points v + captain_vc_extra v.
Proof.
  unfold add_captain_vc_points, captain_vc_extra.
  repeat case_match; simpl; lia.
Qed.

Lemma add_captain_vc_points_pool v :
  outfield_players (add_captain_vc_points v) = outfield_players v.
Proof. unfold add_captain_vc_points. by repeat case_match. Qed.

Lemma auto_sub_keeper_pool players gw_number bench v v' :
  auto_sub_keeper players gw_number bench v = Ok v' ->
  outfield_players v' = outfield_players v.
Proof.
  unfold auto_sub_keeper. simpl. destruct bench as [|b bs]; [done|].
  intros H. apply bind_Ok in H as (w & Hw & H).
  apply bind_Ok in H as (l & _ & H). inversion H; subst; clear H.
  destruct (gk v); simpl in Hw.
  { by inversion Hw. }
  apply bind_Ok in Hw as (r & _ & Hw).
  destruct (truthy (Combined.minutes r)); [|by inversion Hw].
  apply bind_Ok in Hw as (p & _ & Hw).
  unfold points_per_player_add in Hw. simpl in Hw.
  destruct (_ !! _); [|done]. by inversion Hw.
Qed.

(** With 11 starters of whom at least one is a goalkeeper, the outfield
    stage starts with at most 10 players in the pool. *)
Lemma before_outfield_pool players gw_number sp bp v0 v :
  length sp = 11%nat ->
  (exists pk, pk ∈ sp /\ starting_keeper players pk = true) ->
  before_outfield players gw_number sp bp v0 = Ok v ->
  len (outfield_players v) <= 10.
Proof.
  intros Hlen (pk & Hin & Hk) H. unfold before_outfield in H.
  apply bind_Ok in H as (v1 & Hscan & H).
  apply bind_Ok in H as (v2 & Hkeep & H).
  destruct (len (gw_bench_picks v2) =? 3); [|done].
  inversion H; subst v2; clear H.
  apply auto_sub_keeper_pool in Hkeep. rewrite add_captain_vc_points_pool in Hkeep.
  apply scan_pool in Hscan. rewrite Hkeep.
  assert (Hf : (length (List.filter
                          (fun pk => negb (starting_keeper players pk)) sp)
                < length sp)%nat).
  { apply (filter_length_lt _ _ pk); [done|]. by rewrite Hk. }
  unfold len in *. simpl in Hscan. lia.
Qed.

(** The states the [while] loop goes through are linked by
    [outfield_turn]. *)
Lemma auto_sub_outfield_turns
    players MIN_DEFS MIN_MIDS MIN_FWDS gw_number fuel v v' :
  auto_sub_outfield players MIN_DEFS MIN_MIDS MIN_FWDS gw_number fuel v
  = Ok v' ->
  rtc (outfield_turn players MIN_DEFS MIN_MIDS MIN_FWDS gw_number) v v' /\
  gw_bench_picks v' = [].
Proof.
  revert v. induction fuel as [|fuel IH]; intros v H; simpl in H.
  - destruct (gw_bench_picks v) eqn:Hq; [|done].
    inversion H; subst. split; [apply rtc_refl|done].
  - destruct (gw_bench_picks v) as [|q qs] eqn:Hq.
    { inversion H; subst. split; [apply rtc_refl|done]. }
    apply bind_Ok in H as ([w e] & Hpass & H). simpl in H.
    destruct (IH _ H) as [Hrtc Hend]. split; [|done].
    eapply rtc_l; [|exact Hrtc]. split; [by rewrite Hq|eauto].
Qed.

(** The outfield pool a gameweek ends with holds at most 10 players. *)
Lemma gameweek_pool_at_most_ten
    players MIN_DEFS MIN_MIDS MIN_FWDS gw_number sp bp v0 v :
  length sp = 11%nat ->
  (exists pk, pk ∈ sp /\ starting_keeper players pk = true) ->
  gameweek players MIN_DEFS MIN_MIDS MIN_FWDS gw_number sp bp v0 = Ok v ->
  len (outfield_players v) <= 10.
Proof.
  intros Hlen Hk H. unfold gameweek in H.
  apply bind_Ok in H as (v1 & Hb & H). apply bind_Ok in H as (v2 & Hloop & H).
  inversion H; subst; clear H.
  apply auto_sub_outfield_turns in Hloop as [Hrtc _].
  change (len (outfield_players v2) <= 10).
  eapply outfield_pool_bound_preserved; [|exact Hrtc].
  by eapply before_outfield_pool.
Qed.

(** C8: in every gameweek evaluation of a starting XI of 11 with a
    goalkeeper, every state the outfield loop goes through has at most 10
    players in the outfield pool; and in a state where the pool holds 10
    and candidates remain, the pass drops all of them and changes nothing
    else: no one is subbed in. *)
Theorem outfield_pool_never_exceeds_ten
    players MIN_DEFS MIN_MIDS MIN_FWDS gw_number sp bp v0 v v' :
  length sp = 11%nat ->
  (exists pk, pk ∈ sp /\ starting_keeper players pk = true) ->
  before_outfield players gw_number sp bp v0 = Ok v ->
  rtc (outfield_turn players MIN_DEFS MIN_MIDS MIN_FWDS gw_number) v v' ->
  len (outfield_players v') <= 10 /\
  (len (outfield_players v') = 10 -> gw_bench_picks v' <> [] ->
   bench_pass players MIN_DEFS MIN_MIDS MIN_FWDS gw_number v'
   = Ok (set_gw_bench_picks [] v', Some (Cleared (gw_bench_picks v')))).
Proof.
  intros Hlen Hk Hb Hrtc. split.
  - eapply outfield_pool_bound_preserved; [|exact Hrtc].
    by eapply before_outfield_pool.
  - intros Hfull Hne. by apply bench_pass_full_pool.
Qed.

Lemma outfield_pool_never_exceeds_ten_witness :
  len (outfield_players Scenario.all_play_before_outfield) <= 10 /\
  (len (outfield_players Scenario.all_play_before_outfield) = 10 ->
   gw_bench_picks Scenario.all_play_before_outfield <> [] ->
   bench_pass Scenario.all_play 3 2 1 1 Scenario.all_play_before_outfield
   = Ok (set_gw_bench_picks [] Scenario.all_play_before_outfield,
         Some (Cleared (gw_bench_picks Scenario.all_play_before_outfield)))).
Proof.
  apply (outfield_pool_never_exceeds_ten Scenario.all_play 3 2 1 1
           Scenario.starting_picks Scenario.bench_picks Scenario.fresh
           Scenario.all_play_before_outfield Scenario.all_play_before_outfield).
  - reflexivity.
  - exists (Scenario.pick "1" 1 1 false false). split.
    + apply list_elem_of_here.
    + vm_compute. reflexivity.
  - vm_compute. reflexivity.
  - apply rtc_refl.
Defined.

(** ** Captain and vice-captain points *)

(** The armband variables after the starting XI scan of a squad with one
    captain among the starters. *)
Lemma captain_after_scan players gw_number sp v0 v1 l1 c l2 rc :
  for_each (starting_pick_step players gw_number) sp (start_gameweek v0)
  = Ok v1 ->
  sp = l1 ++ c :: l2 ->
  Pick.is_captain c = true ->
  Forall (fun pk => Pick.is_captain pk = false) (l1 ++ l2) ->
  pick_result players gw_number c = Ok rc ->
  captain_mins v1 = Combined.minutes rc /\
  captain_points v1 = Combined.total_points rc /\
  total_captain_points v1 = total_captain_points v0 /\
  total_vice_captain_points v1 = total_vice_captain_points v0.
Proof.
  intros Hscan -> Hc Hno Hrc. apply Forall_app in Hno as [_ Hl2].
  destruct (scan_sets_captain _ _ _ _ _ _ _ _ Hscan Hc Hl2 Hrc) as [-> ->].
  destruct (scan_counters _ _ _ _ _ Hscan) as (-> & -> & _).
  done.
Qed.

(** ... with the vice-captain among the starters ... *)
Lemma starting_vc_after_scan players gw_number sp v0 v1 m1 vc m2 rvc :
  for_each (starting_pick_step players gw_number) sp (start_gameweek v0)
  = Ok v1 ->
  sp = m1 ++ vc :: m2 ->
  Pick.is_vice_captain vc = true ->
  Pick.is_captain vc = false ->
  Forall (fun pk => Pick.is_vice_captain pk = false) (m1 ++ m2) ->
  pick_result players gw_number vc = Ok rvc ->
  vc_mins v1 = Combined.minutes rvc /\
  vc_points v1 = Combined.total_points rvc.
Proof.
  intros Hscan -> Hvc Hnc Hno Hr. apply Forall_app in Hno as [_ Hm2].
  eapply scan_sets_vc; eauto.
  - unfold counts_as_vc. by rewrite Hvc, Hnc.
  - eapply Forall_impl; [exact Hm2|]. intros pk Hpk. unfold counts_as_vc.
    rewrite Hpk. apply andb_false_r.
Qed.

(** ... and with no vice-captain among the starters. *)
Lemma bench_vc_after_scan players gw_number sp v0 v1 :
  for_each (starting_pick_step players gw_number) sp (start_gameweek v0)
  = Ok v1 ->
  Forall (fun pk => Pick.is_vice_captain pk = false) sp ->
  vc_mins v1 = 0.
Proof.
  intros Hscan Hno.
  assert (Hno' : Forall (fun pk => counts_as_vc pk = false) sp).
  { eapply Forall_impl; [exact Hno|]. intros pk Hpk. unfold counts_as_vc.
    rewrite Hpk. apply andb_false_r. }
  by destruct (scan_keeps_vc _ _ _ _ _ Hno' Hscan) as [-> _].
Qed.

(** C6, as the code has it: the captain has no minutes, the vice-captain
    sits on the bench (pick ["14"]) and plays 90 minutes for 7 points; he
    is subbed in and his 7 points count once, but no vice-captain extra is
    added: the gameweek total is 27 (20 from the starters who played plus
    7), both armband counters stay 0. *)
Lemma bench_vice_captain_gets_no_extra :
  Combined.minutes
    <$> pick_result Scenario.captain_out 1 (Scenario.pick "6" 6 2 true false)
  = Ok 0 /\
  (fun r => (Combined.minutes r, Combined.total_points r))
    <$> pick_result Scenario.captain_out 1 (Scenario.pick "14" 14 0 false true)
  = Ok (90, 7) /\
  (fun v => (total_gw_points v, total_captain_points v,
             total_vice_captain_points v, captain_vc_extra v))
    <$> gameweek Scenario.captain_out 3 2 1 1
          Scenario.starting_picks_bench_vc Scenario.bench_picks_bench_vc
          Scenario.fresh
  = Ok (27, 0, 0, 0).
Proof. repeat split; vm_compute; reflexivity. Qed.

(** C6 (amended): with one captain among the 11 starters, after the
    starting XI scan: if the captain's combined minutes are > 0 the
    captain's points are added as extra (to the gameweek total and the
    captain counter) and nothing goes to the vice-captain counter, also
    when the vice-captain played; if the captain's minutes are 0 and the
    vice-captain is one of the starters, the vice-captain's points are
    added as extra (vice-captain counter: he stepped in) when his minutes
    are > 0 and nothing is added when they are 0; if the captain's minutes
    are 0 and no starter is vice-captain (the vice-captain is on the bench)
    nothing is added. *)
Theorem armband_resolution players gw_number sp v0 v1 l1 c l2 rc :
  for_each (starting_pick_step players gw_number) sp (start_gameweek v0)
  = Ok v1 ->
  sp = l1 ++ c :: l2 ->
  Pick.is_captain c = true ->
  Forall (fun pk => Pick.is_captain pk = false) (l1 ++ l2) ->
  pick_result players gw_number c = Ok rc ->
  let v2 := add_captain_vc_points v1 in
  (0 < Combined.minutes rc ->
   total_gw_points v2 = total_gw_points v1 + Combined.total_points rc /\
   total_captain_points v2
   = total_captain_points v0 + Combined.total_points rc /\
   total_vice_captain_points v2 = total_vice_captain_points v0) /\
  (Combined.minutes rc = 0 ->
   (forall m1 vc m2 rvc,
      sp = m1 ++ vc :: m2 ->
      Pick.is_vice_captain vc = true ->
      Pick.is_captain vc = false ->
      Forall (fun pk => Pick.is_vice_captain pk = false) (m1 ++ m2) ->
      pick_result players gw_number vc = Ok rvc ->
      (0 < Combined.minutes rvc ->
       total_gw_points v2 = total_gw_points v1 + Combined.total_points rvc /\
       total_vice_captain_points v2
       = total_vice_captain_points v0 + Combined.total_points rvc /\
       total_captain_points v2 = total_captain_points v0) /\
      (Combined.minutes rvc = 0 -> v2 = v1)) /\
   (Forall (fun pk => Pick.is_vice_captain pk = false) sp -> v2 = v1)).
Proof.
  intros Hscan Hsp Hc Hno Hrc v2.
  destruct (captain_after_scan _ _ _ _ _ _ _ _ _ Hscan Hsp Hc Hno Hrc)
    as (Hcm & Hcp & Htc & Htv).
  subst v2. unfold add_captain_vc_points. rewrite Hcm, Hcp.
  split.
  - intros Hplayed. rewrite (truthy_pos _ Hplayed). simpl. rewrite Htc, Htv.
    done.
  - intros Hzero. rewrite Hzero, truthy_zero. split.
    + intros m1 vc m2 rvc Hsp' Hvc Hnc Hno' Hrvc.
      destruct (starting_vc_after_scan _ _ _ _ _ _ _ _ _
                  Hscan Hsp' Hvc Hnc Hno' Hrvc) as [Hvm Hvp].
      rewrite Hvm, Hvp. split.
      * intros Hplayed. rewrite (truthy_pos _ Hplayed). simpl.
        rewrite Htc, Htv. done.
      * intros ->. by rewrite truthy_zero.
    + intros Hbench.
      by rewrite (bench_vc_after_scan _ _ _ _ _ Hscan Hbench), truthy_zero.
Qed.

Lemma armband_resolution_witness :
  total_vice_captain_points
    (add_captain_vc_points Scenario.captain_out_after_scan) = 0 + 2 /\
  total_captain_points
    (add_captain_vc_points Scenario.captain_out_after_scan) = 0.
Proof.
  pose proof (armband_resolution Scenario.captain_out 1
                Scenario.starting_picks Scenario.fresh
                Scenario.captain_out_after_scan
                (take 5 Scenario.starting_picks)
                (Scenario.pick "6" 6 2 true false)
                (drop 6 Scenario.starting_picks)
                Combined.zero) as Hw.
  cbv zeta in Hw.
  destruct Hw as [_ Hout].
  - vm_compute. reflexivity.
  - reflexivity.
  - reflexivity.
  - repeat constructor.
  - vm_compute. reflexivity.
  - destruct Hout as [Hvc _]; [reflexivity|].
    destruct (Hvc (take 6 Scenario.starting_picks)
                  (Scenario.pick "7" 7 1 false true)
                  (drop 7 Scenario.starting_picks)
                  (Combined.mk 2 90 0 0 0 0 0 0 0 0 0 0 0 0)) as [Hin _].
    + reflexivity.
    + reflexivity.
    + reflexivity.
    + repeat constructor.
    + vm_compute. reflexivity.
    + destruct Hin as (_ & Hv & Hc); [reflexivity|]. split; assumption.
Defined.

(** Re-declaring a pick's multiplier. *)
Lemma starting_pick_step_ignores_multiplier players gw_number v pk m :
  starting_pick_step players gw_number v (with_multiplier m pk)
  = starting_pick_step players gw_number v pk.
Proof. reflexivity. Qed.

Lemma scan_ignores_multiplier players gw_number (m : Pick.t -> Z) sp v :
  for_each (starting_pick_step players gw_number)
    (map (fun pk => with_multiplier (m pk) pk) sp) v
  = for_each (starting_pick_step players gw_number) sp v.
Proof.
  revert v. induction sp as [|pk sp IH]; intros v; simpl; [reflexivity|].
  rewrite starting_pick_step_ignores_multiplier.
  destruct (starting_pick_step players gw_number v pk); simpl; auto.
Qed.

(** C7, as the code has it: with the triple-captain multiplier 3 declared
    on the captain's pick and the captain playing 90 minutes for 6 points,
    the extra added is 6, not (3 - 1) * 6 = 12. *)
Lemma triple_captain_extra_is_not_doubled :
  Pick.multiplier (Scenario.pick "6" 6 3 true false) = 3 /\
  (fun r => (Combined.minutes r, Combined.total_points r))
    <$> pick_result Scenario.all_play 1 (Scenario.pick "6" 6 3 true false)
  = Ok (90, 6) /\
  (fun v => (captain_vc_extra v, total_captain_points v, total_gw_points v))
    <$> gameweek Scenario.all_play 3 2 1 1 Scenario.starting_picks_3xc
          Scenario.bench_picks Scenario.fresh
  = Ok (6, 6, 32) /\
  (Pick.multiplier (Scenario.pick "6" 6 3 true false) - 1) * 6 <> 6.
Proof. repeat split; vm_compute; congruence. Qed.

(** C7 (amended): when the captain played (or, the captain having no
    minutes, the vice-captain among the starters played), the extra points
    added to the gameweek total are exactly that player's combined total
    points, that is (2 - 1) times them, whatever multiplier the pick
    declares: the scan gives the same variables when the picks' multipliers
    are re-declared at will, so a triple-captain 3 is never applied. *)
Theorem armband_extra_is_the_players_points
    players gw_number sp v0 v1 l1 c l2 rc :
  for_each (starting_pick_step players gw_number) sp (start_gameweek v0)
  = Ok v1 ->
  sp = l1 ++ c :: l2 ->
  Pick.is_captain c = true ->
  Forall (fun pk => Pick.is_captain pk = false) (l1 ++ l2) ->
  pick_result players gw_number c = Ok rc ->
  (0 < Combined.minutes rc ->
   total_gw_points (add_captain_vc_points v1)
   = total_gw_points v1 + (2 - 1) * Combined.total_points rc) /\
  (Combined.minutes rc = 0 ->
   forall m1 vc m2 rvc,
     sp = m1 ++ vc :: m2 ->
     Pick.is_vice_captain vc = true ->
     Pick.is_captain vc = false ->
     Forall (fun pk => Pick.is_vice_captain pk = false) (m1 ++ m2) ->
     pick_result players gw_number vc = Ok rvc ->
     0 < Combined.minutes rvc ->
     total_gw_points (add_captain_vc_points v1)
     = total_gw_points v1 + (2 - 1) * Combined.total_points rvc) /\
  (forall m : Pick.t -> Z,
     for_each (starting_pick_step players gw_number)
       (map (fun pk => with_multiplier (m pk) pk) sp)
       (start_gameweek v0)
     = Ok v1).
Proof.
  intros Hscan Hsp Hc Hno Hrc.
  destruct (captain_after_scan _ _ _ _ _ _ _ _ _ Hscan Hsp Hc Hno Hrc)
    as (Hcm & Hcp & _).
  rewrite add_captain_vc_points_extra. unfold captain_vc_extra.
  rewrite Hcm, Hcp. split; [|split].
  - intros Hplayed. rewrite (truthy_pos _ Hplayed). lia.
  - intros Hzero m1 vc m2 rvc Hsp' Hvc Hnc Hno' Hrvc Hplayed.
    destruct (starting_vc_after_scan _ _ _ _ _ _ _ _ _
                Hscan Hsp' Hvc Hnc Hno' Hrvc) as [Hvm Hvp].
    rewrite Hzero, truthy_zero, Hvm, Hvp, (truthy_pos _ Hplayed). lia.
  - intros m. by rewrite scan_ignores_multiplier.
Qed.

Lemma armband_extra_is_the_players_points_witness :
  total_gw_points (add_captain_vc_points Scenario.all_play_3xc_after_scan)
  = total_gw_points Scenario.all_play_3xc_after_scan + (2 - 1) * 6.
Proof.
  pose proof (armband_extra_is_the_players_points Scenario.all_play 1
                Scenario.starting_picks_3xc Scenario.fresh
                Scenario.all_play_3xc_after_scan
                (take 5 Scenario.starting_picks_3xc)
                (Scenario.pick "6" 6 3 true false)
                (drop 6 Scenario.starting_picks_3xc)
                (Combined.mk 6 90 0 0 0 0 0 0 0 0 0 0 0 0)) as Hw.
  cbv zeta in Hw.
  destruct Hw as [Hcap _].
  - vm_compute. reflexivity.
  - reflexivity.
  - reflexivity.
  - repeat constructor.
  - vm_compute. reflexivity.
  - apply Hcap. reflexivity.
Defined.

(** ** The forced flag *)

(** C4, as the code has it: four outfield starters have no minutes, so the
    outfield stage starts with 6 players in the pool and 3 candidates on
    the bench; 4 slots are open, one more than there are candidates, and
    the forced flag is set. *)
Lemma forced_with_a_spare_slot :
  (fun v => (len (outfield_players v), len (gw_bench_picks v),
             should_be_force_subbed_in v))
    <$> before_outfield Scenario.four_out 1 Scenario.starting_picks
          Scenario.bench_picks Scenario.fresh
  = Ok (6, 3, true) /\
  3 <> 10 - 6.
Proof. split; [vm_compute; reflexivity|lia]. Qed.

(** C4 (amended): while candidates remain on the bench, the forced flag is
    true if and only if the pool and the remaining candidates together are
    at most 10, that is the number of remaining candidates is at most (not
    exactly) the number of open outfield slots, 10 minus the pool size. *)
Theorem forced_iff_room_for_all v :
  gw_bench_picks v <> [] ->
  should_be_force_subbed_in v = true
  <-> len (gw_bench_picks v) <= 10 - len (outfield_players v).
Proof.
  intros Hne. unfold should_be_force_subbed_in.
  assert (Hpos : 0 < len (gw_bench_picks v)).
  { unfold len. destruct (gw_bench_picks v); [done|simpl; lia]. }
  destruct (Z.eqb_spec (len (outfield_players v)) 10) as [E|E].
  - split; [done|lia].
  - rewrite Z.leb_le. lia.
Qed.

Lemma forced_iff_room_for_all_witness :
  should_be_force_subbed_in Scenario.four_out_before_outfield = true
  <-> len (gw_bench_picks Scenario.four_out_before_outfield)
      <= 10 - len (outfield_players Scenario.four_out_before_outfield).
Proof.
  apply (forced_iff_room_for_all Scenario.four_out_before_outfield).
  vm_compute. discriminate.
Defined.

(** ** What the engine does with the backup goalkeeper and with forwards *)

(** C1: the starting goalkeeper has no minutes and the backup plays 45
    minutes for 5 points.  The backup is promoted ([gk] is player ["12"])
    and his 5 points go to the auto-sub counter, but the gameweek total is
    30: the 24 points of the ten outfield starters plus the captain's 6
    extra, without the backup's 5. *)
Theorem backup_keeper_points_missing_from_total :
  (fun r => (Combined.minutes r, Combined.total_points r))
    <$> pick_result Scenario.keeper_out 1 (Scenario.pick "12" 12 0 false false)
  = Ok (45, 5) /\
  (fun v => (Player.id <$> gk v, total_auto_sub_points v,
             points_of Scenario.keeper_out 1 (outfield_players v),
             captain_vc_extra v, total_gw_points v))
    <$> gameweek Scenario.keeper_out 3 2 1 1 Scenario.starting_picks
          Scenario.bench_picks Scenario.fresh
  = Ok (Some "12", 5, 24, 6, 30).
Proof. split; vm_compute; reflexivity. Qed.

(** C2: in the same gameweek the scoring set is the promoted backup
    goalkeeper and the ten outfield starters; their combined total points
    sum to 29, the captain's extra is 6, and the reported gameweek total
    is 30, not 35. *)
Theorem conservation_fails_when_keeper_is_subbed :
  (fun v => (map Player.id (scoring_set v),
             points_of Scenario.keeper_out 1 (scoring_set v),
             captain_vc_extra v, total_gw_points v))
    <$> gameweek Scenario.keeper_out 3 2 1 1 Scenario.starting_picks
          Scenario.bench_picks Scenario.fresh
  = Ok (["12"; "2"; "3"; "4"; "5"; "6"; "7"; "8"; "9"; "10"; "11"],
        29, 6, 30) /\
  29 + 6 <> 30.
Proof. split; [vm_compute; reflexivity|lia]. Qed.

(** C3: both starting forwards have no minutes, so the pool holds 0
    forwards against a minimum of 1, and the first outfield candidate on
    the bench (pick ["13"]) is a forward who played 90 minutes: the
    forward's rule holds.  He is not subbed in: the loop removes ["14"],
    ["15"] and finally ["13"], and nothing is added to the auto-sub
    counter. *)
Theorem bench_forward_is_not_subbed_in :
  (fun v => (len (fwds v) <? 1, len (outfield_players v),
             should_be_force_subbed_in v))
    <$> before_outfield Scenario.forwards_out 1 Scenario.starting_picks
          Scenario.bench_picks Scenario.fresh
  = Ok (true, 8, false) /\
  (fun r => (Combined.minutes r, Combined.total_points r))
    <$> pick_result Scenario.forwards_out 1
          (Scenario.pick "13" 13 0 false false)
  = Ok (90, 4) /\
  gameweek_outfield_breaks Scenario.forwards_out 3 2 1 1
    Scenario.starting_picks Scenario.bench_picks Scenario.fresh
  = Ok [Removed (Scenario.pick "14" 14 0 false false);
        Removed (Scenario.pick "15" 15 0 false false);
        Removed (Scenario.pick "13" 13 0 false false)] /\
  (fun v => (map Player.id (fwds v), total_auto_sub_points v))
    <$> gameweek Scenario.forwards_out 3 2 1 1 Scenario.starting_picks
          Scenario.bench_picks Scenario.fresh
  = Ok ([], 0).
Proof. repeat split; vm_compute; reflexivity. Qed.

(** ** The outfield stage does not look at the goalkeeper stage *)

Section KeeperIndependence.

Variables MIN_DEFS MIN_MIDS MIN_FWDS gw_number : Z.

Local Abbreviation step p := (bench_pick_step p MIN_DEFS MIN_MIDS MIN_FWDS gw_number).
Local Abbreviation pass p := (bench_pass p MIN_DEFS MIN_MIDS MIN_FWDS gw_number).

Lemma outcome_rel_bind {A B A' B'} (R : A -> B -> Prop)
    (R' : A' -> B' -> Prop) (m1 : outcome A) (m2 : outcome B) f1 f2 :
  outcome_rel R m1 m2 ->
  (forall a b, R a b -> outcome_rel R' (f1 a) (f2 b)) ->
  outcome_rel R' (m1 ≫= f1) (m2 ≫= f2).
Proof. destruct m1, m2; simpl; try done. intros; auto. Qed.

Lemma outcome_rel_fmap {A B} (R : A -> A -> Prop) (f : A -> B) m1 m2 :
  outcome_rel R m1 m2 ->
  (forall a b, R a b -> f a = f b) ->
  f <$> m1 = f <$> m2.
Proof.
  destruct m1, m2; simpl; try done; intros HR Hf.
  - f_equal. by apply Hf.
  - by subst.
Qed.

Ltac same_fields :=
  unfold same_break, same_outfield in *; simpl in *;
  repeat match goal with H : _ /\ _ |- _ => destruct H end;
  repeat split; simpl; try congruence; auto;
  try (intros;
       match goal with Hk : forall _, _ <-> _ |- _ => by apply Hk end).

Lemma points_per_player_add_same key x v1 v2 :
  same_outfield v1 v2 ->
  outcome_rel same_outfield (points_per_player_add key x v1)
                            (points_per_player_add key x v2).
Proof.
  intros Hs. unfold points_per_player_add.
  assert (Hkey : is_Some (points_per_player v1 !! key)
                 <-> is_Some (points_per_player v2 !! key))
    by (destruct Hs as (_ & _ & _ & _ & Hk); apply Hk).
  destruct (points_per_player v1 !! key) as [o1|] eqn:E1,
           (points_per_player v2 !! key) as [o2|] eqn:E2; simpl.
  - destruct Hs as (Hd & Hm & Hf & Hb & Hk).
    unfold same_outfield; simpl. repeat (split; [assumption|]).
    intros key'. rewrite !lookup_insert_is_Some. specialize (Hk key').
    tauto.
  - destruct Hkey as [Hkey _]. destruct Hkey; [eauto|done].
  - destruct Hkey as [_ Hkey]. destruct Hkey; [eauto|done].
  - reflexivity.
Qed.

Lemma check_sub_in_same v1 v2 force bench_player r :
  same_outfield v1 v2 ->
  same_outfield
    (check_sub_in MIN_DEFS MIN_MIDS MIN_FWDS v1 force bench_player r).1.1
    (check_sub_in MIN_DEFS MIN_MIDS MIN_FWDS v2 force bench_player r).1.1
  /\ (check_sub_in MIN_DEFS MIN_MIDS MIN_FWDS v1 force bench_player r).1.2
     = (check_sub_in MIN_DEFS MIN_MIDS MIN_FWDS v2 force bench_player r).1.2
  /\ (check_sub_in MIN_DEFS MIN_MIDS MIN_FWDS v1 force bench_player r).2
     = (check_sub_in MIN_DEFS MIN_MIDS MIN_FWDS v2 force bench_player r).2.
Proof.
  intros Hs. pose proof Hs as (Hd & Hm & Hf & _).
  unfold check_sub_in. rewrite Hd, Hm, Hf.
  repeat case_match; simpl; repeat split; auto; same_fields.
Qed.

Lemma remove_or_sub_in_same v1 v2 i bench_pick r s d :
  same_outfield v1 v2 ->
  outcome_rel same_break (remove_or_sub_in v1 i bench_pick r s d)
                         (remove_or_sub_in v2 i bench_pick r s d).
Proof.
  intros Hs. pose proof Hs as (_ & _ & _ & Hb & _).
  unfold remove_or_sub_in. rewrite Hb.
  destruct (d || (Z.of_nat i =? len (gw_bench_picks v2) - 1) && negb s).
  - destruct (del_at i (gw_bench_picks v2)); cbn; try done. same_fields.
  - destruct s; [|cbn; same_fields].
    eapply outcome_rel_bind.
    + apply points_per_player_add_same. same_fields.
    + intros w1 w2 Hw. pose proof Hw as (_ & _ & _ & Hwb & _).
      rewrite Hwb. destruct (del_at i (gw_bench_picks w2)); cbn; try done.
      same_fields.
Qed.

(** One candidate, one store, two states with the same outfield part. *)
Lemma step_same_outfield players v1 v2 i bench_pick :
  same_outfield v1 v2 ->
  outcome_rel same_break (step players v1 i bench_pick)
                         (step players v2 i bench_pick).
Proof.
  intros Hs. pose proof Hs as (Hd & Hm & Hf & Hb & _).
  unfold bench_pick_step, should_be_force_subbed_in, outfield_players.
  rewrite Hd, Hm, Hf, Hb.
  destruct (len (defs v2 ++ mids v2 ++ fwds v2) =? 10).
  { cbn. same_fields. }
  destruct (players_get players (Pick.element bench_pick)) as [bp| |];
    cbn; try done.
  destruct (get_combined_gameweek_result_for_player players (Player.id bp)
              gw_number) as [r| |]; cbn; try done.
  destruct (check_sub_in_same v1 v2
              (len (defs v2 ++ mids v2 ++ fwds v2) + len (gw_bench_picks v2)
               <=? 10) bp r Hs) as (Hc & -> & ->).
  by apply remove_or_sub_in_same.
Qed.

(** Two stores that agree on every key but [k], the first keyed by
    player id. *)
Variables p1 p2 : gmap string Player.t.
Variable k : string.
Hypothesis p1_keyed : keyed_by_id p1.
Hypothesis agree : forall key, key <> k -> p1 !! key = p2 !! key.

Lemma combined_agree key :
  key <> k ->
  get_combined_gameweek_result_for_player p1 key gw_number
  = get_combined_gameweek_result_for_player p2 key gw_number.
Proof.
  intros Hne. unfold get_combined_gameweek_result_for_player,
    get_player_gameweek_results, players_get. by rewrite (agree _ Hne).
Qed.

Lemma players_get_agree key :
  key <> k -> players_get p1 key = players_get p2 key.
Proof. intros Hne. unfold players_get. by rewrite (agree _ Hne). Qed.

Lemma players_get_id key p :
  players_get p1 key = Ok p -> Player.id p = key.
Proof.
  unfold players_get. destruct (p1 !! key) as [q|] eqn:E; [|done].
  intros Hq. inversion Hq; subst q. by apply (p1_keyed key p).
Qed.

Lemma step_agree v i bench_pick :
  Pick.element bench_pick <> k ->
  step p1 v i bench_pick = step p2 v i bench_pick.
Proof.
  intros Hne. unfold bench_pick_step. case_match; [done|].
  rewrite <- (players_get_agree _ Hne).
  destruct (players_get p1 (Pick.element bench_pick)) as [bp| |] eqn:E;
    cbn; try done.
  apply players_get_id in E. rewrite combined_agree by congruence. done.
Qed.

Lemma starting_pick_step_agree v pick :
  Pick.element pick <> k ->
  starting_pick_step p1 gw_number v pick
  = starting_pick_step p2 gw_number v pick.
Proof.
  intros Hne. unfold starting_pick_step.
  rewrite <- (players_get_agree _ Hne).
  destruct (players_get p1 (Pick.element pick)) as [p| |] eqn:E;
    cbn; try done.
  apply players_get_id in E. rewrite combined_agree by congruence. done.
Qed.

Lemma scan_agree sp v :
  Forall (fun pk => Pick.element pk <> k) sp ->
  for_each (starting_pick_step p1 gw_number) sp v
  = for_each (starting_pick_step p2 gw_number) sp v.
Proof.
  intros Hsp. revert v. induction Hsp as [|pk sp Hpk _ IH]; intros v;
    simpl; [done|].
  rewrite (starting_pick_step_agree _ _ Hpk).
  destruct (starting_pick_step p2 gw_number v pk); cbn; auto.
Qed.

(** The scan over a queue of candidates other than [k]. *)
Lemma bench_for_same items v1 v2 i :
  same_outfield v1 v2 ->
  Forall (fun pk => Pick.element pk <> k) items ->
  outcome_rel same_break
    (bench_for p1 MIN_DEFS MIN_MIDS MIN_FWDS gw_number v1 i items)
    (bench_for p2 MIN_DEFS MIN_MIDS MIN_FWDS gw_number v2 i items).
Proof.
  intros Hs Hitems. revert v1 v2 i Hs.
  induction Hitems as [|pk rest Hpk _ IH]; intros v1 v2 i Hs; simpl.
  { cbn. by split. }
  rewrite <- (step_agree v2 i pk Hpk).
  eapply outcome_rel_bind; [by apply step_same_outfield|].
  intros [w1 e1] [w2 e2] [Hw He]. simpl in *. subst e2.
  destruct e1; [cbn; by split|by apply IH].
Qed.

Lemma bench_pass_same v1 v2 :
  same_outfield v1 v2 ->
  Forall (fun pk => Pick.element pk <> k) (gw_bench_picks v1) ->
  outcome_rel same_break (pass p1 v1) (pass p2 v2).
Proof.
  intros Hs Hq. unfold bench_pass.
  pose proof Hs as (_ & _ & _ & Hb & _). rewrite <- Hb.
  by apply bench_for_same.
Qed.

(** A pass leaves a sub-queue of the queue it found. *)
Lemma bench_pass_queue (P : Pick.t -> Prop) players v v' e :
  pass players v = Ok (v', e) ->
  Forall P (gw_bench_picks v) -> Forall P (gw_bench_picks v').
Proof.
  intros Hpass Hq. destruct (gw_bench_picks v) as [|q qs] eqn:Hv.
  { unfold bench_pass in Hpass. rewrite Hv in Hpass. cbn in Hpass.
    inversion Hpass; subst. by rewrite Hv. }
  apply bench_pass_ends in Hpass as (j & pk & x & _ & _ & H);
    [|by rewrite Hv].
  rewrite <- Hv in Hq.
  inversion H; subst; simpl; auto using Forall_delete.
Qed.

Lemma outfield_breaks_same fuel v1 v2 :
  same_outfield v1 v2 ->
  Forall (fun pk => Pick.element pk <> k) (gw_bench_picks v1) ->
  outfield_breaks p1 MIN_DEFS MIN_MIDS MIN_FWDS gw_number fuel v1
  = outfield_breaks p2 MIN_DEFS MIN_MIDS MIN_FWDS gw_number fuel v2.
Proof.
  revert v1 v2. induction fuel as [|fuel IH]; intros v1 v2 Hs Hq.
  { simpl. by repeat case_match. }
  pose proof Hs as (_ & _ & _ & Hb & _).
  pose proof (bench_pass_same v1 v2 Hs Hq) as Hpass.
  simpl. rewrite <- Hb. destruct (gw_bench_picks v1) as [|q qs] eqn:Hv;
    [done|]. rewrite <- Hv in Hq.
  destruct (pass p1 v1) as [[w1 e1]| |] eqn:E1,
           (pass p2 v2) as [[w2 e2]| |] eqn:E2; simpl in Hpass; try done.
  destruct Hpass as [Hw He]. simpl in *. subst e2.
  pose proof (bench_pass_queue _ _ _ _ _ E1 Hq) as Hq'.
  destruct e1; [f_equal|]; by apply IH.
Qed.

Lemma auto_sub_outfield_same fuel v1 v2 :
  same_outfield v1 v2 ->
  Forall (fun pk => Pick.element pk <> k) (gw_bench_picks v1) ->
  outcome_rel same_outfield
    (auto_sub_outfield p1 MIN_DEFS MIN_MIDS MIN_FWDS gw_number fuel v1)
    (auto_sub_outfield p2 MIN_DEFS MIN_MIDS MIN_FWDS gw_number fuel v2).
Proof.
  revert v1 v2. induction fuel as [|fuel IH]; intros v1 v2 Hs Hq;
    pose proof Hs as (_ & _ & _ & Hb & _); simpl; rewrite <- Hb.
  { by destruct (gw_bench_picks v1). }
  pose proof (bench_pass_same v1 v2 Hs Hq) as Hpass.
  destruct (gw_bench_picks v1) as [|q qs] eqn:Hv; [done|].
  rewrite <- Hv in Hq.
  destruct (pass p1 v1) as [[w1 e1]| |] eqn:E1,
           (pass p2 v2) as [[w2 e2]| |] eqn:E2; simpl in Hpass; try done.
  destruct Hpass as [Hw _]. cbn.
  apply IH; [done|]. by eapply bench_pass_queue.
Qed.

Lemma same_outfield_sym v1 v2 : same_outfield v1 v2 -> same_outfield v2 v1.
Proof.
  intros (? & ? & ? & ? & Hk). repeat split; try done;
    intros; by apply Hk.
Qed.

Lemma same_outfield_trans v1 v2 v3 :
  same_outfield v1 v2 -> same_outfield v2 v3 -> same_outfield v1 v3.
Proof.
  intros (? & ? & ? & ? & Hk) (? & ? & ? & ? & Hk').
  repeat split; try congruence; intros.
  - by apply Hk', Hk.
  - by apply Hk, Hk'.
Qed.

(** The scan keeps the keys of [points_per_player]. *)
Lemma scan_keys players sp v v' key :
  for_each (starting_pick_step players gw_number) sp v = Ok v' ->
  is_Some (points_per_player v !! key) ->
  is_Some (points_per_player v' !! key).
Proof.
  revert v. induction sp as [|pk sp IH]; intros v H Hkey; simpl in H.
  { by inversion H; subst. }
  apply bind_Ok in H as (w & Hw & H). apply (IH _ H).
  apply starting_pick_step_inv in Hw as (p & r & _ & _ & Hw).
  assert (Hn : forall u, points_per_player (note_armband pk r u)
                         = points_per_player u)
    by (intros u; unfold note_armband; by repeat case_match).
  assert (Hf : forall u, points_per_player (file_starter p u)
                         = points_per_player u)
    by (intros u; unfold file_starter; by repeat case_match).
  destruct Hw as [[_ ->]|[_ [old ->]]]; simpl.
  - by rewrite Hn.
  - rewrite lookup_insert_is_Some. destruct (decide (Player.id p = key));
      auto.
Qed.

(** Whatever a store says about the backup goalkeeper [k], the
    goalkeeper stage returns, leaves the rest of the bench as the queue
    and touches nothing the outfield stage reads. *)
Lemma auto_sub_keeper_outfield players v b rest :
  Pick.element b = k ->
  is_Some (players !! k) ->
  is_Some (points_per_player v !! k) ->
  exists w,
    auto_sub_keeper players gw_number (b :: rest) v = Ok w /\
    same_outfield (set_gw_bench_picks rest v) w.
Proof.
  intros Hb [pl Hpl] [old Hold]. unfold auto_sub_keeper. cbn.
  rewrite Hb. destruct (gk v) eqn:Hgk; cbn.
  { eexists. split; [reflexivity|]. by repeat split. }
  rewrite (combined_of_history _ _ _ _ Hpl). cbn.
  destruct (truthy _); cbn.
  - unfold players_get. rewrite Hpl. cbn.
    unfold points_per_player_add. cbn. rewrite Hold. cbn.
    eexists. split; [reflexivity|]. repeat split; try done; cbn.
    + intros [x Hx]. rewrite lookup_insert_is_Some.
      destruct (decide (k = key)); eauto.
    + rewrite lookup_insert_is_Some. intros [<-|[_ Hx]]; eauto.
  - eexists. split; [reflexivity|]. by repeat split.
Qed.

End KeeperIndependence.

Lemma bind_Ok_eq {A B} (a : A) (f : A -> outcome B) : Ok a ≫= f = f a.
Proof. reflexivity. Qed.

Lemma store_keyed_by_id l : keyed_by_id (Scenario.store l).
Proof.
  unfold keyed_by_id, Scenario.store. induction l as [|p l IH]; simpl.
  - apply map_Forall_empty.
  - by apply map_Forall_insert_2.
Qed.

(** C9: take two stores that agree on every player but the backup
    goalkeeper (the pick in bench slot 1), both holding that player, so
    that the two runs of a gameweek differ only in the backup goalkeeper's
    combined result and hence in whether the goalkeeper stage promotes
    him.  For a squad whose other picks are other players, the outfield
    stage goes through the same breaks in both runs (the same candidates
    subbed in, removed or dropped, in the same order) and ends with the
    same outfield pool; when one run raises, the other raises the same. *)
Theorem outfield_stage_ignores_keeper_stage
    p1 p2 MIN_DEFS MIN_MIDS MIN_FWDS gw_number sp b rest v0 :
  keyed_by_id p1 ->
  (forall key, key <> Pick.element b -> p1 !! key = p2 !! key) ->
  is_Some (p1 !! Pick.element b) ->
  is_Some (p2 !! Pick.element b) ->
  is_Some (points_per_player v0 !! Pick.element b) ->
  Forall (fun pk => Pick.element pk <> Pick.element b) (sp ++ rest) ->
  gameweek_outfield_breaks p1 MIN_DEFS MIN_MIDS MIN_FWDS gw_number
    sp (b :: rest) v0
  = gameweek_outfield_breaks p2 MIN_DEFS MIN_MIDS MIN_FWDS gw_number
      sp (b :: rest) v0
  /\
  outfield_players
    <$> gameweek p1 MIN_DEFS MIN_MIDS MIN_FWDS gw_number sp (b :: rest) v0
  = outfield_players
      <$> gameweek p2 MIN_DEFS MIN_MIDS MIN_FWDS gw_number sp (b :: rest) v0.
Proof.
  intros Hkeyed Hagree Hk1 Hk2 Hkey Hpicks.
  apply Forall_app in Hpicks as [Hsp Hrest].
  unfold gameweek_outfield_breaks, gameweek, before_outfield.
  rewrite (scan_agree gw_number p1 p2 _ Hkeyed Hagree sp _ Hsp).
  destruct (for_each (starting_pick_step p2 gw_number) sp (start_gameweek v0))
    as [v1| |] eqn:Hscan; [|by cbn..].
  rewrite !bind_Ok_eq. cbv zeta.
  assert (Hkey1 : is_Some (points_per_player (add_captain_vc_points v1)
                           !! Pick.element b)).
  { assert (Hv1 : is_Some (points_per_player v1 !! Pick.element b))
      by (eapply scan_keys; [exact Hscan|exact Hkey]).
    unfold add_captain_vc_points. by repeat case_match. }
  destruct (auto_sub_keeper_outfield gw_number (Pick.element b) p1
              (add_captain_vc_points v1) b rest eq_refl Hk1 Hkey1)
    as (w1 & -> & Hw1).
  destruct (auto_sub_keeper_outfield gw_number (Pick.element b) p2
              (add_captain_vc_points v1) b rest eq_refl Hk2 Hkey1)
    as (w2 & -> & Hw2).
  assert (Hs : same_outfield w1 w2)
    by (eapply same_outfield_trans; [apply same_outfield_sym|]; eauto).
  assert (Hb1 : gw_bench_picks w1 = rest)
    by (by destruct Hw1 as (_ & _ & _ & <- & _)).
  assert (Hb2 : gw_bench_picks w2 = rest)
    by (by destruct Hw2 as (_ & _ & _ & <- & _)).
  rewrite !bind_Ok_eq, Hb1, Hb2. destruct (len rest =? 3); [|by cbn].
  unfold mret, outcome_ret. rewrite !bind_Ok_eq, Hb1, Hb2. split.
  - f_equal. apply (outfield_breaks_same _ _ _ _ p1 p2 (Pick.element b));
      try done. by rewrite Hb1.
  - pose proof (auto_sub_outfield_same MIN_DEFS MIN_MIDS MIN_FWDS gw_number
                  p1 p2 (Pick.element b) Hkeyed Hagree (length rest) w1 w2 Hs)
      as Hloop.
    rewrite Hb1 in Hloop. specialize (Hloop Hrest).
    destruct (auto_sub_outfield p1 _ _ _ _ _ w1) as [u1| |],
             (auto_sub_outfield p2 _ _ _ _ _ w2) as [u2| |];
      simpl in Hloop; cbn; try done; [|by subst].
    destruct Hloop as (Hd & Hm & Hf & _). unfold outfield_players. simpl.
    by rewrite Hd, Hm, Hf.
Qed.

Lemma outfield_stage_ignores_keeper_stage_witness :
  gameweek_outfield_breaks Scenario.keeper_out 3 2 1 1
    Scenario.starting_picks
    (Scenario.pick "12" 12 0 false false :: tail Scenario.bench_picks)
    Scenario.fresh
  = gameweek_outfield_breaks Scenario.keeper_idle 3 2 1 1
      Scenario.starting_picks
      (Scenario.pick "12" 12 0 false false :: tail Scenario.bench_picks)
      Scenario.fresh
  /\
  outfield_players
    <$> gameweek Scenario.keeper_out 3 2 1 1 Scenario.starting_picks
          (Scenario.pick "12" 12 0 false false :: tail Scenario.bench_picks)
          Scenario.fresh
  = outfield_players
      <$> gameweek Scenario.keeper_idle 3 2 1 1 Scenario.starting_picks
            (Scenario.pick "12" 12 0 false false :: tail Scenario.bench_picks)
            Scenario.fresh.
Proof.
  apply (outfield_stage_ignores_keeper_stage
           Scenario.keeper_out Scenario.keeper_idle 3 2 1 1
           Scenario.starting_picks (Scenario.pick "12" 12 0 false false)
           (tail Scenario.bench_picks) Scenario.fresh).
  - apply store_keyed_by_id.
  - intros key Hne. unfold Scenario.keeper_idle.
    symmetry. apply lookup_insert_ne. simpl in Hne. congruence.
  - eexists. vm_compute. reflexivity.
  - eexists. vm_compute. reflexivity.
  - eexists. vm_compute. reflexivity.
  - repeat constructor; discriminate.
Defined.

(** * The league statistics *)

(** ** Python lists, dicts and sorting *)

Lemma py_index_Ok {A} (l : list A) (i : Z) (x : A) :
  py_index l i = Ok x ->
  -len l <= i < len l /\
  l !! Z.to_nat (if i <? 0 then i + len l else i) = Some x.
Proof.
  unfold py_index. cbv zeta.
  set (j := if i <? 0 then i + len l else i).
  destruct (Z.leb_spec 0 j); destruct (Z.ltb_spec j (len l)); simpl;
    try discriminate.
  destruct (l !! Z.to_nat j) eqn:E; try discriminate.
  intros Hx. inversion Hx; subst. split; [|done].
  unfold j in *. destruct (Z.ltb_spec i 0); unfold len in *; lia.
Qed.

Lemma py_index_elem_of {A} (l : list A) (i : Z) (x : A) :
  py_index l i = Ok x -> x ∈ l.
Proof.
  intros H. apply py_index_Ok in H as [_ H]. by eapply list_elem_of_lookup_2.
Qed.

Lemma py_index_out_of_range {A} (l : list A) (i : Z) :
  i < - len l \/ len l <= i -> py_index l i = Raise IndexError.
Proof.
  intros H. unfold py_index. cbv zeta.
  set (j := if i <? 0 then i + len l else i).
  assert (Hj : j < 0 \/ len l <= j).
  { unfold j. destruct (Z.ltb_spec i 0); unfold len in *; lia. }
  destruct (Z.leb_spec 0 j); destruct (Z.ltb_spec j (len l)); simpl;
    try reflexivity; lia.
Qed.

Lemma py_index_nat {A} (l : list A) (n : nat) :
  py_index l (Z.of_nat n)
  = match l !! n with Some x => Ok x | None => Raise IndexError end.
Proof.
  unfold py_index.
  destruct (Z.ltb_spec (Z.of_nat n) 0); [lia|].
  destruct (Z.leb_spec 0 (Z.of_nat n)); [|lia]. simpl.
  rewrite Nat2Z.id.
  destruct (Z.ltb_spec (Z.of_nat n) (len l)) as [Hlt|Hge].
  - reflexivity.
  - rewrite lookup_ge_None_2; [done|]. unfold len in Hge. lia.
Qed.

Lemma py_index_from_end {A} (l : list A) (k : nat) :
  (0 < k <= length l)%nat ->
  py_index l (- Z.of_nat k)
  = match l !! (length l - k)%nat with
    | Some x => Ok x
    | None => Raise IndexError
    end.
Proof.
  intros Hk. unfold py_index, len.
  destruct (Z.ltb_spec (- Z.of_nat k) 0); [|lia].
  destruct (Z.leb_spec 0 (- Z.of_nat k + Z.of_nat (length l))); [|lia].
  destruct (Z.ltb_spec (- Z.of_nat k + Z.of_nat (length l))
                       (Z.of_nat (length l))); [|lia].
  simpl. replace (Z.to_nat (- Z.of_nat k + Z.of_nat (length l)))
    with (length l - k)%nat by lia.
  reflexivity.
Qed.

Lemma py_insert_perm {A} (key : A -> Z) reverse x (l : list A) :
  py_insert key reverse x l ≡ₚ x :: l.
Proof.
  induction l as [|y l IH]; simpl; [done|].
  case_match; [|done]. rewrite IH. apply Permutation_swap.
Qed.

(** [sorted] returns a rearrangement of its argument. *)
Lemma py_sorted_perm {A} (key : A -> Z) reverse (l : list A) :
  py_sorted key reverse l ≡ₚ l.
Proof.
  induction l as [|x l IH]; simpl; [done|].
  rewrite py_insert_perm. by rewrite IH.
Qed.

Lemma py_sorted_length {A} (key : A -> Z) reverse (l : list A) :
  length (py_sorted key reverse l) = length l.
Proof. by rewrite py_sorted_perm. Qed.

Lemma py_insert_sorted {A} (key : A -> Z) reverse x (l : list A) :
  StronglySorted (key_order key reverse) l ->
  StronglySorted (key_order key reverse) (py_insert key reverse x l).
Proof.
  induction 1 as [|y l Hl IH Hy]; simpl.
  { repeat constructor. }
  destruct reverse.
  - destruct (Z.ltb_spec (key x) (key y)).
    + constructor; [done|]. rewrite py_insert_perm. constructor; [|done].
      unfold key_order. lia.
    + constructor; [by constructor|]. constructor; [unfold key_order; lia|].
      eapply Forall_impl; [exact Hy|]. unfold key_order. intros; lia.
  - destruct (Z.ltb_spec (key y) (key x)).
    + constructor; [done|]. rewrite py_insert_perm. constructor; [|done].
      unfold key_order. lia.
    + constructor; [by constructor|]. constructor; [unfold key_order; lia|].
      eapply Forall_impl; [exact Hy|]. unfold key_order. intros; lia.
Qed.

Lemma py_sorted_sorted {A} (key : A -> Z) reverse (l : list A) :
  StronglySorted (key_order key reverse) (py_sorted key reverse l).
Proof.
  induction l as [|x l IH]; simpl; [constructor|]. by apply py_insert_sorted.
Qed.

Lemma dict_get_Ok {V} (d : list (string * V)) key (x : V) :
  dict_get d key = Ok x -> (key, x) ∈ d.
Proof.
  induction d as [|[k y] d IH]; simpl; [done|].
  case_decide as Hk.
  - intros Hx. inversion Hx; subst. left.
  - intros Hx. right. by apply IH.
Qed.

Lemma dict_get_missing {V} (d : list (string * V)) key :
  key ∉ d.*1 -> dict_get d key = Raise (KeyError key).
Proof.
  induction d as [|[k y] d IH]; simpl; [done|].
  intros Hk. apply not_elem_of_cons in Hk as [Hne Hk].
  rewrite decide_False by done. by apply IH.
Qed.

Lemma dict_get_in {V} (d : list (string * V)) key (x : V) :
  NoDup d.*1 -> (key, x) ∈ d -> dict_get d key = Ok x.
Proof.
  induction d as [|[k y] d IH]; simpl; intros Hnd Hin.
  { by apply elem_of_nil in Hin. }
  apply NoDup_cons in Hnd as [Hk Hnd].
  apply elem_of_cons in Hin as [Heq|Hin].
  - inversion Heq; subst. by rewrite decide_True.
  - rewrite decide_False; [by apply IH|].
    intros ->. apply Hk. apply list_elem_of_fmap. by exists (key, x).
Qed.

(** [for x in l: results.append(f(x))] returns when every [f(x)] does,
    with the values appended in order. *)
Lemma for_append_Ok {A B} (f : A -> outcome B) (l : list A) acc r :
  for_append f l acc = Ok r <->
  exists ys, Forall2 (fun x y => f x = Ok y) l ys /\ r = acc ++ ys.
Proof.
  unfold for_append. revert acc.
  induction l as [|x l IH]; intros acc; simpl.
  - split.
    + intros H. inversion H; subst. exists []. split; [constructor|].
      by rewrite app_nil_r.
    + intros (ys & Hys & ->). inversion Hys; subst. by rewrite app_nil_r.
  - split.
    + intros H. apply bind_Ok in H as (acc' & Hx & H).
      apply bind_Ok in Hx as (y & Hy & Hacc). inversion Hacc; subst acc'.
      apply IH in H as (ys & Hys & ->). exists (y :: ys).
      split; [by constructor|]. by rewrite <- app_assoc.
    + intros (ys & Hys & ->). inversion Hys as [|? y ? ys' Hy Hys']; subst.
      rewrite Hy. cbn. apply IH. exists ys'. split; [done|].
      by rewrite <- app_assoc.
Qed.

Lemma for_append_total {A B} (f : A -> B) (l : list A) acc :
  for_append (fun x => Ok (f x)) l acc = Ok (acc ++ map f l).
Proof.
  apply for_append_Ok. exists (map f l). split; [|done].
  induction l; simpl; by constructor.
Qed.

(** ** [get_gameweek_players] *)

Lemma fold_add_with_multiplier m (l : list PlayerHistory.t) a c :
  fold_left (add_with_multiplier m) l (set_combined_points a c)
  = set_combined_points
      (a + m * (Combined.total_points (fold_left Combined.add l c)
                - Combined.total_points c))
      (fold_left Combined.add l c).
Proof.
  revert a c. induction l as [|h l IH]; intros a c; simpl.
  - unfold set_combined_points. f_equal. lia.
  - change (add_with_multiplier m (set_combined_points a c) h)
      with (set_combined_points (a + m * PlayerHistory.total_points h)
              (Combined.add c h)).
    rewrite IH. unfold set_combined_points. f_equal. simpl. ring.
Qed.

(** Summing with the multiplier is multiplying the sum. *)
Lemma fold_add_with_multiplier_zero m (l : list PlayerHistory.t) :
  fold_left (add_with_multiplier m) l Combined.zero
  = scale_points m (fold_left Combined.add l Combined.zero).
Proof.
  change Combined.zero with (set_combined_points 0 Combined.zero) at 1.
  rewrite fold_add_with_multiplier. unfold scale_points. f_equal.
  simpl. ring.
Qed.

Lemma gameweek_player_step_inv players gw acc pick acc' :
  gameweek_player_step players gw acc pick = Ok acc' ->
  (playing pick = false /\ acc' = acc) \/
  (playing pick = true /\
   exists gp, gameweek_player_of players gw pick gp /\ acc' = acc ++ [gp]).
Proof.
  unfold gameweek_player_step, playing.
  destruct (1 <=? Pick.multiplier pick).
  - intros H. right. split; [done|].
    apply bind_Ok in H as (p & Hp & H). apply bind_Ok in H as (rs & Hrs & H).
    inversion H; subst; clear H. eexists. split; [|reflexivity].
    unfold players_get in Hp.
    destruct (players !! Pick.element pick) as [p'|] eqn:Hl; [|done].
    inversion Hp; subst p'.
    exists (fold_left Combined.add rs Combined.zero). simpl.
    split; [done|]. split; [|split; [apply fold_add_with_multiplier_zero|done]].
    unfold get_combined_gameweek_result_for_player. by rewrite Hrs.
  - intros H. left. by inversion H.
Qed.

Lemma gameweek_players_scan players gw picks acc r :
  for_each (gameweek_player_step players gw) picks acc = Ok r ->
  exists gps,
    r = acc ++ gps /\
    Forall2 (gameweek_player_of players gw) (List.filter playing picks) gps.
Proof.
  revert acc. induction picks as [|pk picks IH]; intros acc H; simpl in H.
  - inversion H; subst. exists []. split; [by rewrite app_nil_r|constructor].
  - apply bind_Ok in H as (acc' & Hstep & H).
    apply IH in H as (gps & -> & Hgps).
    apply gameweek_player_step_inv in Hstep as [[Hp ->]|[Hp (gp & Hgp & ->)]];
      simpl; rewrite Hp.
    + by exists gps.
    + exists (gp :: gps). split; [by rewrite <- app_assoc|by constructor].
Qed.

(** X1: when [get_gameweek_players] returns, its list has one entry for
    every pick of that gameweek with multiplier >= 1, in pick order, and
    no entry for the other picks; the entry holds the player of the store
    and the aggregator's combined result for that player and gameweek with
    the total points multiplied by the pick's multiplier (so a captain's
    points arrive doubled, a triple captain's tripled) and every other
    statistic as it is. *)
Theorem gameweek_players_are_the_playing_picks
    users players user_id gameweek_number user user_gameweek r :
  dict_get users user_id = Ok user ->
  py_index (User.history user) (gameweek_number - 1) = Ok user_gameweek ->
  get_gameweek_players users players user_id gameweek_number = Ok r ->
  Forall2 (gameweek_player_of players gameweek_number)
          (List.filter playing (UserHistory.picks user_gameweek)) r.
Proof.
  intros Hu Hg H. unfold get_gameweek_players in H.
  rewrite Hu, bind_Ok_eq, Hg, bind_Ok_eq in H.
  by apply gameweek_players_scan in H as (gps & -> & Hgps).
Qed.

(** X2: the gameweek number is used as a Python list index minus one.
    For a known user, a gameweek number above the length of the user's
    history, or at or below minus the length, raises [IndexError]; the
    gameweek number 0 does not raise but reads the picks of the last
    gameweek of the history; an unknown user id raises [KeyError]. *)
Theorem gameweek_players_index_edges users players user_id user :
  dict_get users user_id = Ok user ->
  (forall gameweek_number,
     len (User.history user) < gameweek_number \/
     gameweek_number <= - len (User.history user) ->
     get_gameweek_players users players user_id gameweek_number
     = Raise IndexError) /\
  (forall last_gameweek,
     last (User.history user) = Some last_gameweek ->
     get_gameweek_players users players user_id 0
     = for_each (gameweek_player_step players 0)
                (UserHistory.picks last_gameweek) []) /\
  (forall other_id,
     other_id ∉ users.*1 ->
     get_gameweek_players users players other_id 1
     = Raise (KeyError other_id)).
Proof.
  intros Hu. split; [|split].
  - intros gw Hgw. unfold get_gameweek_players. rewrite Hu, bind_Ok_eq.
    rewrite py_index_out_of_range; [done|lia].
  - intros lg Hlast. unfold get_gameweek_players. rewrite Hu, bind_Ok_eq.
    assert (Hlen : (0 < length (User.history user))%nat).
    { destruct (User.history user); [done|simpl; lia]. }
    change (0 - 1) with (- Z.of_nat 1). rewrite py_index_from_end by lia.
    rewrite last_lookup in Hlast.
    replace (length (User.history user) - 1)%nat
      with (pred (length (User.history user))) by lia.
    by rewrite Hlast.
  - intros other Hother. unfold get_gameweek_players.
    by rewrite dict_get_missing.
Qed.

(** ** [get_most_auto_sub_points] *)

Lemma fold_total_points (l : list PlayerHistory.t) total c :
  fold_left (fun total gw_result => total + PlayerHistory.total_points gw_result)
            l (total + Combined.total_points c)
  = total + Combined.total_points (fold_left Combined.add l c).
Proof.
  revert c. induction l as [|h l IH]; intros c; simpl; [done|].
  rewrite <- IH. f_equal. simpl. lia.
Qed.

(** X3: what one automatic substitution adds to a user's auto-sub points
    is the total points of the aggregator's combined result for the
    player subbed in, in the gameweek of the substitution; it raises when
    the aggregator does (the player is not in the store). *)
Theorem auto_sub_points_are_combined_points players total auto_sub :
  auto_sub_points_step players total auto_sub
  = (fun c => total + Combined.total_points c)
      <$> get_combined_gameweek_result_for_player
            players (AutoSub.element_in auto_sub) (AutoSub.event auto_sub).
Proof.
  unfold auto_sub_points_step, get_combined_gameweek_result_for_player.
  destruct (get_player_gameweek_results players (AutoSub.element_in auto_sub)
              (AutoSub.event auto_sub)) as [rs| |]; cbn; try done.
  f_equal. rewrite <- fold_total_points. f_equal. simpl. lia.
Qed.

(** ** [get_historic_standings] *)

Lemma Forall2_enumerate_from {A B} (P : nat * A -> B -> Prop) k (l : list A)
    (r : list B) :
  Forall2 P (enumerate_from k l) r ->
  length r = length l /\
  forall i y, r !! i = Some y ->
              exists x, l !! i = Some x /\ P ((k + i)%nat, x) y.
Proof.
  revert k r. induction l as [|x l IH]; intros k r H; simpl in H.
  - inversion H; subst. split; [done|]. intros i y Hy. done.
  - inversion H as [|? y0 ? r' Hx Hr]; subst.
    apply IH in Hr as [Hlen Hr]. split; [simpl; lia|].
    intros [|i] y Hy; simpl in Hy.
    + inversion Hy; subst. exists x. split; [done|]. by rewrite Nat.add_0_r.
    + apply Hr in Hy as (x' & Hx' & HP). exists x'. split; [done|].
      by replace (k + S i)%nat with (S k + i)%nat by lia.
Qed.

Lemma gameweek_standings_Ok users i raw :
  gameweek_standings users i = Ok raw <->
  Forall2 (standing_row i) users.*2 raw.
Proof.
  unfold gameweek_standings. rewrite for_append_Ok. simpl. split.
  - intros (ys & Hys & ->). eapply Forall2_impl; [exact Hys|].
    intros u row H. simpl in H. apply bind_Ok in H as (h & Hh & H).
    rewrite py_index_nat in Hh.
    destruct (User.history u !! i) as [h'|] eqn:Hh'; [|done].
    inversion Hh; subst h'. inversion H; subst. by exists h.
  - intros H. exists raw. split; [|done]. eapply Forall2_impl; [exact H|].
    intros u row (h & Hh & ->). simpl. rewrite py_index_nat, Hh. done.
Qed.

Lemma standing_rows_exist i (us : list User.t) :
  Forall (fun u => (i < length (User.history u))%nat) us ->
  exists raw, Forall2 (standing_row i) us raw.
Proof.
  induction 1 as [|u us Hu _ (raw & Hraw)].
  - exists []. constructor.
  - apply lookup_lt_is_Some in Hu as [h Hh].
    eexists (_ :: raw). constructor; [|exact Hraw]. by exists h.
Qed.

Lemma standings_from_exist users k (l : list Gameweek.t) :
  (forall i, (i < length l)%nat ->
             Forall (fun u => (k + i < length (User.history u))%nat)
                    users.*2) ->
  exists ys,
    Forall2
      (fun (x : nat * Gameweek.t) y =>
         (let '(i, _) := x in
          gameweek_standings ← gameweek_standings users i;
          mret (py_sorted HistoricStandingListItem.total_points
                  true gameweek_standings)) = Ok y)
      (enumerate_from k l) ys.
Proof.
  revert k. induction l as [|g l IH]; intros k Hk; simpl.
  { exists []. constructor. }
  destruct (IH (S k)) as (ys & Hys).
  { intros i Hi. specialize (Hk (S i) ltac:(simpl; lia)).
    eapply Forall_impl; [exact Hk|]. simpl. intros; lia. }
  destruct (standing_rows_exist k users.*2) as (raw & Hraw).
  { specialize (Hk 0%nat ltac:(simpl; lia)). by rewrite Nat.add_0_r in Hk. }
  apply gameweek_standings_Ok in Hraw.
  eexists (_ :: ys). constructor; [|exact Hys].
  rewrite Hraw. reflexivity.
Qed.

Lemma build_historic_standings_Ok gameweeks users hs :
  build_historic_standings gameweeks users = Ok hs ->
  length hs = finished_count gameweeks /\
  forall i s, hs !! i = Some s ->
    exists raw, Forall2 (standing_row i) users.*2 raw /\
                s = py_sorted HistoricStandingListItem.total_points true raw.
Proof.
  unfold build_historic_standings. rewrite for_append_Ok. simpl.
  intros (ys & Hys & ->). apply Forall2_enumerate_from in Hys as [Hlen Hys].
  split; [done|]. intros i s Hs. apply Hys in Hs as (g & _ & H).
  simpl in H. apply bind_Ok in H as (raw & Hraw & H). inversion H; subst.
  exists raw. split; [|done]. by apply gameweek_standings_Ok.
Qed.

Lemma standing_rows_ids i (us : list User.t) raw :
  Forall2 (standing_row i) us raw ->
  map HistoricStandingListItem.id raw = map User.id us.
Proof.
  induction 1 as [|u row us raw (h & _ & ->) _ IH]; simpl; [done|].
  by rewrite IH.
Qed.

(** The rows of table [i]: one per user, sorted. *)
Lemma historic_standings_rows gameweeks users hs :
  build_historic_standings gameweeks users = Ok hs ->
  forall i s, hs !! i = Some s ->
    map HistoricStandingListItem.id s ≡ₚ map User.id users.*2 /\
    length s = length users /\
    StronglySorted
      (key_order HistoricStandingListItem.total_points true) s.
Proof.
  intros H. apply build_historic_standings_Ok in H as [Hlen H].
  intros i s Hs. apply H in Hs as (raw & Hraw & ->).
  split; [|split].
  - rewrite py_sorted_perm. by rewrite (standing_rows_ids _ _ _ Hraw).
  - rewrite py_sorted_length, <- (Forall2_length _ _ _ Hraw).
    by rewrite length_fmap.
  - apply py_sorted_sorted.
Qed.

(** X4: when [get_historic_standings] builds the standings it returns one
    table per finished gameweek; table [i] holds exactly one row per user
    (the ids of the rows are a rearrangement of the users' ids), each row
    carrying the running total of entry [i] of its user's history, and the
    rows are in descending order of that total. *)
Theorem historic_standings_are_sorted_tables gameweeks users hs :
  build_historic_standings gameweeks users = Ok hs ->
  length hs = finished_count gameweeks /\
  forall i s, hs !! i = Some s ->
    map HistoricStandingListItem.id s ≡ₚ map User.id users.*2 /\
    StronglySorted
      (fun x y => HistoricStandingListItem.total_points y
                  <= HistoricStandingListItem.total_points x) s /\
    forall row, row ∈ s ->
      exists user, user ∈ users.*2 /\ standing_row i user row.
Proof.
  intros H. apply build_historic_standings_Ok in H as [Hlen H].
  split; [done|]. intros i s Hs. apply H in Hs as (raw & Hraw & ->).
  split; [|split].
  - rewrite py_sorted_perm. by rewrite (standing_rows_ids _ _ _ Hraw).
  - apply (py_sorted_sorted HistoricStandingListItem.total_points true).
  - intros row Hrow. rewrite py_sorted_perm in Hrow.
    apply list_elem_of_lookup in Hrow as [j Hj].
    destruct (Forall2_lookup_r _ _ _ _ _ Hraw Hj) as (u & Hu & Hrow).
    exists u. split; [|done]. by eapply list_elem_of_lookup_2.
Qed.

Lemma build_historic_standings_exists gameweeks users :
  Forall (fun user => (finished_count gameweeks
                       <= length (User.history user))%nat) users.*2 ->
  exists hs, build_historic_standings gameweeks users = Ok hs.
Proof.
  intros Hall. unfold build_historic_standings, finished_count in *.
  destruct (standings_from_exist users 0%nat
              (List.filter Gameweek.finished gameweeks)) as (ys & Hys).
  { intros i Hi. eapply Forall_impl; [exact Hall|]. simpl.
    intros u Hu; lia. }
  exists ys. apply for_append_Ok. by exists ys.
Qed.

(** X5: building the standings returns exactly when every user's history
    has at least as many entries as there are finished gameweeks; a user
    with a shorter history makes it raise. *)
Theorem historic_standings_need_full_histories gameweeks users :
  (exists hs, build_historic_standings gameweeks users = Ok hs) <->
  Forall (fun user => (finished_count gameweeks
                       <= length (User.history user))%nat) users.*2.
Proof.
  unfold build_historic_standings, finished_count.
  set (fin := List.filter Gameweek.finished gameweeks). split.
  - intros (hs & H). apply for_append_Ok in H as (ys & Hys & _).
    apply Forall2_enumerate_from in Hys as [Hlen Hys].
    apply Forall_forall. intros u Hu.
    destruct fin as [|g fin'] eqn:Hfin; [simpl; lia|].
    assert (Hl : is_Some (ys !! (length (g :: fin') - 1)%nat)).
    { apply lookup_lt_is_Some. rewrite Hlen. simpl. lia. }
    destruct Hl as [s Hs]. apply Hys in Hs as (g' & _ & H). simpl in H.
    apply bind_Ok in H as (raw & Hraw & _).
    apply gameweek_standings_Ok in Hraw.
    apply list_elem_of_lookup in Hu as [j Hj].
    destruct (Forall2_lookup_l _ _ _ _ _ Hraw Hj) as (row & _ & h & Hh & _).
    apply lookup_lt_Some in Hh. simpl in *. lia.
  - apply build_historic_standings_exists.
Qed.

(** X6: [get_historic_standings] keeps what it returns in
    [self._historic_standings]; calling it again returns the same tables,
    and once the kept tables are not empty they are returned as they are
    whatever the gameweeks and users have become: the cache is never
    refreshed. *)
Theorem historic_standings_are_cached gameweeks users cache hs cache' :
  get_historic_standings gameweeks users cache = Ok (hs, cache') ->
  cache' = Some hs /\
  get_historic_standings gameweeks users cache' = Ok (hs, cache') /\
  (hs <> [] ->
   forall gameweeks' users',
     get_historic_standings gameweeks' users' cache' = Ok (hs, cache')).
Proof.
  unfold get_historic_standings. intros H.
  assert (Hcases : (exists s ss, cache = Some (s :: ss) /\ hs = s :: ss
                                 /\ cache' = cache)
                   \/ (build_historic_standings gameweeks users = Ok hs
                       /\ cache' = Some hs)).
  { destruct cache as [[|s ss]|].
    - right. apply bind_Ok in H as (x & Hx & H). by inversion H; subst.
    - left. inversion H; subst. eauto.
    - right. apply bind_Ok in H as (x & Hx & H). by inversion H; subst. }
  destruct Hcases as [(s & ss & -> & -> & ->)|[Hb ->]].
  - repeat split; done.
  - split; [done|]. destruct hs as [|s ss].
    + split; [|done]. by rewrite Hb.
    + split; [done|]. done.
Qed.

(** ** [get_longest_leader] and [get_longest_loser] *)

Lemma py_sum_perm (l l' : list Z) : l ≡ₚ l' -> py_sum l = py_sum l'.
Proof.
  induction 1; unfold py_sum in *; simpl in *; lia.
Qed.

Lemma py_sum_one_hot (x : string) (us : list string) :
  NoDup us -> x ∈ us ->
  py_sum (map (fun u => if bool_decide (x = u) then 1 else 0) us) = 1.
Proof.
  induction 1 as [|u us Hu Hnd IH]; intros Hx.
  { by apply elem_of_nil in Hx. }
  unfold py_sum in *. simpl. apply elem_of_cons in Hx as [->|Hx].
  - rewrite bool_decide_true by done.
    assert (Hz : foldr Z.add 0
                   (map (fun u0 => if bool_decide (u = u0) then 1 else 0) us)
                 = 0).
    { clear -Hu. induction us as [|v us IH]; simpl; [done|].
      apply not_elem_of_cons in Hu as [Hne Hu].
      rewrite bool_decide_false by done. rewrite IH by done. done. }
    lia.
  - rewrite bool_decide_false by (intros ->; done). rewrite IH by done. lia.
Qed.

(** Counting each of distinct ids in a list of ids drawn from them
    counts every element of the list once. *)
Lemma py_count_sum (us ids : list string) :
  NoDup us -> Forall (fun x => x ∈ us) ids ->
  py_sum (map (fun u => py_count u ids) us) = len ids.
Proof.
  intros Hnd. induction 1 as [|x ids Hx _ IH]; simpl.
  - unfold py_count, len. simpl. clear. induction us; simpl; [done|].
    unfold py_sum in *. simpl. lia.
  - assert (Hsplit : forall l : list string,
              py_sum (map (fun u => py_count u (x :: ids)) l)
              = py_sum (map (fun u => if bool_decide (x = u) then 1 else 0) l)
                + py_sum (map (fun u => py_count u ids) l)).
    { induction l as [|u l IHl]; simpl; [done|]. unfold py_sum in *.
      simpl. rewrite IHl. unfold py_count, len. simpl.
      destruct (bool_decide (x = u)); simpl; lia. }
    rewrite Hsplit, IH, py_sum_one_hot by done. unfold len. simpl. lia.
Qed.

Lemma standing_ids_are_users gameweeks users hs s row :
  build_historic_standings gameweeks users = Ok hs ->
  s ∈ hs -> row ∈ s ->
  HistoricStandingListItem.id row ∈ map User.id users.*2.
Proof.
  intros Hb Hs Hrow. apply list_elem_of_lookup in Hs as [i Hi].
  destruct (historic_standings_rows gameweeks users hs Hb i s Hi)
    as (Hperm & _).
  rewrite <- Hperm. apply list_elem_of_In, in_map, list_elem_of_In. done.
Qed.

Lemma place_ids_are_users gameweeks users hs (k : Z) ids :
  build_historic_standings gameweeks users = Ok hs ->
  for_append (fun x => y ← py_index x k;
                       mret (HistoricStandingListItem.id y)) hs [] = Ok ids ->
  length ids = length hs /\
  Forall (fun x => x ∈ map User.id users.*2) ids.
Proof.
  intros Hb H. apply for_append_Ok in H as (ys & Hys & ->). simpl.
  split; [symmetry; by eapply Forall2_length|].
  apply Forall_forall. intros x Hx.
  apply list_elem_of_lookup in Hx as [i Hi].
  destruct (Forall2_lookup_r _ _ _ _ _ Hys Hi) as (s & Hs & H).
  apply bind_Ok in H as (y & Hy & H). inversion H; subst.
  eapply standing_ids_are_users; [exact Hb| |by eapply py_index_elem_of].
  by eapply list_elem_of_lookup_2.
Qed.

Lemma historic_standings_fresh gameweeks users hs cache :
  get_historic_standings gameweeks users None = Ok (hs, cache) ->
  build_historic_standings gameweeks users = Ok hs.
Proof.
  unfold get_historic_standings. intros H.
  apply bind_Ok in H as (x & Hx & H). by inversion H; subst.
Qed.

(** X7: with distinct user ids and nothing cached, the first-place counts
    that [get_longest_leader] returns add up to the number of finished
    gameweeks: every finished gameweek is credited to exactly one user.
    The rows are one per user, in descending order of the count. *)
Theorem first_places_add_up gameweeks users rows cache :
  NoDup (map User.id users.*2) ->
  get_longest_leader gameweeks users None = Ok (rows, cache) ->
  py_sum (map LongestLeaderResultRow.first_place_count rows)
  = Z.of_nat (finished_count gameweeks) /\
  map LongestLeaderResultRow.id rows ≡ₚ map User.id users.*2 /\
  StronglySorted
    (fun x y => LongestLeaderResultRow.first_place_count y
                <= LongestLeaderResultRow.first_place_count x) rows.
Proof.
  intros Hnd H. unfold get_longest_leader in H.
  apply bind_Ok in H as ([hs c] & Hhs & H). simpl in H.
  apply bind_Ok in H as (ids & Hids & H). inversion H; subst; clear H.
  apply historic_standings_fresh in Hhs.
  destruct (place_ids_are_users _ _ _ _ _ Hhs Hids) as [Hlen Hin].
  destruct (build_historic_standings_Ok _ _ _ Hhs) as [Hn _].
  split; [|split].
  - rewrite (py_sum_perm _ _ (Permutation_map _ (py_sorted_perm _ _ _))).
    rewrite map_map. simpl.
    rewrite <- (map_map User.id (fun u => py_count u ids)).
    rewrite py_count_sum by done. unfold len. by rewrite Hlen, Hn.
  - rewrite (Permutation_map _ (py_sorted_perm _ _ _)). by rewrite map_map.
  - apply (py_sorted_sorted LongestLeaderResultRow.first_place_count true).
Qed.

(** X8: likewise the last-place counts of [get_longest_loser] add up to
    the number of finished gameweeks. *)
Theorem last_places_add_up gameweeks users rows cache :
  NoDup (map User.id users.*2) ->
  get_longest_loser gameweeks users None = Ok (rows, cache) ->
  py_sum (map LongestLoserResultRow.last_place_count rows)
  = Z.of_nat (finished_count gameweeks) /\
  map LongestLoserResultRow.id rows ≡ₚ map User.id users.*2 /\
  StronglySorted
    (fun x y => LongestLoserResultRow.last_place_count y
                <= LongestLoserResultRow.last_place_count x) rows.
Proof.
  intros Hnd H. unfold get_longest_loser in H.
  apply bind_Ok in H as ([hs c] & Hhs & H). simpl in H.
  apply bind_Ok in H as (ids & Hids & H). inversion H; subst; clear H.
  apply historic_standings_fresh in Hhs.
  destruct (place_ids_are_users _ _ _ _ _ Hhs Hids) as [Hlen Hin].
  destruct (build_historic_standings_Ok _ _ _ Hhs) as [Hn _].
  split; [|split].
  - rewrite (py_sum_perm _ _ (Permutation_map _ (py_sorted_perm _ _ _))).
    rewrite map_map. simpl.
    rewrite <- (map_map User.id (fun u => py_count u ids)).
    rewrite py_count_sum by done. unfold len. by rewrite Hlen, Hn.
  - rewrite (Permutation_map _ (py_sorted_perm _ _ _)). by rewrite map_map.
  - apply (py_sorted_sorted LongestLoserResultRow.last_place_count true).
Qed.

(** ** [get_biggest_leader] and [get_biggest_loser] *)

Lemma StronglySorted_lookup_lt {A} (R : A -> A -> Prop) (l : list A) i j a b :
  StronglySorted R l -> (i < j)%nat ->
  l !! i = Some a -> l !! j = Some b -> R a b.
Proof.
  intros Hs. revert i j. induction Hs as [|x l Hl IH Hx]; intros i j Hij Hi Hj.
  { done. }
  destruct j as [|j]; [lia|]. simpl in Hj. destruct i as [|i]; simpl in Hi.
  - inversion Hi; subst. rewrite Forall_forall in Hx. apply Hx.
    by eapply list_elem_of_lookup_2.
  - apply (IH i j); [lia|done..].
Qed.

Lemma enumerate_from_numbers {A B} (P : nat * A -> B -> Prop) (g : B -> Z)
    k (l : list A) (r : list B) :
  Forall2 P (enumerate_from k l) r ->
  (forall i x y, P (i, x) y -> g y = Z.of_nat i + 1) ->
  map g r = map (fun i => Z.of_nat i + 1) (seq k (length l)).
Proof.
  intros H Hg. revert k r H. induction l as [|x l IH]; intros k r H;
    simpl in *; inversion H; subst; simpl; [done|].
  f_equal; [by eapply Hg|by apply IH].
Qed.

(** X9: with nothing cached, [get_biggest_leader] returns one row per
    finished gameweek, numbered 1, 2, ... in the order of the finished
    gameweeks; every point gap is >= 0 (first place minus second place of
    a table sorted by total), and the rows come in descending order of
    the gap. *)
Theorem biggest_leader_gaps_are_not_negative gameweeks users rows cache :
  get_biggest_leader gameweeks users None = Ok (rows, cache) ->
  Forall (fun r => 0 <= BiggestLeaderResultRow.point_gap r) rows /\
  map BiggestLeaderResultRow.gameweek rows
  ≡ₚ map (fun i => Z.of_nat i + 1) (seq 0 (finished_count gameweeks)) /\
  StronglySorted
    (fun x y => BiggestLeaderResultRow.point_gap y
                <= BiggestLeaderResultRow.point_gap x) rows.
Proof.
  intros H. unfold get_biggest_leader in H.
  apply bind_Ok in H as ([hs c] & Hhs & H). simpl in H.
  apply bind_Ok in H as (raw & Hraw & H). inversion H; subst; clear H.
  apply historic_standings_fresh in Hhs.
  apply for_append_Ok in Hraw as (ys & Hys & ->). simpl.
  destruct (build_historic_standings_Ok _ _ _ Hhs) as [Hn _].
  split; [|split].
  - rewrite py_sorted_perm. apply Forall_forall. intros r Hr.
    apply list_elem_of_lookup in Hr as [i Hi].
    destruct (Forall2_enumerate_from _ _ _ _ Hys) as [_ Hrow].
    apply Hrow in Hi as (s & Hs & H). simpl in H.
    apply bind_Ok in H as (a & Ha & H). apply bind_Ok in H as (b & Hb & H).
    inversion H; subst; clear H. simpl.
    destruct (historic_standings_rows _ _ _ Hhs _ _ Hs) as (_ & _ & Hsorted).
    change 0 with (Z.of_nat 0) in Ha. change 1 with (Z.of_nat 1) in Hb.
    rewrite py_index_nat in Ha, Hb.
    destruct (s !! 0%nat) as [a'|] eqn:Ea; [|done].
    destruct (s !! 1%nat) as [b'|] eqn:Eb; [|done].
    inversion Ha; inversion Hb; subst.
    pose proof (StronglySorted_lookup_lt _ _ 0 1 _ _ Hsorted
                  ltac:(lia) Ea Eb) as Hle.
    unfold key_order in Hle. lia.
  - rewrite (Permutation_map _ (py_sorted_perm _ _ _)).
    rewrite (enumerate_from_numbers _ BiggestLeaderResultRow.gameweek
               _ _ _ Hys).
    + by rewrite Hn.
    + intros i x y H. simpl in H.
      apply bind_Ok in H as (a & Ha & H). apply bind_Ok in H as (b & Hb & H).
      by inversion H; subst.
  - apply (py_sorted_sorted BiggestLeaderResultRow.point_gap true).
Qed.

(** X10: with nothing cached, every point gap that [get_biggest_loser]
    returns is <= 0 (last place minus second-last place), there is one
    row per finished gameweek, and the rows come in ascending order of the
    gap, the most negative first. *)
Theorem biggest_loser_gaps_are_not_positive gameweeks users rows cache :
  get_biggest_loser gameweeks users None = Ok (rows, cache) ->
  Forall (fun r => BiggestLeaderResultRow.point_gap r <= 0) rows /\
  length rows = finished_count gameweeks /\
  StronglySorted
    (fun x y => BiggestLeaderResultRow.point_gap x
                <= BiggestLeaderResultRow.point_gap y) rows.
Proof.
  intros H. unfold get_biggest_loser in H.
  apply bind_Ok in H as ([hs c] & Hhs & H). simpl in H.
  apply bind_Ok in H as (s0 & Hs0 & H).
  apply bind_Ok in H as (raw & Hraw & H). inversion H; subst; clear H.
  apply historic_standings_fresh in Hhs.
  apply for_append_Ok in Hraw as (ys & Hys & ->). simpl.
  destruct (build_historic_standings_Ok _ _ _ Hhs) as [Hn _].
  destruct (Forall2_enumerate_from _ _ _ _ Hys) as [Hlen Hrow].
  assert (Hlen0 : length s0 = length users).
  { apply py_index_Ok in Hs0 as [_ Hs0].
    by destruct (historic_standings_rows _ _ _ Hhs _ _ Hs0) as (_ & ? & _). }
  split; [|split].
  - rewrite py_sorted_perm. apply Forall_forall. intros r Hr.
    apply list_elem_of_lookup in Hr as [i Hi].
    apply Hrow in Hi as (s & Hs & H). simpl in H.
    apply bind_Ok in H as (a & Ha & H). apply bind_Ok in H as (b & Hb & H).
    inversion H; subst; clear H. simpl.
    destruct (historic_standings_rows _ _ _ Hhs _ _ Hs)
      as (_ & Hlens & Hsorted).
    apply py_index_Ok in Ha as [Hra Ha]. apply py_index_Ok in Hb as [Hrb Hb].
    unfold len in *. rewrite Hlen0 in *. rewrite Hlens in *.
    destruct (Z.ltb_spec (Z.of_nat (length users) - 1) 0); [lia|].
    destruct (Z.ltb_spec (Z.of_nat (length users) - 2) 0).
    + assert (Ea : s !! 0%nat = Some a) by (rewrite <- Ha; f_equal; lia).
      assert (Eb : s !! 0%nat = Some b) by (rewrite <- Hb; f_equal; lia).
      rewrite Ea in Eb. inversion Eb; subst. lia.
    + assert (Ea : s !! (length users - 1)%nat = Some a)
        by (rewrite <- Ha; f_equal; lia).
      assert (Eb : s !! (length users - 2)%nat = Some b)
        by (rewrite <- Hb; f_equal; lia).
      pose proof (StronglySorted_lookup_lt _ _ (length users - 2)
                    (length users - 1) _ _ Hsorted ltac:(lia) Eb Ea) as Hle.
      unfold key_order in Hle. lia.
  - by rewrite py_sorted_length, Hlen, Hn.
  - apply (py_sorted_sorted BiggestLeaderResultRow.point_gap false).
Qed.

Lemma for_append_raise_first {A B} (f : A -> outcome B) x (l : list A) acc e :
  f x = Raise e -> for_append f (x :: l) acc = Raise e.
Proof. intros H. unfold for_append. simpl. by rewrite H. Qed.

Lemma get_biggest_leader_fresh gameweeks users hs :
  build_historic_standings gameweeks users = Ok hs ->
  get_biggest_leader gameweeks users None
  = (biggest_leaders ←
       for_append
         (fun '(i, standing) =>
            first_place ← py_index standing 0;
            second_place ← py_index standing 1;
            mret (BiggestLeaderResultRow.mk
                    (HistoricStandingListItem.id first_place)
                    (HistoricStandingListItem.name first_place)
                    (HistoricStandingListItem.total_points first_place
                     - HistoricStandingListItem.total_points second_place)
                    (Z.of_nat i + 1)))
         (enumerate_from 0 hs) [];
     mret (py_sorted BiggestLeaderResultRow.point_gap true biggest_leaders,
           Some hs)).
Proof.
  intros Hhs. unfold get_biggest_leader, get_historic_standings.
  rewrite Hhs. reflexivity.
Qed.

Lemma get_biggest_loser_fresh gameweeks users hs :
  build_historic_standings gameweeks users = Ok hs ->
  get_biggest_loser gameweeks users None
  = (first_standing ← py_index hs 0;
     biggest_losers ←
       for_append
         (fun '(i, standing) =>
            last_place ← py_index standing (len first_standing - 1);
            second_last_place ← py_index standing (len first_standing - 2);
            mret (BiggestLeaderResultRow.mk
                    (HistoricStandingListItem.id last_place)
                    (HistoricStandingListItem.name last_place)
                    (HistoricStandingListItem.total_points last_place
                     - HistoricStandingListItem.total_points
                         second_last_place)
                    (Z.of_nat i + 1)))
         (enumerate_from 0 hs) [];
     mret (py_sorted BiggestLeaderResultRow.point_gap false biggest_losers,
           Some hs)).
Proof.
  intros Hhs. unfold get_biggest_loser, get_historic_standings.
  rewrite Hhs. reflexivity.
Qed.

(** X11: before any gameweek has finished the two functions differ:
    [get_biggest_leader] returns the empty list, [get_biggest_loser]
    raises [IndexError] on [historic_standings[0]]. *)
Theorem biggest_gaps_before_first_gameweek gameweeks users :
  finished_count gameweeks = 0%nat ->
  get_biggest_leader gameweeks users None = Ok ([], Some []) /\
  get_biggest_loser gameweeks users None = Raise IndexError.
Proof.
  intros Hn. unfold finished_count in Hn. apply nil_length_inv in Hn.
  assert (Hb : build_historic_standings gameweeks users = Ok []).
  { unfold build_historic_standings. by rewrite Hn. }
  rewrite (get_biggest_leader_fresh _ _ _ Hb),
    (get_biggest_loser_fresh _ _ _ Hb). by split.
Qed.

(** X12: in a league of one user whose history covers the finished
    gameweeks, of which there is at least one, [get_biggest_leader] raises
    [IndexError] (there is no second place), whereas [get_biggest_loser]
    returns one row per finished gameweek, each with point gap 0: index
    [user_count - 2] is -1 and wraps to the only row. *)
Theorem biggest_gaps_in_a_league_of_one gameweeks key user :
  (0 < finished_count gameweeks <= length (User.history user))%nat ->
  get_biggest_leader gameweeks [(key, user)] None = Raise IndexError /\
  exists rows cache,
    get_biggest_loser gameweeks [(key, user)] None = Ok (rows, cache) /\
    length rows = finished_count gameweeks /\
    Forall (fun r => BiggestLeaderResultRow.point_gap r = 0) rows.
Proof.
  intros Hn.
  destruct (build_historic_standings_exists gameweeks [(key, user)])
    as (hs & Hhs).
  { repeat constructor. simpl. lia. }
  destruct (build_historic_standings_Ok _ _ _ Hhs) as [Hlen Hrows].
  assert (Hone : forall i s, hs !! i = Some s -> exists row, s = [row]).
  { intros i s Hs. apply Hrows in Hs as (raw & Hraw & ->). simpl in Hraw.
    inversion Hraw as [|? row ? raw' _ Hnil]; subst. inversion Hnil; subst.
    by exists row. }
  rewrite (get_biggest_leader_fresh _ _ _ Hhs),
    (get_biggest_loser_fresh _ _ _ Hhs).
  destruct hs as [|s0 hs']; [simpl in Hlen; lia|].
  destruct (Hone 0%nat s0 eq_refl) as (row0 & ->). split.
  - change (enumerate_from 0 ([row0] :: hs'))
      with ((0%nat, [row0]) :: enumerate_from 1 hs').
    rewrite (for_append_raise_first _ _ _ _ IndexError); done.
  - change (py_index ([row0] :: hs') 0) with (Ok (A:=list _) [row0]).
    rewrite bind_Ok_eq.
    assert (Hraw : exists raw,
               for_append
                 (fun '(i, standing) =>
                    last_place ← py_index standing (len [row0] - 1);
                    second_last_place ← py_index standing (len [row0] - 2);
                    mret (BiggestLeaderResultRow.mk
                            (HistoricStandingListItem.id last_place)
                            (HistoricStandingListItem.name last_place)
                            (HistoricStandingListItem.total_points last_place
                             - HistoricStandingListItem.total_points
                                 second_last_place)
                            (Z.of_nat i + 1)))
                 (enumerate_from 0 ([row0] :: hs')) [] = Ok raw /\
               length raw = length ([row0] :: hs') /\
               Forall (fun r => BiggestLeaderResultRow.point_gap r = 0) raw).
    { generalize ([row0] :: hs') Hone. generalize 0%nat.
      intros k l Hl.
      assert (Hgen : forall acc, exists ys,
                 for_append
                   (fun '(i, standing) =>
                      last_place ← py_index standing (len [row0] - 1);
                      second_last_place ← py_index standing (len [row0] - 2);
                      mret (BiggestLeaderResultRow.mk
                              (HistoricStandingListItem.id last_place)
                              (HistoricStandingListItem.name last_place)
                              (HistoricStandingListItem.total_points last_place
                               - HistoricStandingListItem.total_points
                                   second_last_place)
                              (Z.of_nat i + 1)))
                   (enumerate_from k l) acc = Ok (acc ++ ys) /\
                 length ys = length l /\
                 Forall (fun r => BiggestLeaderResultRow.point_gap r = 0) ys).
      { revert k. induction l as [|s l IH]; intros k acc.
        - exists []. rewrite app_nil_r. by repeat split.
        - destruct (Hl 0%nat s eq_refl) as (row & ->).
          destruct (IH (fun i s' H => Hl (S i) s' H) (S k)
                       (acc ++ [BiggestLeaderResultRow.mk
                                  (HistoricStandingListItem.id row)
                                  (HistoricStandingListItem.name row)
                                  (HistoricStandingListItem.total_points row
                                   - HistoricStandingListItem.total_points row)
                                  (Z.of_nat k + 1)]))
            as (ys & Hys & Hlen' & Hall).
          eexists (_ :: ys). split; [|split].
          + unfold for_append in *. simpl. cbn. rewrite Hys.
            by rewrite <- app_assoc.
          + simpl. by rewrite Hlen'.
          + constructor; [simpl; lia|done]. }
      destruct (Hgen []) as (ys & Hys & Hlen' & Hall). by exists ys. }
    destruct Hraw as (raw & -> & Hlen' & Hall). rewrite bind_Ok_eq.
    eexists _, _. split; [reflexivity|]. split.
    + by rewrite py_sorted_length, Hlen', Hlen.
    + by rewrite py_sorted_perm.
Qed.

(** ** [get_captain_foresight] *)

Lemma next_where_Ok {A} (f : A -> bool) (l : list A) x :
  next_where f l = Ok x -> x ∈ l /\ f x = true.
Proof.
  unfold next_where. destruct (List.filter f l) as [|y l'] eqn:E; [done|].
  intros H. inversion H; subst.
  assert (Hin : In x (List.filter f l)) by (rewrite E; by left).
  apply filter_In in Hin as [Hin Hf]. split; [by apply list_elem_of_In|done].
Qed.

Lemma next_where_cons {A} (f : A -> bool) x (l : list A) :
  next_where f (x :: l) = if f x then Ok x else next_where f l.
Proof. unfold next_where. simpl. by destruct (f x). Qed.

(** The entry of a playing pick is the one found by player id. *)
Lemma find_gameweek_player players gw (l : list Pick.t) gps c :
  keyed_by_id players ->
  Forall2 (gameweek_player_of players gw) l gps ->
  NoDup (map Pick.element l) ->
  c ∈ l ->
  exists gp,
    next_where (fun x => bool_decide (Player.id (GameweekPlayer.player x)
                                      = Pick.element c)) gps = Ok gp /\
    gameweek_player_of players gw c gp.
Proof.
  intros Hkeyed H. induction H as [|pk gp l gps Hgp _ IH]; intros Hnd Hc.
  { by apply elem_of_nil in Hc. }
  simpl in Hnd. apply NoDup_cons in Hnd as [Hpk Hnd].
  rewrite next_where_cons.
  assert (Hid : Player.id (GameweekPlayer.player gp) = Pick.element pk).
  { destruct Hgp as (c0 & Hl & _). by apply (Hkeyed _ _ Hl). }
  rewrite Hid. apply elem_of_cons in Hc as [->|Hc].
  - rewrite bool_decide_true by done. eauto.
  - rewrite bool_decide_false; [by apply IH|].
    intros Heq. apply Hpk. rewrite Heq.
    apply list_elem_of_In, in_map, list_elem_of_In. done.
Qed.

Lemma scale_points_total m c :
  Combined.total_points (scale_points m c) = m * Combined.total_points c.
Proof. reflexivity. Qed.

(** The points [get_gameweek_players] holds for a playing pick. *)
Lemma gameweek_player_points users players user user_gw gps pk r :
  keyed_by_id players ->
  dict_get users (User.id user) = Ok user ->
  py_index (User.history user) (UserHistory.event user_gw - 1) = Ok user_gw ->
  get_gameweek_players users players (User.id user)
    (UserHistory.event user_gw) = Ok gps ->
  NoDup (map Pick.element (List.filter playing (UserHistory.picks user_gw))) ->
  pk ∈ UserHistory.picks user_gw ->
  1 <= Pick.multiplier pk ->
  get_combined_gameweek_result_for_player players (Pick.element pk)
    (UserHistory.event user_gw) = Ok r ->
  exists gp,
    next_where (fun x => bool_decide (Player.id (GameweekPlayer.player x)
                                      = Pick.element pk)) gps = Ok gp /\
    Combined.total_points (GameweekPlayer.combined_result gp)
    = Pick.multiplier pk * Combined.total_points r.
Proof.
  intros Hkeyed Hu Hg Hgps Hnd Hpk Hm Hr.
  unfold get_gameweek_players in Hgps.
  rewrite Hu, bind_Ok_eq, Hg, bind_Ok_eq in Hgps.
  apply gameweek_players_scan in Hgps as (gps' & -> & Hall). simpl.
  destruct (find_gameweek_player _ _ _ _ pk Hkeyed Hall Hnd)
    as (gp & Hfind & c & _ & Hc & Hcomb & _).
  { apply list_elem_of_In, filter_In. split; [by apply list_elem_of_In|].
    unfold playing. by apply Z.leb_le. }
  exists gp. split; [done|]. rewrite Hcomb, scale_points_total.
  rewrite Hr in Hc. by inversion Hc.
Qed.

(** X13: what [get_captain_foresight] adds for one gameweek of a user,
    when the store is keyed by player id, the playing picks are distinct
    players and [get_gameweek_players] returns for that gameweek.  If the
    captain's multiplier [m] is >= 1, the captain total grows by
    [(m - 1) * (m * points)], where [points] is the aggregator's combined
    total for the captain: the multiplier is applied twice, once inside
    [get_gameweek_players] and once here, so a normal captain (m = 2)
    counts twice his points and a triple captain (m = 3) six times.  If
    the captain's multiplier is 0 and the vice-captain's [m] is >= 1, the
    same amount for the vice-captain goes to the captain total and to the
    vice-captain total, and the gameweeks-with-vice-captain counter grows
    by 1.  If both multipliers are 0 only the gameweeks-without-captain
    counter grows by 1. *)
Theorem captain_foresight_applies_multiplier_twice
    users players user user_gw gps c vc a b n w :
  keyed_by_id players ->
  dict_get users (User.id user) = Ok user ->
  py_index (User.history user) (UserHistory.event user_gw - 1) = Ok user_gw ->
  get_gameweek_players users players (User.id user)
    (UserHistory.event user_gw) = Ok gps ->
  NoDup (map Pick.element (List.filter playing (UserHistory.picks user_gw))) ->
  next_where Pick.is_captain (UserHistory.picks user_gw) = Ok c ->
  next_where Pick.is_vice_captain (UserHistory.picks user_gw) = Ok vc ->
  (forall r,
     1 <= Pick.multiplier c ->
     get_combined_gameweek_result_for_player players (Pick.element c)
       (UserHistory.event user_gw) = Ok r ->
     captain_foresight_step users players user (a, b, n, w) user_gw
     = Ok (a + (Pick.multiplier c - 1)
               * (Pick.multiplier c * Combined.total_points r), b, n, w)) /\
  (forall r,
     Pick.multiplier c = 0 ->
     1 <= Pick.multiplier vc ->
     get_combined_gameweek_result_for_player players (Pick.element vc)
       (UserHistory.event user_gw) = Ok r ->
     captain_foresight_step users players user (a, b, n, w) user_gw
     = Ok (a + (Pick.multiplier vc - 1)
               * (Pick.multiplier vc * Combined.total_points r),
           b + (Pick.multiplier vc - 1)
               * (Pick.multiplier vc * Combined.total_points r),
           n + 1, w)) /\
  (Pick.multiplier c = 0 ->
   Pick.multiplier vc = 0 ->
   captain_foresight_step users players user (a, b, n, w) user_gw
   = Ok (a, b, n, w + 1)).
Proof.
  intros Hkeyed Hu Hg Hgps Hnd Hc Hvc.
  assert (Hne : exists p ps, UserHistory.picks user_gw = p :: ps).
  { apply next_where_Ok in Hc as [Hc _].
    destruct (UserHistory.picks user_gw) as [|p ps]; [|by eauto].
    by apply elem_of_nil in Hc. }
  destruct Hne as (p & ps & Hps).
  assert (Hstep : captain_foresight_step users players user (a, b, n, w) user_gw
    = (if truthy (Pick.multiplier c) then
         captain_gw ←
           next_where
             (fun x => bool_decide (Player.id (GameweekPlayer.player x)
                                    = Pick.element c)) gps;
         mret (a + (Pick.multiplier c - 1)
                   * Combined.total_points
                       (GameweekPlayer.combined_result captain_gw), b, n, w)
       else if truthy (Pick.multiplier vc) then
         vc_gw ←
           next_where
             (fun x => bool_decide (Player.id (GameweekPlayer.player x)
                                    = Pick.element vc)) gps;
         mret (a + (Pick.multiplier vc - 1)
                   * Combined.total_points
                       (GameweekPlayer.combined_result vc_gw),
               b + (Pick.multiplier vc - 1)
                   * Combined.total_points
                       (GameweekPlayer.combined_result vc_gw),
               n + 1, w)
       else mret (a, b, n, w + 1))).
  { unfold captain_foresight_step. rewrite Hps, <- Hps, Hgps, bind_Ok_eq.
    rewrite Hc, bind_Ok_eq, Hvc, bind_Ok_eq. reflexivity. }
  rewrite Hstep. clear Hstep. split; [|split].
  - intros r Hm Hr. rewrite truthy_pos by lia.
    destruct (gameweek_player_points _ _ _ _ _ c r Hkeyed Hu Hg Hgps Hnd)
      as (gp & -> & Hpts); try done.
    { by apply next_where_Ok in Hc as [? _]. }
    rewrite bind_Ok_eq, Hpts. reflexivity.
  - intros r Hm0 Hm Hr. rewrite Hm0, truthy_zero, truthy_pos by lia.
    destruct (gameweek_player_points _ _ _ _ _ vc r Hkeyed Hu Hg Hgps Hnd)
      as (gp & -> & Hpts); try done.
    { by apply next_where_Ok in Hvc as [? _]. }
    rewrite bind_Ok_eq, Hpts. reflexivity.
  - intros -> ->. by rewrite truthy_zero.
Qed.

Lemma captain_foresight_step_counters users players user a b n w g a' b' n' w' :
  captain_foresight_step users players user (a, b, n, w) g
  = Ok (a', b', n', w') ->
  (has_picks g = false /\ a' = a /\ b' = b /\ n' = n /\ w' = w) \/
  (has_picks g = true /\
   ((b' = b /\ n' = n /\ w' = w)
    \/ (a' - a = b' - b /\ n' = n + 1 /\ w' = w)
    \/ (a' = a /\ b' = b /\ n' = n /\ w' = w + 1))).
Proof.
  unfold captain_foresight_step, has_picks.
  destruct (UserHistory.picks g) as [|p ps].
  { intros H. inversion H; subst. by left. }
  intros H. right. split; [done|].
  apply bind_Ok in H as (gps & _ & H). apply bind_Ok in H as (c & _ & H).
  apply bind_Ok in H as (vc & _ & H).
  destruct (truthy (Pick.multiplier c)).
  - apply bind_Ok in H as (gp & _ & H). inversion H; subst. by left.
  - destruct (truthy (Pick.multiplier vc)).
    + apply bind_Ok in H as (gp & _ & H). inversion H; subst.
      right. left. repeat split; lia.
    + inversion H; subst. right. right. done.
Qed.

Lemma captain_foresight_counters_scan users players user l a b n w a' b' n' w' :
  for_each (captain_foresight_step users players user) l (a, b, n, w)
  = Ok (a', b', n', w') ->
  n <= n' /\ w <= w' /\
  (n' - n) + (w' - w) <= len (List.filter has_picks l) /\
  (n' = n -> b' = b).
Proof.
  revert a b n w. induction l as [|g l IH]; intros a b n w H; simpl in H.
  { inversion H; subst. unfold len; simpl. lia. }
  apply bind_Ok in H as ([[[a1 b1] n1] w1] & Hstep & H).
  apply IH in H as (Hn & Hw & Hsum & Hb).
  apply captain_foresight_step_counters in Hstep
    as [(Hp & -> & -> & -> & ->)|(Hp & Hcase)]; simpl; rewrite Hp.
  - done.
  - unfold len in *. simpl.
    destruct Hcase as [(-> & -> & ->)|[(Hd & -> & ->)|(-> & -> & -> & ->)]];
      repeat split; try lia.
Qed.

(** X14: in a row of [get_captain_foresight] the two counters are not
    negative and together count at most the gameweeks in which the user
    has picks (a gameweek without picks is skipped, a gameweek is counted
    at most once), and a user for whom the vice-captain never stepped in
    has 0 vice-captain points. *)
Theorem captain_foresight_counters users players user row :
  captain_foresight_row users players user = Ok row ->
  0 <= CaptainResultRow.total_gameweeks_with_vc row /\
  0 <= CaptainResultRow.total_gameweeks_without_captain row /\
  CaptainResultRow.total_gameweeks_with_vc row
  + CaptainResultRow.total_gameweeks_without_captain row
  <= len (List.filter has_picks (User.history user)) /\
  (CaptainResultRow.total_gameweeks_with_vc row = 0 ->
   CaptainResultRow.total_vc_points row = 0).
Proof.
  unfold captain_foresight_row. intros H.
  apply bind_Ok in H as ([[[a b] n] w] & Hscan & H).
  inversion H; subst; clear H. simpl.
  apply captain_foresight_counters_scan in Hscan as (? & ? & ? & ?).
  repeat split; lia.
Qed.

(** ** [get_most_goal_involvements] *)

(** With distinct user ids, the row carrying a user's id is that user's
    row. *)
Lemma row_of_user {R} (idr : R -> string) (Q : User.t -> R -> Prop)
    (us : list User.t) (raw : list R) u r :
  Forall2 (fun u r => idr r = User.id u /\ Q u r) us raw ->
  NoDup (map User.id us) ->
  u ∈ us -> r ∈ raw -> idr r = User.id u -> Q u r.
Proof.
  induction 1 as [|u0 r0 us raw [Hid HQ] Hall IH]; intros Hnd Hu Hr Heq.
  { by apply elem_of_nil in Hu. }
  simpl in Hnd. apply NoDup_cons in Hnd as [Hu0 Hnd].
  assert (Hids : forall r', r' ∈ raw -> idr r' ∈ map User.id us).
  { intros r' Hr'. apply list_elem_of_lookup in Hr' as [i Hi].
    destruct (Forall2_lookup_r _ _ _ _ _ Hall Hi) as (u' & Hu' & Hid' & _).
    rewrite Hid'. apply list_elem_of_In, in_map, list_elem_of_In.
    by eapply list_elem_of_lookup_2. }
  apply elem_of_cons in Hu as [->|Hu]; apply elem_of_cons in Hr as [->|Hr].
  - done.
  - exfalso. apply Hu0. rewrite <- Heq. by apply Hids.
  - exfalso. apply Hu0. rewrite <- Hid, Heq.
    apply list_elem_of_In, in_map, list_elem_of_In. done.
  - by apply IH.
Qed.

Lemma next_where_in_perm {R} (idr : R -> string) (Q : User.t -> R -> Prop)
    (us : list User.t) (raw sorted : list R) u :
  Forall2 (fun u r => idr r = User.id u /\ Q u r) us raw ->
  sorted ≡ₚ raw ->
  NoDup (map User.id us) ->
  u ∈ us ->
  exists r, next_where (fun x => bool_decide (idr x = User.id u)) sorted = Ok r
            /\ Q u r.
Proof.
  intros Hall Hperm Hnd Hu.
  assert (Hex : exists r0, r0 ∈ sorted /\ idr r0 = User.id u).
  { apply list_elem_of_lookup in Hu as [i Hi].
    destruct (Forall2_lookup_l _ _ _ _ _ Hall Hi) as (r0 & Hr0 & Hid & _).
    exists r0. split; [|done]. rewrite Hperm. by eapply list_elem_of_lookup_2. }
  destruct Hex as (r0 & Hr0 & Hid0).
  unfold next_where.
  destruct (List.filter (fun x => bool_decide (idr x = User.id u)) sorted)
    as [|r l'] eqn:E.
  - exfalso. assert (Hin : In r0 (List.filter
                 (fun x => bool_decide (idr x = User.id u)) sorted)).
    { apply filter_In. split; [by apply list_elem_of_In|].
      by apply bool_decide_eq_true. }
    by rewrite E in Hin.
  - exists r. split; [done|].
    assert (Hin : In r (List.filter
                 (fun x => bool_decide (idr x = User.id u)) sorted))
      by (rewrite E; by left).
    apply filter_In in Hin as [Hin Hf]. apply bool_decide_eq_true in Hf.
    eapply row_of_user; eauto. rewrite <- Hperm. by apply list_elem_of_In.
Qed.

(** X15: with distinct user ids, [get_most_goal_involvements] returns one
    row per user whose value is that user's own goals plus that user's own
    assists (each summed over the playing players of all the user's
    gameweeks), although it finds them by id in the two sorted tables of
    [get_top_scorers] and [get_assist_kings]; the rows are in descending
    order of the value. *)
Theorem goal_involvements_are_goals_plus_assists users players rows :
  NoDup (map User.id users.*2) ->
  get_most_goal_involvements users players = Ok rows ->
  (exists raw, rows ≡ₚ raw /\
               Forall2 (involvement_row users players) users.*2 raw) /\
  StronglySorted
    (fun x y => GoalInvolvementsResultRow.goal_involvements y
                <= GoalInvolvementsResultRow.goal_involvements x) rows.
Proof.
  intros Hnd H. unfold get_most_goal_involvements in H.
  apply bind_Ok in H as (ts & Hts & H). apply bind_Ok in H as (ak & Hak & H).
  apply bind_Ok in H as (raw & Hraw & H). inversion H; subst; clear H.
  split; [|apply (py_sorted_sorted
                    GoalInvolvementsResultRow.goal_involvements true)].
  exists raw. split; [apply py_sorted_perm|].
  unfold get_top_scorers in Hts. apply bind_Ok in Hts as (ts0 & Hts0 & Hts).
  inversion Hts; subst ts; clear Hts.
  unfold get_assist_kings in Hak. apply bind_Ok in Hak as (ak0 & Hak0 & Hak).
  inversion Hak; subst ak; clear Hak.
  apply for_append_Ok in Hts0 as (ts1 & Hts1 & ->).
  apply for_append_Ok in Hak0 as (ak1 & Hak1 & ->).
  apply for_append_Ok in Hraw as (raw1 & Hraw1 & ->). simpl in *.
  assert (Hts2 : Forall2
            (fun u r => TopScorerResultRow.id r = User.id u /\
               sum_over_gameweek_players users players Combined.goals_scored u
               = Ok (TopScorerResultRow.goals_scored r)) users.*2 ts1).
  { eapply Forall2_impl; [exact Hts1|]. intros u r Hr. simpl in Hr.
    apply bind_Ok in Hr as (g & Hg & Hr). by inversion Hr; subst. }
  assert (Hak2 : Forall2
            (fun u r => AssistKingResultRow.id r = User.id u /\
               sum_over_gameweek_players users players Combined.assists u
               = Ok (AssistKingResultRow.assists r)) users.*2 ak1).
  { eapply Forall2_impl; [exact Hak1|]. intros u r Hr. simpl in Hr.
    apply bind_Ok in Hr as (g & Hg & Hr). by inversion Hr; subst. }
  apply Forall2_same_length_lookup. split; [by eapply Forall2_length|].
  intros i u r Hu Hr.
  destruct (Forall2_lookup_l _ _ _ _ _ Hraw1 Hu) as (r' & Hr' & Hrow).
  rewrite Hr in Hr'. inversion Hr'; subst r'. simpl in Hrow.
  apply bind_Ok in Hrow as (g & Hg & Hrow).
  apply bind_Ok in Hrow as (a & Ha & Hrow). inversion Hrow; subst; clear Hrow.
  assert (Hin : u ∈ users.*2) by (by eapply list_elem_of_lookup_2).
  destruct (next_where_in_perm TopScorerResultRow.id _ _ _ _ u Hts2
              (py_sorted_perm TopScorerResultRow.goals_scored true ts1)
              Hnd Hin) as (g' & Hg' & Hgoals).
  destruct (next_where_in_perm AssistKingResultRow.id _ _ _ _ u Hak2
              (py_sorted_perm AssistKingResultRow.assists true ak1)
              Hnd Hin) as (a' & Ha' & Hassists).
  rewrite Hg in Hg'. inversion Hg'; subst g'.
  rewrite Ha in Ha'. inversion Ha'; subst a'.
  split; [done|]. eauto.
Qed.

(** * More on the GW1-picks engine *)

(** ** What the outfield loop adds and whom it handles *)

Section OutfieldAccounting.

Variable players : gmap string Player.t.
Variables MIN_DEFS MIN_MIDS MIN_FWDS gw_number : Z.

Lemma same_armband_refl v : same_armband v v.
Proof. by repeat split. Qed.

Lemma same_armband_trans v1 v2 v3 :
  same_armband v1 v2 -> same_armband v2 v3 -> same_armband v1 v3.
Proof.
  unfold same_armband. intros (?&?&?&?&?&?&?) (?&?&?&?&?&?&?).
  repeat split; congruence.
Qed.

(** One break of the outfield loop. *)
Lemma step_ends_accounting v j bench_pick v' x :
  gw_bench_picks v !! j = Some bench_pick ->
  step_ends players gw_number v j bench_pick v' (Some x) ->
  total_gw_points v'
  = total_gw_points v
    + py_sum (map (pick_points players gw_number) (subbed_in [x])) /\
  total_auto_sub_points v'
  = total_auto_sub_points v
    + py_sum (map (pick_points players gw_number) (subbed_in [x])) /\
  handled [x] ++ gw_bench_picks v' ≡ₚ gw_bench_picks v /\
  Forall (fun pk => pick_played players gw_number pk = true /\
                    (pick_position players pk = Some DEFENDER \/
                     pick_position players pk = Some MIDFIELDER))
         (subbed_in [x]) /\
  same_armband v v'.
Proof.
  intros Hj H. inversion H; subst; simpl.
  - unfold py_sum; simpl. rewrite !app_nil_r.
    repeat split; try lia; try done.
  - unfold py_sum; simpl.
    repeat split; try lia; try done.
    symmetry. by apply delete_Permutation.
  - match goal with
    | Hl : players !! _ = Some ?bp, Hr : _ = Ok ?r, Hw : _ \/ _,
      Hm : truthy _ = true |- _ =>
        assert (Hres : pick_result players gw_number bench_pick = Ok r)
          by (unfold pick_result, players_get; rewrite Hl; exact Hr);
        assert (Hpos : pick_position players bench_pick = Some DEFENDER \/
                       pick_position players bench_pick = Some MIDFIELDER)
          by (unfold pick_position; rewrite Hl; simpl;
              destruct Hw as [[-> _]|[-> _]]; auto);
        assert (Hfr : total_gw_points w = total_gw_points v /\
                      total_auto_sub_points w = total_auto_sub_points v /\
                      same_armband v w)
          by (destruct Hw as [[_ ->]|[_ ->]]; by repeat split)
    end.
    destruct Hfr as (Hg & Ha & Harm).
    unfold py_sum, pick_points, pick_played; simpl. rewrite Hres.
    repeat split; try lia; try apply Harm; try done.
    + symmetry. by apply delete_Permutation.
    + constructor; [|constructor]. by rewrite Hres.
Qed.

Lemma bench_pass_accounting v w e :
  gw_bench_picks v <> [] ->
  bench_pass players MIN_DEFS MIN_MIDS MIN_FWDS gw_number v = Ok (w, e) ->
  exists x,
    e = Some x /\
    total_gw_points w
    = total_gw_points v
      + py_sum (map (pick_points players gw_number) (subbed_in [x])) /\
    total_auto_sub_points w
    = total_auto_sub_points v
      + py_sum (map (pick_points players gw_number) (subbed_in [x])) /\
    handled [x] ++ gw_bench_picks w ≡ₚ gw_bench_picks v /\
    Forall (fun pk => pick_played players gw_number pk = true /\
                      (pick_position players pk = Some DEFENDER \/
                       pick_position players pk = Some MIDFIELDER))
           (subbed_in [x]) /\
    same_armband v w.
Proof.
  intros Hne H. apply bench_pass_ends in H as (j & pk & x & Hj & -> & H);
    [|done].
  exists x. split; [done|]. by eapply step_ends_accounting.
Qed.

Lemma subbed_in_cons x l : subbed_in (x :: l) = subbed_in [x] ++ subbed_in l.
Proof. unfold subbed_in. simpl. by rewrite app_nil_r. Qed.

Lemma handled_cons x l : handled (x :: l) = handled [x] ++ handled l.
Proof. unfold handled. simpl. by rewrite app_nil_r. Qed.

Lemma py_sum_app (l1 l2 : list Z) : py_sum (l1 ++ l2) = py_sum l1 + py_sum l2.
Proof. unfold py_sum. induction l1; simpl; lia. Qed.

Lemma auto_sub_outfield_accounting fuel v v' :
  auto_sub_outfield players MIN_DEFS MIN_MIDS MIN_FWDS gw_number fuel v
  = Ok v' ->
  let breaks :=
    outfield_breaks players MIN_DEFS MIN_MIDS MIN_FWDS gw_number fuel v in
  total_gw_points v'
  = total_gw_points v
    + py_sum (map (pick_points players gw_number) (subbed_in breaks)) /\
  total_auto_sub_points v'
  = total_auto_sub_points v
    + py_sum (map (pick_points players gw_number) (subbed_in breaks)) /\
  handled breaks ≡ₚ gw_bench_picks v /\
  Forall (fun pk => pick_played players gw_number pk = true /\
                    (pick_position players pk = Some DEFENDER \/
                     pick_position players pk = Some MIDFIELDER))
         (subbed_in breaks) /\
  same_armband v v'.
Proof.
  revert v. induction fuel as [|fuel IH]; intros v H; cbv zeta.
  - simpl in H. simpl. destruct (gw_bench_picks v) eqn:Hq; [|done].
    inversion H; subst. unfold py_sum; simpl.
    repeat split; try lia; try done.
  - simpl in H. simpl. destruct (gw_bench_picks v) as [|q qs] eqn:Hq.
    { inversion H; subst. unfold py_sum; simpl.
      repeat split; try lia; try done. }
    apply bind_Ok in H as ([w e] & Hpass & H). simpl in H.
    rewrite Hpass.
    destruct (bench_pass_accounting v w e) as (x & -> & Hg & Ha & Hh & Hp & Hs);
      [by rewrite Hq|done|].
    destruct (IH _ H) as (Hg' & Ha' & Hh' & Hp' & Hs').
    rewrite subbed_in_cons, handled_cons.
    rewrite map_app, py_sum_app. rewrite Hq in Hh.
    split; [lia|]. split; [lia|]. split; [|split].
    + by rewrite Hh'.
    + apply Forall_app. split; [exact Hp|exact Hp'].
    + by eapply same_armband_trans.
Qed.


End OutfieldAccounting.

(** X16: in the outfield stage the gameweek total and the auto-sub
    counter grow by the same amount, the sum of the combined total points
    of the bench picks subbed in. *)
Theorem outfield_subs_count_in_both_totals
    players MIN_DEFS MIN_MIDS MIN_FWDS gw_number fuel v v' :
  auto_sub_outfield players MIN_DEFS MIN_MIDS MIN_FWDS gw_number fuel v
  = Ok v' ->
  total_gw_points v' - total_gw_points v
  = py_sum (map (pick_points players gw_number)
              (subbed_in (outfield_breaks players MIN_DEFS MIN_MIDS MIN_FWDS
                            gw_number fuel v))) /\
  total_auto_sub_points v' - total_auto_sub_points v
  = py_sum (map (pick_points players gw_number)
              (subbed_in (outfield_breaks players MIN_DEFS MIN_MIDS MIN_FWDS
                            gw_number fuel v))).
Proof.
  intros H. apply auto_sub_outfield_accounting in H as (Hg & Ha & _).
  split; lia.
Qed.

(** X17: when the outfield loop returns, the queue is empty and every
    candidate that was on it has been disposed of exactly once (subbed in,
    removed, or dropped with the rest when the pool was full); and every
    pick subbed in has minutes in the gameweek and is a defender or a
    midfielder in the store. *)
Theorem outfield_loop_handles_each_candidate_once
    players MIN_DEFS MIN_MIDS MIN_FWDS gw_number fuel v v' :
  auto_sub_outfield players MIN_DEFS MIN_MIDS MIN_FWDS gw_number fuel v
  = Ok v' ->
  gw_bench_picks v' = [] /\
  handled (outfield_breaks players MIN_DEFS MIN_MIDS MIN_FWDS
             gw_number fuel v) ≡ₚ gw_bench_picks v /\
  Forall (fun pk => pick_played players gw_number pk = true /\
                    (pick_position players pk = Some DEFENDER \/
                     pick_position players pk = Some MIDFIELDER))
         (subbed_in (outfield_breaks players MIN_DEFS MIN_MIDS MIN_FWDS
                       gw_number fuel v)).
Proof.
  intros H. split.
  - by apply auto_sub_outfield_turns in H as [_ ?].
  - by apply auto_sub_outfield_accounting in H as (_ & _ & ? & ? & _).
Qed.

(** ** What a gameweek adds up to *)

Lemma scan_total players gw_number sp v v1 :
  for_each (starting_pick_step players gw_number) sp v = Ok v1 ->
  total_gw_points v1
  = total_gw_points v
    + py_sum (map (pick_points players gw_number)
                (List.filter (pick_played players gw_number) sp)).
Proof.
  revert v. induction sp as [|pk sp IH]; intros v H; simpl in H.
  { inversion H; subst. unfold py_sum; simpl. lia. }
  apply bind_Ok in H as (w & Hw & H). apply IH in H. rewrite H.
  apply starting_pick_step_inv in Hw as (p & r & _ & Hr & Hw).
  assert (Hpl : pick_played players gw_number pk
                = truthy (Combined.minutes r))
    by (unfold pick_played; by rewrite Hr).
  assert (Hpt : pick_points players gw_number pk = Combined.total_points r)
    by (unfold pick_points; by rewrite Hr).
  simpl. rewrite Hpl.
  destruct Hw as [[-> ->]|[-> [old ->]]]; simpl.
  - assert (Hn : total_gw_points (note_armband pk r v) = total_gw_points v)
      by (unfold note_armband; by repeat case_match).
    lia.
  - rewrite Hpt. unfold py_sum. simpl. lia.
Qed.

Lemma auto_sub_keeper_frame players gw_number bench v v' :
  auto_sub_keeper players gw_number bench v = Ok v' ->
  same_armband v v'.
Proof.
  unfold auto_sub_keeper. simpl. destruct bench as [|b bs]; [done|].
  intros H. apply bind_Ok in H as (w & Hw & H).
  apply bind_Ok in H as (l & _ & H). inversion H; subst; clear H.
  destruct (gk v); simpl in Hw.
  { inversion Hw; subst. by repeat split. }
  apply bind_Ok in Hw as (r & _ & Hw).
  destruct (truthy (Combined.minutes r)); [|inversion Hw; by repeat split].
  apply bind_Ok in Hw as (p & _ & Hw).
  unfold points_per_player_add in Hw. simpl in Hw.
  destruct (_ !! _); [|done]. inversion Hw; subst. by repeat split.
Qed.

Lemma captain_vc_extra_same v v' :
  same_armband v v' -> captain_vc_extra v' = captain_vc_extra v.
Proof.
  intros (Hcm & Hcp & Hvm & Hvp & _). unfold captain_vc_extra.
  by rewrite Hcm, Hcp, Hvm, Hvp.
Qed.

Lemma add_captain_vc_points_frame v :
  captain_vc_extra (add_captain_vc_points v) = captain_vc_extra v /\
  total_points (add_captain_vc_points v) = total_points v.
Proof.
  unfold add_captain_vc_points, captain_vc_extra.
  destruct (truthy (captain_mins v)) eqn:E1; simpl; [by rewrite E1|].
  destruct (truthy (vc_mins v)) eqn:E2; simpl; [by rewrite E1, E2|].
  by rewrite E1, E2.
Qed.

(** X18: the total a gameweek reports is the combined total points of the
    starting picks that have minutes, plus the captain / vice-captain
    extra, plus the combined total points of the outfield bench picks
    subbed in; a backup goalkeeper who is promoted contributes to none of
    the three terms.  The season total grows by that gameweek total. *)
Theorem gameweek_total_decomposition
    players MIN_DEFS MIN_MIDS MIN_FWDS gw_number sp bp v0 v :
  gameweek players MIN_DEFS MIN_MIDS MIN_FWDS gw_number sp bp v0 = Ok v ->
  exists breaks,
    gameweek_outfield_breaks players MIN_DEFS MIN_MIDS MIN_FWDS gw_number
      sp bp v0 = Ok breaks /\
    total_gw_points v
    = py_sum (map (pick_points players gw_number)
                (List.filter (pick_played players gw_number) sp))
      + captain_vc_extra v
      + py_sum (map (pick_points players gw_number) (subbed_in breaks)) /\
    total_points v = total_points v0 + total_gw_points v.
Proof.
  intros H. unfold gameweek in H. unfold gameweek_outfield_breaks.
  apply bind_Ok in H as (v3 & Hb & H). apply bind_Ok in H as (v4 & Hloop & H).
  inversion H; subst; clear H. rewrite Hb, bind_Ok_eq.
  eexists. split; [reflexivity|].
  unfold before_outfield in Hb.
  apply bind_Ok in Hb as (v1 & Hscan & Hb).
  apply bind_Ok in Hb as (v2 & Hkeep & Hb).
  destruct (len (gw_bench_picks v2) =? 3); [|done].
  inversion Hb; subst v2; clear Hb.
  pose proof (scan_total _ _ _ _ _ Hscan) as Htot.
  destruct (scan_counters _ _ _ _ _ Hscan) as (_ & _ & _ & Htp).
  pose proof (auto_sub_keeper_total_gw_points _ _ _ _ _ Hkeep) as Hk.
  pose proof (auto_sub_keeper_frame _ _ _ _ _ Hkeep) as Hkf.
  rewrite add_captain_vc_points_extra in Hk.
  destruct (add_captain_vc_points_frame v1) as [Hex Htp1].
  apply auto_sub_outfield_accounting in Hloop as (Hg & _ & _ & _ & Hlf).
  cbv zeta in Hg.
  assert (Hextra : captain_vc_extra v4 = captain_vc_extra v1).
  { rewrite (captain_vc_extra_same _ _ Hlf).
    by rewrite (captain_vc_extra_same _ _ Hkf). }
  assert (Htp4 : total_points v4 = total_points v0).
  { destruct Hlf as (_ & _ & _ & _ & _ & _ & ->).
    destruct Hkf as (_ & _ & _ & _ & _ & _ & ->). by rewrite Htp1, Htp. }
  simpl in Htot. simpl.
  change (captain_vc_extra (set_total_points _ v4))
    with (captain_vc_extra v4).
  rewrite Hextra, Htp4. split; lia.
Qed.

(** ** The aggregator on double gameweeks *)

Lemma fold_add_minutes (l : list PlayerHistory.t) c :
  Combined.minutes (fold_left Combined.add l c)
  = Combined.minutes c + py_sum (map PlayerHistory.minutes l).
Proof.
  revert c. induction l as [|h l IH]; intros c; unfold py_sum in *; simpl.
  - lia.
  - rewrite IH. simpl. lia.
Qed.

Lemma fold_add_total_points (l : list PlayerHistory.t) c :
  Combined.total_points (fold_left Combined.add l c)
  = Combined.total_points c + py_sum (map PlayerHistory.total_points l).
Proof.
  revert c. induction l as [|h l IH]; intros c; unfold py_sum in *; simpl.
  - lia.
  - rewrite IH. simpl. lia.
Qed.

Lemma py_sum_nonneg_pos (l : list Z) :
  Forall (fun x => 0 <= x) l ->
  0 <= py_sum l /\ (0 < py_sum l <-> Exists (fun x => 0 < x) l).
Proof.
  induction 1 as [|x l Hx _ [IH1 IH2]]; unfold py_sum in *; simpl.
  - split; [lia|]. split; [lia|]. intros H. inversion H.
  - split; [lia|]. rewrite Exists_cons. split.
    + intros Hpos. destruct (decide (0 < x)); [by left|].
      right. apply IH2. lia.
    + intros [Hpos|Hex]; [lia|]. apply IH2 in Hex. lia.
Qed.

(** X19: for a player of the store, the combined minutes and the combined
    total points of a gameweek are the sums over that gameweek's fixtures
    (none, one or several); so, fixture minutes being non-negative, the
    player counts as having played (combined minutes non-zero, which is
    what the engine tests) exactly when he has minutes in at least one
    fixture of the gameweek. *)
Theorem combined_result_sums_the_fixtures players player_id gw p :
  players !! player_id = Some p ->
  Forall (fun h => 0 <= PlayerHistory.minutes h) (Player.history p) ->
  exists r,
    get_combined_gameweek_result_for_player players player_id gw = Ok r /\
    Combined.minutes r = py_sum (map PlayerHistory.minutes (fixtures_of p gw)) /\
    Combined.total_points r
    = py_sum (map PlayerHistory.total_points (fixtures_of p gw)) /\
    (truthy (Combined.minutes r) = true
     <-> Exists (fun h => 0 < PlayerHistory.minutes h) (fixtures_of p gw)).
Proof.
  intros Hp Hnn. eexists. split; [by apply combined_of_history|].
  fold (fixtures_of p gw). rewrite fold_add_minutes, fold_add_total_points.
  simpl. split; [done|]. split; [done|].
  assert (Hnn' : Forall (fun x => 0 <= x)
                        (map PlayerHistory.minutes (fixtures_of p gw))).
  { apply Forall_forall. intros x Hx. apply list_elem_of_In, in_map_iff in Hx
      as (h & <- & Hh). apply filter_In in Hh as [Hh _].
    rewrite Forall_forall in Hnn. apply Hnn. by apply list_elem_of_In. }
  destruct (py_sum_nonneg_pos _ Hnn') as [Hge Hiff].
  rewrite truthy_true. split.
  - intros Hne. assert (Hpos : 0 < py_sum (map PlayerHistory.minutes
                                             (fixtures_of p gw))) by lia.
    apply Hiff in Hpos. apply Exists_exists in Hpos as (x & Hx & Hxpos).
    apply list_elem_of_In, in_map_iff in Hx as (h & <- & Hh).
    apply Exists_exists. exists h. split; [by apply list_elem_of_In|done].
  - intros Hex. apply Exists_exists in Hex as (h & Hh & Hpos).
    assert (Hpos' : 0 < py_sum (map PlayerHistory.minutes (fixtures_of p gw))).
    { apply Hiff. apply Exists_exists. exists (PlayerHistory.minutes h).
      split; [|done]. apply list_elem_of_In, in_map, list_elem_of_In. done. }
    lia.
Qed.

(** ** Squads [get_gw1_picks_standings] rejects *)



(** ** A gameweek in which nobody of the squad plays *)

Section BlankGameweek.

Variable players : gmap string Player.t.
Variables MIN_DEFS MIN_MIDS MIN_FWDS gw_number : Z.

Lemma same_scores_refl v : same_scores v v.
Proof. by repeat split. Qed.

Lemma same_scores_trans v1 v2 v3 :
  same_scores v1 v2 -> same_scores v2 v3 -> same_scores v1 v3.
Proof.
  unfold same_scores. intros (?&?&?&?&?&?&?&?&?&?) (?&?&?&?&?&?&?&?&?&?).
  repeat split; congruence.
Qed.

Lemma idle_pick_lookups pick :
  idle_pick players gw_number pick ->
  exists p r,
    players_get players (Pick.element pick) = Ok p /\
    get_combined_gameweek_result_for_player players (Player.id p) gw_number
    = Ok r /\
    Combined.minutes r = 0.
Proof.
  intros (r & Hr & Hm). unfold pick_result in Hr.
  apply bind_Ok in Hr as (p & Hp & Hr). eauto.
Qed.

(** A starter without minutes only touches the armband variables, and
    leaves them 0 if they were. *)
Lemma idle_starting_pick v pick :
  idle_pick players gw_number pick ->
  exists v',
    starting_pick_step players gw_number v pick = Ok v' /\
    same_scores v v' /\
    gw_bench_picks v' = gw_bench_picks v /\
    (captain_mins v = 0 -> captain_mins v' = 0) /\
    (vc_mins v = 0 -> vc_mins v' = 0).
Proof.
  intros H. apply idle_pick_lookups in H as (p & r & Hp & Hr & Hm).
  exists (note_armband pick r v). split.
  - unfold starting_pick_step. rewrite Hp, bind_Ok_eq, Hr, bind_Ok_eq.
    cbv zeta. by rewrite Hm, truthy_zero.
  - unfold note_armband. rewrite Hm.
    destruct (Pick.is_captain pick), (Pick.is_vice_captain pick); simpl;
      repeat split; auto.
Qed.

Lemma idle_starting_scan sp v :
  Forall (idle_pick players gw_number) sp ->
  exists v',
    for_each (starting_pick_step players gw_number) sp v = Ok v' /\
    same_scores v v' /\
    gw_bench_picks v' = gw_bench_picks v /\
    (captain_mins v = 0 -> captain_mins v' = 0) /\
    (vc_mins v = 0 -> vc_mins v' = 0).
Proof.
  intros H. revert v. induction H as [|pk sp Hpk _ IH]; intros v; simpl.
  { exists v. split; [done|]. split; [apply same_scores_refl|done]. }
  destruct (idle_starting_pick v pk Hpk) as (w & -> & Hs & Hb & Hc & Hv).
  rewrite bind_Ok_eq.
  destruct (IH w) as (v' & -> & Hs' & Hb' & Hc' & Hv').
  exists v'. split; [done|]. split; [by eapply same_scores_trans|].
  split; [congruence|]. split; auto.
Qed.

(** A pass over a queue headed by a candidate without minutes removes
    that candidate and changes nothing else. *)
Lemma idle_bench_pass v pick rest :
  gw_bench_picks v = pick :: rest ->
  len (outfield_players v) <> 10 ->
  idle_pick players gw_number pick ->
  bench_pass players MIN_DEFS MIN_MIDS MIN_FWDS gw_number v
  = Ok (set_gw_bench_picks rest v, Some (Removed pick)).
Proof.
  intros Hq Hroom H. apply idle_pick_lookups in H as (p & r & Hp & Hr & Hm).
  unfold bench_pass. rewrite Hq. simpl. unfold bench_pick_step.
  destruct (Z.eqb_spec (len (outfield_players v)) 10); [done|].
  rewrite Hp, bind_Ok_eq, Hr, bind_Ok_eq. cbv zeta.
  unfold check_sub_in. rewrite Hm, truthy_zero. simpl.
  unfold remove_or_sub_in. simpl. rewrite Hq. reflexivity.
Qed.

Lemma idle_outfield_loop queue v :
  gw_bench_picks v = queue ->
  len (outfield_players v) <> 10 ->
  Forall (idle_pick players gw_number) queue ->
  exists v',
    auto_sub_outfield players MIN_DEFS MIN_MIDS MIN_FWDS gw_number
      (length queue) v = Ok v' /\
    same_scores v v'.
Proof.
  intros Hq Hroom H. revert v Hq Hroom.
  induction H as [|pk rest Hpk _ IH]; intros v Hq Hroom; simpl; rewrite Hq.
  { exists v. split; [done|apply same_scores_refl]. }
  rewrite (idle_bench_pass v pk rest Hq Hroom Hpk), bind_Ok_eq. simpl.
  destruct (IH (set_gw_bench_picks rest v) eq_refl Hroom) as (v' & -> & Hs).
  exists v'. split; [done|].
  eapply same_scores_trans; [|exact Hs]. by repeat split.
Qed.

End BlankGameweek.

(** X21: a gameweek in which no pick of the squad has minutes (a blank
    gameweek, or one still to be played) returns without raising provided
    the 15 players are in the store; it reports a gameweek total of 0
    with nobody in the scoring set, and leaves the season total, the
    captain, vice-captain and auto-sub counters and the points per player
    as they were. *)
Theorem blank_gameweek_adds_nothing
    players MIN_DEFS MIN_MIDS MIN_FWDS gw_number sp b1 b2 b3 b4 v0 :
  Forall (idle_pick players gw_number) (sp ++ [b2; b3; b4]) ->
  (exists r,
     get_combined_gameweek_result_for_player players (Pick.element b1)
       gw_number = Ok r /\ Combined.minutes r = 0) ->
  exists v,
    gameweek players MIN_DEFS MIN_MIDS MIN_FWDS gw_number sp [b1; b2; b3; b4] v0
    = Ok v /\
    total_gw_points v = 0 /\
    scoring_set v = [] /\
    total_points v = total_points v0 /\
    total_captain_points v = total_captain_points v0 /\
    total_vice_captain_points v = total_vice_captain_points v0 /\
    total_auto_sub_points v = total_auto_sub_points v0 /\
    points_per_player v = points_per_player v0.
Proof.
  intros Hidle (r1 & Hr1 & Hm1). apply Forall_app in Hidle as [Hsp Hbench].
  destruct (idle_starting_scan players gw_number sp (start_gameweek v0) Hsp)
    as (v1 & Hscan & Hs1 & Hb1 & Hc1 & Hv1).
  specialize (Hc1 eq_refl). specialize (Hv1 eq_refl).
  assert (Hcap : add_captain_vc_points v1 = v1).
  { unfold add_captain_vc_points. by rewrite Hc1, Hv1, truthy_zero. }
  assert (Hgk1 : gk v1 = None) by (by destruct Hs1 as (_ & -> & _)).
  assert (Hkeep : auto_sub_keeper players gw_number [b1; b2; b3; b4] v1
                  = Ok (set_gw_bench_picks [b2; b3; b4]
                          (set_gw_bench_picks [b1; b2; b3; b4] v1))).
  { unfold auto_sub_keeper. simpl. rewrite Hgk1. cbv zeta.
    rewrite Hr1, bind_Ok_eq, Hm1, truthy_zero. reflexivity. }
  set (v2 := set_gw_bench_picks [b2; b3; b4]
               (set_gw_bench_picks [b1; b2; b3; b4] v1)) in *.
  assert (Hs2 : same_scores v1 v2) by (by repeat split).
  assert (Hroom : len (outfield_players v2) <> 10).
  { unfold outfield_players. simpl.
    destruct Hs1 as (_ & _ & -> & -> & -> & _). simpl. done. }
  destruct (idle_outfield_loop players MIN_DEFS MIN_MIDS MIN_FWDS gw_number
              [b2; b3; b4] v2 eq_refl Hroom Hbench) as (v3 & Hloop & Hs3).
  exists (set_total_points (total_points v3 + total_gw_points v3) v3).
  split.
  - unfold gameweek, before_outfield. rewrite Hscan, bind_Ok_eq, Hcap.
    cbv zeta. rewrite Hkeep, bind_Ok_eq.
    change (len (gw_bench_picks v2) =? 3) with true. cbv iota.
    unfold mret, outcome_ret. rewrite bind_Ok_eq.
    change (length (gw_bench_picks v2)) with 3%nat.
    change (length [b2; b3; b4]) with 3%nat in Hloop.
    rewrite Hloop. reflexivity.
  - pose proof (same_scores_trans _ _ _ Hs1
                 (same_scores_trans _ _ _ Hs2 Hs3))
      as (Hg & Hgk & Hd & Hm & Hf & Htp & Htc & Htv & Hta & Hppp).
    simpl in *. unfold scoring_set, outfield_players. simpl.
    rewrite Hg, Hgk, Hd, Hm, Hf, Htp, Htc, Htv, Hta, Hppp.
    repeat split; try done. lia.
Qed.

(** ** [get_captain_hindsight] *)

Lemma captain_foresight_row_id users players user row :
  captain_foresight_row users players user = Ok row ->
  CaptainResultRow.id row = User.id user /\
  CaptainResultRow.name row = User.name user.
Proof.
  unfold captain_foresight_row. intros H.
  apply bind_Ok in H as ([[[a b] n] w] & _ & H).
  by inversion H.
Qed.

Lemma py_index_last {A} (l : list A) x :
  py_index l (-1) = Ok x -> last l = Some x.
Proof.
  destruct l as [|y l]; [done|].
  change (-1) with (- Z.of_nat 1).
  rewrite (py_index_from_end (y :: l) 1) by (simpl; lia).
  rewrite last_lookup.
  replace (length (y :: l) - 1)%nat with (Init.Nat.pred (length (y :: l)))
    by (simpl; lia).
  destruct (_ !! _); [|done]. by intros [= ->].
Qed.

Lemma Forall2_with_elem_of {A B} (R : A -> B -> Prop) l k :
  Forall2 R l k -> Forall2 (fun x y => x ∈ l /\ R x y) l k.
Proof.
  induction 1 as [|x y l k HR _ IH]; constructor.
  - split; [left|done].
  - eapply Forall2_impl; [exact IH|]. intros ?? [??]. split; [by right|done].
Qed.

Lemma Forall2_compose {A B C} (R : A -> B -> Prop) (S : B -> C -> Prop) l k m :
  Forall2 R l k -> Forall2 S k m ->
  Forall2 (fun x z => exists y, R x y /\ S y z) l m.
Proof.
  intros H. revert m. induction H as [|x y l k HR _ IH]; intros m Hm;
    inversion Hm; subst; constructor; eauto.
Qed.

(** In a dictionary keyed by user id with distinct keys, looking up the
    id of one of its users returns that user. *)
Lemma dict_get_user users user :
  NoDup users.*1 -> users_keyed_by_id users -> user ∈ users.*2 ->
  dict_get users (User.id user) = Ok user.
Proof.
  intros Hnd Hkey Hu. apply dict_get_in; [done|].
  apply list_elem_of_fmap in Hu as ([k u] & -> & Hin).
  unfold users_keyed_by_id in Hkey. rewrite Forall_forall in Hkey.
  specialize (Hkey _ Hin). simpl in *. by subst k.
Qed.

(** X22: when the user dictionary is keyed by user id (distinct keys),
    [get_captain_hindsight] returns one row per user whose points are the
    running total of the last entry of the user's history minus the
    captain total of that user's own row of [get_captain_foresight] (found
    again by id in the dictionary), and the rows are in descending order
    of those points. *)
Theorem captain_hindsight_subtracts_own_captain_points users players rows :
  NoDup users.*1 ->
  users_keyed_by_id users ->
  get_captain_hindsight users players = Ok rows ->
  (exists raw, rows ≡ₚ raw /\
               Forall2 (hindsight_row users players) users.*2 raw) /\
  StronglySorted
    (fun x y => PointsWithoutCaptainResultRow.points y
                <= PointsWithoutCaptainResultRow.points x) rows.
Proof.
  intros Hnd Hkey H. unfold get_captain_hindsight in H.
  apply bind_Ok in H as (crows & Hfore & H).
  apply bind_Ok in H as (hres & Hloop & H).
  inversion H; subst rows; clear H.
  split; [|apply (py_sorted_sorted PointsWithoutCaptainResultRow.points true)].
  unfold get_captain_foresight in Hfore.
  apply bind_Ok in Hfore as (results & Hrows & Hfore).
  inversion Hfore; subst crows; clear Hfore.
  apply for_append_Ok in Hrows as (results' & Hrows & ->). simpl in Hloop.
  apply for_append_Ok in Hloop as (hres' & Hloop & ->). simpl.
  destruct (Permutation_Forall2
              (py_sorted_perm CaptainResultRow.total_captain_points true
                 results') Hloop) as (raw & Hperm & Hraw).
  exists raw. split.
  { etrans; [apply py_sorted_perm|done]. }
  apply Forall2_with_elem_of in Hrows.
  eapply Forall2_impl; [exact (Forall2_compose _ _ _ _ _ Hrows Hraw)|].
  intros user row (crow & [Hin Hcrow] & Hrow). simpl in Hrow.
  destruct (captain_foresight_row_id _ _ _ _ Hcrow) as [Hid Hname].
  rewrite Hid, (dict_get_user users user Hnd Hkey Hin), bind_Ok_eq in Hrow.
  apply bind_Ok in Hrow as (last_gw & Hlast & Hrow).
  inversion Hrow; subst row; clear Hrow.
  exists crow, last_gw. split; [done|]. split; [by apply py_index_last|].
  by rewrite Hname.
Qed.

(** With Bo's triple captain counted at (3 - 1) * (3 * 6) = 36, Bo's 56
    points become 20. *)
Lemma captain_hindsight_subtracts_own_captain_points_witness :
  let rows := [ PointsWithoutCaptainResultRow.mk "103" "Cy" 63;
                PointsWithoutCaptainResultRow.mk "101" "Ada" 58;
                PointsWithoutCaptainResultRow.mk "102" "Bo" 20 ] in
  (exists raw, rows ≡ₚ raw /\
               Forall2 (hindsight_row LeagueScenario.users
                          LeagueScenario.players)
                       LeagueScenario.users.*2 raw) /\
  StronglySorted
    (fun x y => PointsWithoutCaptainResultRow.points y
                <= PointsWithoutCaptainResultRow.points x) rows.
Proof.
  apply (captain_hindsight_subtracts_own_captain_points
           LeagueScenario.users LeagueScenario.players).
  - apply (bool_decide_unpack _). vm_compute. exact I.
  - repeat constructor.
  - vm_compute. reflexivity.
Defined.

(** ** The properties above on the concrete league *)

Lemma gameweek_players_are_the_playing_picks_witness :
  Forall2 (gameweek_player_of LeagueScenario.players 1)
          (List.filter playing
             (UserHistory.picks
                (LeagueScenario.week 1 30 30 LeagueScenario.squad)))
          LeagueScenario.ada_gameweek_1.
Proof.
  apply (gameweek_players_are_the_playing_picks
           LeagueScenario.users LeagueScenario.players "101" 1
           LeagueScenario.ada).
  - reflexivity.
  - reflexivity.
  - vm_compute. reflexivity.
Defined.

Lemma gameweek_players_index_edges_witness :
  (forall gameweek_number,
     len (User.history LeagueScenario.ada) < gameweek_number \/
     gameweek_number <= - len (User.history LeagueScenario.ada) ->
     get_gameweek_players LeagueScenario.users LeagueScenario.players
       "101" gameweek_number = Raise IndexError) /\
  (forall last_gameweek,
     last (User.history LeagueScenario.ada) = Some last_gameweek ->
     get_gameweek_players LeagueScenario.users LeagueScenario.players "101" 0
     = for_each (gameweek_player_step LeagueScenario.players 0)
                (UserHistory.picks last_gameweek) []) /\
  (forall other_id,
     other_id ∉ LeagueScenario.users.*1 ->
     get_gameweek_players LeagueScenario.users LeagueScenario.players
       other_id 1 = Raise (KeyError other_id)).
Proof.
  apply (gameweek_players_index_edges
           LeagueScenario.users LeagueScenario.players "101"
           LeagueScenario.ada).
  reflexivity.
Defined.

Lemma historic_standings_are_sorted_tables_witness :
  length LeagueScenario.standings = finished_count LeagueScenario.gameweeks /\
  forall i s, LeagueScenario.standings !! i = Some s ->
    map HistoricStandingListItem.id s
    ≡ₚ map User.id LeagueScenario.users.*2 /\
    StronglySorted
      (fun x y => HistoricStandingListItem.total_points y
                  <= HistoricStandingListItem.total_points x) s /\
    forall row, row ∈ s ->
      exists user, user ∈ LeagueScenario.users.*2 /\ standing_row i user row.
Proof.
  apply (historic_standings_are_sorted_tables
           LeagueScenario.gameweeks LeagueScenario.users
           LeagueScenario.standings).
  vm_compute. reflexivity.
Defined.

Lemma historic_standings_are_cached_witness :
  Some LeagueScenario.standings = Some LeagueScenario.standings /\
  get_historic_standings LeagueScenario.gameweeks LeagueScenario.users
    (Some LeagueScenario.standings)
  = Ok (LeagueScenario.standings, Some LeagueScenario.standings) /\
  (LeagueScenario.standings <> [] ->
   forall gameweeks' users',
     get_historic_standings gameweeks' users' (Some LeagueScenario.standings)
     = Ok (LeagueScenario.standings, Some LeagueScenario.standings)).
Proof.
  apply (historic_standings_are_cached
           LeagueScenario.gameweeks LeagueScenario.users None).
  vm_compute. reflexivity.
Defined.

Lemma first_places_add_up_witness :
  let rows := [ LongestLeaderResultRow.mk "102" "Bo" 1;
                LongestLeaderResultRow.mk "103" "Cy" 1;
                LongestLeaderResultRow.mk "101" "Ada" 0 ] in
  py_sum (map LongestLeaderResultRow.first_place_count rows)
  = Z.of_nat (finished_count LeagueScenario.gameweeks) /\
  map LongestLeaderResultRow.id rows
  ≡ₚ map User.id LeagueScenario.users.*2 /\
  StronglySorted
    (fun x y => LongestLeaderResultRow.first_place_count y
                <= LongestLeaderResultRow.first_place_count x) rows.
Proof.
  apply (first_places_add_up LeagueScenario.gameweeks LeagueScenario.users
           _ (Some LeagueScenario.standings)).
  - apply (bool_decide_unpack _). vm_compute. exact I.
  - vm_compute. reflexivity.
Defined.

Lemma last_places_add_up_witness :
  let rows := [ LongestLoserResultRow.mk "102" "Bo" 1;
                LongestLoserResultRow.mk "103" "Cy" 1;
                LongestLoserResultRow.mk "101" "Ada" 0 ] in
  py_sum (map LongestLoserResultRow.last_place_count rows)
  = Z.of_nat (finished_count LeagueScenario.gameweeks) /\
  map LongestLoserResultRow.id rows
  ≡ₚ map User.id LeagueScenario.users.*2 /\
  StronglySorted
    (fun x y => LongestLoserResultRow.last_place_count y
                <= LongestLoserResultRow.last_place_count x) rows.
Proof.
  apply (last_places_add_up LeagueScenario.gameweeks LeagueScenario.users
           _ (Some LeagueScenario.standings)).
  - apply (bool_decide_unpack _). vm_compute. exact I.
  - vm_compute. reflexivity.
Defined.

Lemma biggest_leader_gaps_are_not_negative_witness :
  let rows := [ BiggestLeaderResultRow.mk "102" "Bo" 6 1;
                BiggestLeaderResultRow.mk "103" "Cy" 5 2 ] in
  Forall (fun r => 0 <= BiggestLeaderResultRow.point_gap r) rows /\
  map BiggestLeaderResultRow.gameweek rows
  ≡ₚ map (fun i => Z.of_nat i + 1)
         (seq 0 (finished_count LeagueScenario.gameweeks)) /\
  StronglySorted
    (fun x y => BiggestLeaderResultRow.point_gap y
                <= BiggestLeaderResultRow.point_gap x) rows.
Proof.
  apply (biggest_leader_gaps_are_not_negative
           LeagueScenario.gameweeks LeagueScenario.users
           _ (Some LeagueScenario.standings)).
  vm_compute. reflexivity.
Defined.

Lemma biggest_loser_gaps_are_not_positive_witness :
  let rows := [ BiggestLeaderResultRow.mk "102" "Bo" (-14) 2;
                BiggestLeaderResultRow.mk "103" "Cy" (-10) 1 ] in
  Forall (fun r => BiggestLeaderResultRow.point_gap r <= 0) rows /\
  length rows = finished_count LeagueScenario.gameweeks /\
  StronglySorted
    (fun x y => BiggestLeaderResultRow.point_gap x
                <= BiggestLeaderResultRow.point_gap y) rows.
Proof.
  apply (biggest_loser_gaps_are_not_positive
           LeagueScenario.gameweeks LeagueScenario.users
           _ (Some LeagueScenario.standings)).
  vm_compute. reflexivity.
Defined.

Lemma biggest_gaps_before_first_gameweek_witness :
  get_biggest_leader LeagueScenario.preseason LeagueScenario.users None
  = Ok ([], Some []) /\
  get_biggest_loser LeagueScenario.preseason LeagueScenario.users None
  = Raise IndexError.
Proof.
  apply (biggest_gaps_before_first_gameweek
           LeagueScenario.preseason LeagueScenario.users).
  reflexivity.
Defined.

Lemma biggest_gaps_in_a_league_of_one_witness :
  get_biggest_leader LeagueScenario.gameweeks [("101", LeagueScenario.ada)]
    None = Raise IndexError /\
  exists rows cache,
    get_biggest_loser LeagueScenario.gameweeks [("101", LeagueScenario.ada)]
      None = Ok (rows, cache) /\
    length rows = finished_count LeagueScenario.gameweeks /\
    Forall (fun r => BiggestLeaderResultRow.point_gap r = 0) rows.
Proof.
  apply (biggest_gaps_in_a_league_of_one
           LeagueScenario.gameweeks "101" LeagueScenario.ada).
  vm_compute. lia.
Defined.

(** Bo's triple captain of gameweek 1 has 6 points: the captain total
    grows by (3 - 1) * (3 * 6) = 36. *)
Lemma captain_foresight_applies_multiplier_twice_witness :
  captain_foresight_step LeagueScenario.users LeagueScenario.players
    LeagueScenario.bo (0, 0, 0, 0)
    (LeagueScenario.week 1 36 36 LeagueScenario.squad_3xc)
  = Ok (36, 0, 0, 0).
Proof.
  pose proof (captain_foresight_applies_multiplier_twice
                LeagueScenario.users LeagueScenario.players
                LeagueScenario.bo
                (LeagueScenario.week 1 36 36 LeagueScenario.squad_3xc)
                (LeagueScenario.returned []
                   (get_gameweek_players LeagueScenario.users
                      LeagueScenario.players "102" 1))
                (Scenario.pick "6" 6 3 true false)
                (Scenario.pick "7" 7 1 false true)
                0 0 0 0) as Hw.
  destruct Hw as [Hcap _].
  - apply store_keyed_by_id.
  - reflexivity.
  - reflexivity.
  - vm_compute. reflexivity.
  - apply (bool_decide_unpack _). vm_compute. exact I.
  - reflexivity.
  - reflexivity.
  - apply (Hcap (Combined.mk 6 150 1 1 0 0 0 0 0 0 0 0 0 0)).
    + vm_compute. discriminate.
    + vm_compute. reflexivity.
Defined.

Lemma captain_foresight_counters_witness :
  let row := CaptainResultRow.mk "101" "Ada" 12 0 0 0 in
  0 <= CaptainResultRow.total_gameweeks_with_vc row /\
  0 <= CaptainResultRow.total_gameweeks_without_captain row /\
  CaptainResultRow.total_gameweeks_with_vc row
  + CaptainResultRow.total_gameweeks_without_captain row
  <= len (List.filter has_picks (User.history LeagueScenario.ada)) /\
  (CaptainResultRow.total_gameweeks_with_vc row = 0 ->
   CaptainResultRow.total_vc_points row = 0).
Proof.
  apply (captain_foresight_counters LeagueScenario.users
           LeagueScenario.players LeagueScenario.ada).
  vm_compute. reflexivity.
Defined.

Lemma goal_involvements_are_goals_plus_assists_witness :
  let rows := [ GoalInvolvementsResultRow.mk "101" "Ada" 2;
                GoalInvolvementsResultRow.mk "102" "Bo" 2;
                GoalInvolvementsResultRow.mk "103" "Cy" 2 ] in
  (exists raw, rows ≡ₚ raw /\
               Forall2 (involvement_row LeagueScenario.users
                          LeagueScenario.players)
                       LeagueScenario.users.*2 raw) /\
  StronglySorted
    (fun x y => GoalInvolvementsResultRow.goal_involvements y
                <= GoalInvolvementsResultRow.goal_involvements x) rows.
Proof.
  apply (goal_involvements_are_goals_plus_assists
           LeagueScenario.users LeagueScenario.players).
  - apply (bool_decide_unpack _). vm_compute. exact I.
  - vm_compute. reflexivity.
Defined.

Lemma outfield_subs_count_in_both_totals_witness :
  total_gw_points LeagueScenario.four_out_after_outfield
  - total_gw_points Scenario.four_out_before_outfield
  = py_sum (map (pick_points Scenario.four_out 1)
              (subbed_in (outfield_breaks Scenario.four_out 3 2 1 1 3
                            Scenario.four_out_before_outfield))) /\
  total_auto_sub_points LeagueScenario.four_out_after_outfield
  - total_auto_sub_points Scenario.four_out_before_outfield
  = py_sum (map (pick_points Scenario.four_out 1)
              (subbed_in (outfield_breaks Scenario.four_out 3 2 1 1 3
                            Scenario.four_out_before_outfield))).
Proof.
  apply (outfield_subs_count_in_both_totals Scenario.four_out 3 2 1 1 3
           Scenario.four_out_before_outfield
           LeagueScenario.four_out_after_outfield).
  vm_compute. reflexivity.
Defined.

Lemma outfield_loop_handles_each_candidate_once_witness :
  gw_bench_picks LeagueScenario.four_out_after_outfield = [] /\
  handled (outfield_breaks Scenario.four_out 3 2 1 1 3
             Scenario.four_out_before_outfield)
  ≡ₚ gw_bench_picks Scenario.four_out_before_outfield /\
  Forall (fun pk => pick_played Scenario.four_out 1 pk = true /\
                    (pick_position Scenario.four_out pk = Some DEFENDER \/
                     pick_position Scenario.four_out pk = Some MIDFIELDER))
         (subbed_in (outfield_breaks Scenario.four_out 3 2 1 1 3
                       Scenario.four_out_before_outfield)).
Proof.
  apply (outfield_loop_handles_each_candidate_once Scenario.four_out 3 2 1 1 3
           Scenario.four_out_before_outfield
           LeagueScenario.four_out_after_outfield).
  vm_compute. reflexivity.
Defined.

Lemma gameweek_total_decomposition_witness :
  exists breaks,
    gameweek_outfield_breaks Scenario.four_out 3 2 1 1
      Scenario.starting_picks Scenario.bench_picks Scenario.fresh
    = Ok breaks /\
    total_gw_points LeagueScenario.four_out_after_gameweek
    = py_sum (map (pick_points Scenario.four_out 1)
                (List.filter (pick_played Scenario.four_out 1)
                   Scenario.starting_picks))
      + captain_vc_extra LeagueScenario.four_out_after_gameweek
      + py_sum (map (pick_points Scenario.four_out 1) (subbed_in breaks)) /\
    total_points LeagueScenario.four_out_after_gameweek
    = total_points Scenario.fresh
      + total_gw_points LeagueScenario.four_out_after_gameweek.
Proof.
  apply (gameweek_total_decomposition Scenario.four_out 3 2 1 1
           Scenario.starting_picks Scenario.bench_picks Scenario.fresh
           LeagueScenario.four_out_after_gameweek).
  vm_compute. reflexivity.
Defined.

(** The captain of the league has two fixtures in gameweek 1. *)
Lemma combined_result_sums_the_fixtures_witness :
  exists r,
    get_combined_gameweek_result_for_player LeagueScenario.players "6" 1
    = Ok r /\
    Combined.minutes r
    = py_sum (map PlayerHistory.minutes
                (fixtures_of LeagueScenario.captain 1)) /\
    Combined.total_points r
    = py_sum (map PlayerHistory.total_points
                (fixtures_of LeagueScenario.captain 1)) /\
    (truthy (Combined.minutes r) = true
     <-> Exists (fun h => 0 < PlayerHistory.minutes h)
                (fixtures_of LeagueScenario.captain 1)).
Proof.
  apply (combined_result_sums_the_fixtures LeagueScenario.players "6" 1
           LeagueScenario.captain).
  - vm_compute. reflexivity.
  - repeat constructor; vm_compute; discriminate.
Defined.


(** Nobody of the league's store has a fixture in gameweek 2. *)
Lemma blank_gameweek_adds_nothing_witness :
  exists v,
    gameweek LeagueScenario.players 3 2 1 2 Scenario.starting_picks
      Scenario.bench_picks Scenario.fresh = Ok v /\
    total_gw_points v = 0 /\
    scoring_set v = [] /\
    total_points v = total_points Scenario.fresh /\
    total_captain_points v = total_captain_points Scenario.fresh /\
    total_vice_captain_points v = total_vice_captain_points Scenario.fresh /\
    total_auto_sub_points v = total_auto_sub_points Scenario.fresh /\
    points_per_player v = points_per_player Scenario.fresh.
Proof.
  apply (blank_gameweek_adds_nothing LeagueScenario.players 3 2 1 2
           Scenario.starting_picks
           (Scenario.pick "12" 12 0 false false)
           (Scenario.pick "13" 13 0 false false)
           (Scenario.pick "14" 14 0 false false)
           (Scenario.pick "15" 15 0 false false) Scenario.fresh).
  - unfold Scenario.starting_picks. cbn [app].
    repeat (constructor;
            [exists Combined.zero; split; vm_compute; reflexivity|]).
    constructor.
  - exists Combined.zero. split; vm_compute; reflexivity.
Defined.
